(* ===== verification/_CoqProject ===== *)
-Q . S2P
Prelude.v
PyFloat.v
NdArray.v
Grid.v
Weights.v
Backend.v
Variogram.v
Kriging.v
Pipeline.v
PyKrige.v
Radial.v
Loader.v
Binning.v
Digits.v
FixCsv.v
FixRun.v
Colour.v
Geo.v
Ecef.v
Lines.v
Centre.v
RawLoad.v
Folium.v
