(* ===== verification/Prelude.v ===== *)
(** * A verification library for the RSSI heatmap scripts (rwlloyd/f9p_adapter_espnow_RSSI)

    The repository is a set of single-purpose Python scripts under [src/data/]
    that post-process GPS/RSSI samples [(rssi, lat, lon, alt, heading)]
    captured by a robot and render them as heatmaps or plots.  The centre of
    the repository is [src/data/heatmap_gstools.py], a linear pipeline

      [load_csv] -> [project_to_meters] -> [build_grid] -> [fit_variogram]
        -> [krige_with_gstools] -> [to_latlon] -> [grid_to_heatmap_data]
        -> filter [w > 0] -> map centred at the median -> [create_folium_map]

    whose stages call numpy, pyproj and gstools.  The repository's own code is
    the glue between these calls: the grid construction, the two nested
    [try]/[except] fallback chains, the shape repair of the kriging result, the
    clipping of the predicted field into weights and the zipping of weights
    with grid coordinates.  That glue is what this development models, line
    by line; the library calls it makes are parameters of the model.

    ** Numbers

    A Python or numpy float is modelled by [PyFloat.pyfloat]: a finite value
    as an exact rational [Q], plus [NaN], [+inf] and [-inf], with numpy's
    propagation rules for them (NaN is absorbing, comparisons with NaN are
    false, [np.clip] keeps NaN, [np.nan_to_num] maps it to 0).  Rounding of
    finite binary64 values is not modelled: every finite operation is exact.
    The theorems that matter here (bounds after [np.clip], shapes, control
    flow) survive rounding because round-to-nearest is monotone; equalities
    between computed values are stated up to [Qeq] ([==]) and its extension
    [PyFloat.pf_eq], a setoid equivalence with [Proper] instances.

    ** Errors

    Python exceptions are values of [Prelude.res A] ([Ok a] or [Raise e] with
    [e : exn]).  [x <- m ;; k] (scope [py_scope]) is the sequencing of two
    statements, [catch_type m h] is [try: m except TypeError: h] and
    [catch_all m h] is [try: m except Exception: h].  The distinction matters:
    [fit_variogram] lets a non-[TypeError] escape its inner handlers to the
    outer one.

    ** Files (in dependency order, as in [_CoqProject])

    - [Prelude]   (this file): exceptions and the [res] monad, [try]/[except]
      combinators, [Qltb], the hint databases [pyq] and [pyq_len], shared
      list and Q lemmas, the tactics [qsolve] and [res_inv].
    - [PyFloat]   numpy float semantics over Q: [pyfloat], [np_clip],
      [nan_to_num], [py_max], [nanmax], [nanargmax], [nanvar], [nanmean],
      the setoid [pf_eq] and its [Proper] instances.
    - [NdArray]   numpy arrays as a shape and row-major data, [reshape], [.T],
      and the shape repair block of [krige_with_gstools] ([normalize_field],
      lines 179-190).
    - [Grid]      [np.arange], [np.min]/[np.max], [build_grid] (lines 59-68)
      and [np.meshgrid] of [heatmap_gstools.py]; the unpadded grid of
      [heatmap-generator-3.py] (lines 50-51).
    - [Weights]   [grid_to_heatmap_data] (clipped rescale to [0,1]), the shift
      policy [sig + 100] of the other generators, and the [w > 0] filter of
      [main] (line 277).
    - [Backend]   the interface [GSTools] (a [Class]) of the library calls the
      pipeline makes: [vario_estimate] under its three call signatures,
      [vario_fit], [Exponential], [SRF] and [SRF.structured] under three
      signatures, [krige.Ordinary] and its two calls, and [np.hypot]; plus
      concrete instances used by the witnesses.
    - [Variogram] [fit_variogram] (lines 71-129), in a Section over an
      instance of [GSTools]: its three estimation attempts, the fitted,
      empirical and default models.
    - [Kriging]   [krige_with_gstools] (lines 132-196), in a Section: the SRF
      attempt, the second SRF attempt, the [krige.Ordinary] attempt and the
      final [RuntimeError].
    - [Pipeline]  [main] of [heatmap_gstools.py] after loading (lines
      254-282): projection, grid, fit, kriging, zipping of coordinates with
      weights, the median centre; the pyproj transforms are Section
      variables.
    - [PyKrige]   the pipeline of [heatmap-generator-3.py] (lines 24-80):
      projection, the [OrdinaryKriging] fit (a Section variable that may
      raise), the unpadded grid, [OK.execute("grid")] as a field of shape
      [(ny, nx)], flattening, the inverse transform and the [+100] shift.
    - [Radial]    [signal-over-compass.py] and [signal-over-line.py]:
      [angle_diff], the bearing normalisation, the 5-degree slices, the
      Savitzky-Golay window computation (lines 100-104) and the argument
      checks of [scipy.signal.savgol_filter].
    - [Loader]    [load_csv] (lines 36-50): the column check, [iloc[:, :5]],
      [dropna] on [rssi, lat, lon] and [astype(float)].
    - [Binning]   [heatmap_generator-2.py]: cell assignment by floor
      division, [groupby] on [(gx, gy)] as an insertion into a key-sorted
      association list, the [mean]/[size] aggregation, the [count >= 2]
      filter and the [+100] weights.
    - [FixCsv]    [fix-csv.py]: the row loop with its empty-row skip, the
      five [float] parses in order, the unit divisions, Python's
      fixed-point formatting [f"{x:.Nf}"] (round half to even, the sign
      kept) and a reader of decimal strings for the round trip.
    - [FixRun]    [fix-csv.py] as it executes: a state (rows left, rows
      written, output file open, lines printed, phase) and an inductive
      [step] relation for the [for] loop, the exit of the [with] block on
      an exception or at the end, and the final [print]; [run] is its
      reflexive-transitive closure.
    - [Digits]    positional digits in any base [b >= 2], shared by the
      decimal printer of [FixCsv] and the hexadecimal one of [Colour],
      with their encode/decode lemmas.
    - [Colour]    the red-to-green marker colours of [map_generator.py] and
      [map_generator-2.py]: pandas' [min]/[max], the numpy arithmetic of
      [norm_rssi], Python's [int] and [f"{r:02x}"].
    - [Geo]       over the reals: [haversine] with Python's [math.sqrt]
      and [math.atan2], and [bearing] with the float [%].
    - [Ecef]      over the reals: [ecef_to_lla] of [map_generator.py]
      (Bowring's closed form on WGS84), the loop that builds the [lat],
      [lon], [alt] columns, and the script composed with [Colour]'s
      marker loop.
    - [Lines]     over the reals: the distance column of
      [signal-over-distance.py] and the distance/bearing columns and the
      heading slice of [signal-over-line.py].
    - [Centre]    the map centre of [main]: [Pipeline.pd_median] shown to
      sort and to pick a median, and the centre of a successful
      [Pipeline.main_heatmap] shown to be the medians of its columns.
    - [RawLoad]   [heatmap_generator.py]: [Series.astype(float)] on the
      [lat], [lon], [rssi] columns without [dropna], the [100 + rssi]
      weights and [heat_data].
    - [Folium]    the [folium.Map] object each heatmap script builds and
      saves: [create_folium_map] (lines 222-242) with its optional Esri
      layer, [main] of [heatmap_gstools.py] (lines 245-285) composed from
      [Pipeline.main_heatmap] and [create_folium_map], and the fixed-centre
      maps of the three other heatmap generators.

    All definitions are structural recursions or compositions of them.  The
    one fuel, [Digits.int_fuel], bounds the number of integer digits
    printed by the number of bits of the integer part, which is enough
    ([Digits.int_fuel_enough]: [n < b ^ (log2 n + 1)]), and any larger
    fuel gives the same digits ([Digits.int_digit_list_terminates]).  Every witness
    evaluates its definitions by [reflexivity] or [vm_compute].  The one
    relation that is not a function, [FixRun.step], is shown to terminate
    by the measure [3 * rows left + rank of the phase], which every step
    decreases.

    ** What the theorems show (groups; the manifest lists them as C1..Cn)

    - Weights: every weight is in [0,1] for every float, NaN and infinities
      included; the rescale is monotone; values outside [-140,-10] are
      clipped; the [w > 0] filter keeps exactly the cells above -140 (or
      [+inf]), in order, with weights in (0,1].
    - Grid: the padded grid of [build_grid] steps by one cell and covers
      every input point with a margin of one cell; the unpadded grid of
      [heatmap-generator-3.py] lies strictly below the maximum.
    - Shape repair: the repaired field has shape [(ny, nx)] exactly when the
      backend returned [(ny, nx)], a flat array of [ny*nx] values, or
      [(nx, ny)]; a transposed field holds [f[j][i]] at [(i, j)]; on a
      non-square grid an x-first field ends up paired with the right grid
      point, on a square grid it is never transposed and is mispaired.
    - Fallback chains: [fit_variogram] raises only [ValueError] on an empty
      input and otherwise always returns a model; the default model is
      [Exponential(nanvar(vals), max(diag/5, 1))] when every estimation
      fails; a successful estimation with a failed fit gives the empirical
      model, whose variance is the first maximum of the variogram and
      whose length scale is the bin at that index (at least 1), and the
      default only when building it raises (an empty variogram, a bin
      index out of range).  [krige_with_gstools] raises [RuntimeError]
      exactly when every attempt fails, and otherwise returns the first
      attempt that succeeds.
    - Pipeline: [heatmap-generator-3.py] pairs every grid cell with the
      prediction at that same cell.
    - Lines: the distance column never raises for valid latitudes; the
      slice of [signal-over-line.py] keeps exactly the rows whose bearing
      lies in [[178, 182]], each with its distance in [[0, pi * R]].
    - Centre: the centre of a successful [main] is a finite median of the
      [lat] column and one of the [lon] column, in that order: half of the
      column on each side, between two of its values.
    - RawLoad: [heatmap_generator.py] raises [ValueError] exactly when a
      row has text in [rssi], [lat] or [lon], and otherwise turns every
      row, missing values included, into one float point.
    - Digits (lemmas behind the printers): the digit loop stops within
      its fuel; more fuel changes nothing.
    - Radial: [angle_diff] is in [0,180] and symmetric; the bearing is
      normalised into [0,360); the Savitzky-Golay window is odd and in
      [5,11]; the compass script raises [ValueError] exactly when a slice
      holds 3 or 4 samples.
    - Loader: [load_csv] raises [ValueError] for fewer than three columns
      and exactly when a kept row has text in [rssi], [lat] or [lon]; its
      output has no NaN in those columns.
    - Binning: every cell centre lies in its cell; the counts add up to the
      number of samples; with RSSI in [[lo, hi]] the weights lie in
      [[lo + 100, hi + 100]].
    - FixCsv: whole sensor units are written exactly, and read back as
      the corrected values; the heading reads back within 0.005; a failing row leaves the rows before it written
      (a partial file), with [IndexError] for a short row.
    - Colour: a value inside a proper range gets a well-formed [#rrgg00]
      whose channels read back, lie in [0, 255] and add up to 254 or 255;
      the loop raises [ValueError] exactly when an RSSI is NaN or all the
      readings are equal.
    - Geo: [haversine] never raises for valid
      latitudes, is symmetric, 0 on a point and at most [pi * R];
      [bearing] lies in [[0, 360)].
    - Ecef: away from the polar axis the latitude lies in [(-90, 90)] and
      the longitude in [(-180, 180]]; the equatorial plane maps to
      latitude 0 and altitude [p - a]; [map_generator.py] draws one marker per row, in order, at the
      converted position and in the row's colour.
    - FixRun: the script always ends (no infinite run, and a final state is
      reachable from the start, by well-founded induction on the measure);
      by rule induction on [run], every final state has the output file
      closed, the rows of [fix_csv] written, and the final message printed
      exactly when no row raised.

    ** Not modelled (see the manifest's components)

    The HTML that folium writes from the map object (the object itself is
    modelled in [Folium]), the plots ([matplotlib]), file I/O other than
    the open/close of [fix-csv.py]'s output, and printing other than its
    final message; argparse (the arguments of [main] are a record);
    the numerics inside gstools (variogram estimation, kriging), which are
    fields of [GSTools]; the pyproj projections and the haversine/bearing
    trigonometry of the Q-valued files (the pyproj transforms are Section
    variables of [Pipeline], [Binning] and [PyKrige]); the numerics of pykrige (the fitted
    model is a Section variable of [PyKrige]); float rounding, and with it
    the NaN that numpy's trigonometry propagates from a missing
    coordinate in the real-valued files; the missing coordinates that
    [heatmap-generator-3.py] and [heatmap_generator-2.py] do not drop
    (their coordinates are exact rationals in the model); the centre of
    [map_generator-2.py] (a mean that [folium.Map] rejects when it is
    NaN).  [Folium] holds the map objects but no theorem about them: the
    code that builds them is straight-line. *)

From Stdlib Require Import QArith Qminmax Lqa ZArith List Lia.
Import ListNotations.

(** ** Python exceptions as values *)

Inductive exn : Type :=
| TypeError
| ValueError
| IndexError
| RuntimeError
| ZeroDivisionError
| OverflowError
| OtherError.

Definition exn_eqb (a b : exn) : bool :=
  match a, b with
  | TypeError, TypeError | ValueError, ValueError | IndexError, IndexError
  | RuntimeError, RuntimeError | ZeroDivisionError, ZeroDivisionError
  | OverflowError, OverflowError | OtherError, OtherError => true
  | _, _ => false
  end.

Inductive res (A : Type) : Type :=
| Ok (a : A)
| Raise (e : exn).
Arguments Ok {A} a.
Arguments Raise {A} e.

Definition res_bind {A B} (m : res A) (k : A -> res B) : res B :=
  match m with
  | Ok a => k a
  | Raise e => Raise e
  end.

Definition res_map {A B} (f : A -> B) (m : res A) : res B :=
  match m with
  | Ok a => Ok (f a)
  | Raise e => Raise e
  end.

(** [try: m except TypeError: h] *)
Definition catch_type {A} (m : res A) (h : res A) : res A :=
  match m with
  | Raise TypeError => h
  | r => r
  end.

(** [try: m except Exception: h] *)
Definition catch_all {A} (m : res A) (h : res A) : res A :=
  match m with
  | Raise _ => h
  | r => r
  end.

Definition is_ok {A} (m : res A) : bool :=
  match m with Ok _ => true | Raise _ => false end.

Declare Scope py_scope.
Delimit Scope py_scope with py.
Notation "x <- m ;; k" := (res_bind m (fun x => k))
  (at level 61, m at next level, right associativity) : py_scope.

(** ** Python comparisons on rationals *)

Definition Qltb (a b : Q) : bool := negb (Qle_bool b a).

Lemma Qltb_iff (a b : Q) : Qltb a b = true <-> a < b.
Proof.
  unfold Qltb. rewrite Bool.negb_true_iff.
  split; intro H.
  - apply Qnot_le_lt. intro H'. apply Qle_bool_iff in H'. congruence.
  - destruct (Qle_bool b a) eqn:E; [apply Qle_bool_iff in E; lra | reflexivity].
Qed.

Lemma Qltb_false (a b : Q) : Qltb a b = false <-> b <= a.
Proof.
  unfold Qltb. rewrite Bool.negb_false_iff. apply Qle_bool_iff.
Qed.

Lemma Qltb_compat (x x' y y' : Q) : x == x' -> y == y' -> Qltb x y = Qltb x' y'.
Proof.
  intros Hx Hy. destruct (Qltb x y) eqn:E; symmetry.
  - apply Qltb_iff in E. apply Qltb_iff. rewrite <- Hx, <- Hy. exact E.
  - apply Qltb_false in E. apply Qltb_false. rewrite <- Hx, <- Hy. exact E.
Qed.

Lemma Qeq_bool_compat (x x' y y' : Q) : x == x' -> y == y' -> Qeq_bool x y = Qeq_bool x' y'.
Proof.
  intros Hx Hy. destruct (Qeq_bool x y) eqn:E; symmetry.
  - apply Qeq_bool_iff in E. apply Qeq_bool_iff. rewrite <- Hx, <- Hy. exact E.
  - apply Qeq_bool_neq in E. destruct (Qeq_bool x' y') eqn:E'; [|reflexivity].
    apply Qeq_bool_iff in E'. exfalso. apply E. rewrite Hx, Hy. exact E'.
Qed.

(** ** Shared lemmas on the [res] combinators *)

Lemma res_bind_ok {A B} (m : res A) (k : A -> res B) (b : B) :
  res_bind m k = Ok b -> exists a, m = Ok a /\ k a = Ok b.
Proof. destruct m; simpl; [eauto | discriminate]. Qed.

(** An exception out of [x <- m ;; k x] comes from [m] or from [k]. *)
Lemma res_bind_raise {A B} (m : res A) (k : A -> res B) (e : exn) :
  res_bind m k = Raise e -> m = Raise e \/ exists a, m = Ok a /\ k a = Raise e.
Proof. destruct m as [a|e']; simpl; intros H; [right; exists a; auto | left; injection H as ->; reflexivity]. Qed.

Lemma catch_all_ok {A} (m h : res A) (a : A) :
  catch_all m h = Ok a -> m = Ok a \/ (exists e, m = Raise e) /\ h = Ok a.
Proof. destruct m; simpl; eauto. Qed.

Lemma catch_all_never_raises {A} (m h : res A) :
  is_ok h = true -> is_ok (catch_all m h) = true.
Proof. destruct m; simpl; auto. Qed.

(** ** Shared list lemmas *)

Fixpoint prod_nat (l : list nat) : nat :=
  match l with [] => 1%nat | n :: l' => (n * prod_nat l')%nat end.

Lemma length_flat_map_const {A B} (f : A -> list B) (k : nat) (l : list A) :
  (forall a, In a l -> length (f a) = k) ->
  length (flat_map f l) = (length l * k)%nat.
Proof.
  induction l as [|a l IH]; intros Hk; simpl; [reflexivity|].
  rewrite length_app, Hk by (left; reflexivity).
  rewrite IH by (intros; apply Hk; right; assumption). lia.
Qed.

(** Indexing into a list built from blocks of equal length [k]: the entry
    [i * k + j] is the [j]-th entry of the [i]-th block. *)
Lemma nth_flat_map_block {A B} (f : A -> list B) (k : nat) (l : list A)
      (i j : nat) (d : B) (da : A) :
  (forall a, length (f a) = k) -> (i < length l)%nat -> (j < k)%nat ->
  nth (i * k + j) (flat_map f l) d = nth j (f (nth i l da)) d.
Proof.
  intros Hk. revert i. induction l as [|a l IH]; intros i Hi Hj; simpl in *; [lia|].
  destruct i as [|i].
  - simpl. rewrite app_nth1 by (rewrite Hk; lia). reflexivity.
  - rewrite app_nth2 by (rewrite Hk; nia). rewrite Hk.
    replace (S i * k + j - k)%nat with (i * k + j)%nat by nia.
    apply IH; lia.
Qed.

Lemma nth_map_seq {B} (f : nat -> B) (r j : nat) (d : B) :
  (j < r)%nat -> nth j (map f (seq 0 r)) d = f j.
Proof.
  intros Hj. rewrite nth_indep with (d' := f 0%nat) by (rewrite length_map, length_seq; exact Hj).
  rewrite map_nth, seq_nth by exact Hj. reflexivity.
Qed.

Lemma nth_map_const {A B} (c : B) (l : list A) (j : nat) (d : B) :
  (j < length l)%nat -> nth j (map (fun _ => c) l) d = c.
Proof.
  revert j; induction l as [|a l IH]; intros [|j] Hj; simpl in *; try lia; auto.
  apply IH; lia.
Qed.

(** Python's [zip(a, b, c)]: triples up to the shortest of the three. *)
Fixpoint zip3 {A B C} (a : list A) (b : list B) (c : list C) : list (A * B * C) :=
  match a, b, c with
  | x :: a', y :: b', z :: c' => (x, y, z) :: zip3 a' b' c'
  | _, _, _ => []
  end.

Lemma length_zip3 {A B C} (a : list A) (b : list B) (c : list C) :
  length (zip3 a b c) = Nat.min (length a) (Nat.min (length b) (length c)).
Proof.
  revert b c; induction a as [|x a IH]; intros [|y b] [|z c]; simpl; auto.
Qed.

Lemma in_zip3 {A B C} (a : list A) (b : list B) (c : list C) x y z :
  In (x, y, z) (zip3 a b c) ->
  exists i, (i < length a)%nat /\ (i < length b)%nat /\ (i < length c)%nat /\
    nth_error a i = Some x /\ nth_error b i = Some y /\ nth_error c i = Some z.
Proof.
  revert b c; induction a as [|x' a IH]; intros [|y' b] [|z' c] H; simpl in H; try contradiction.
  destruct H as [H|H].
  - injection H as -> -> ->. exists 0%nat. simpl. repeat split; auto; lia.
  - destruct (IH b c H) as [i Hi]. exists (S i). simpl. intuition lia.
Qed.

Lemma nth_zip3 {A B C} (a : list A) (b : list B) (c : list C) (k : nat) da db dc :
  (k < length a)%nat -> (k < length b)%nat -> (k < length c)%nat ->
  nth k (zip3 a b c) (da, db, dc) = (nth k a da, nth k b db, nth k c dc).
Proof.
  revert b c k; induction a as [|x a IH]; intros [|y b] [|z c] [|k]; simpl; intros; try lia; auto.
  apply IH; lia.
Qed.

(** The [k]-th pair of [combine], mapped. *)
Lemma nth_map_combine {A B C} (f : A * B -> C) (l : list A) (l' : list B) (k : nat) da db dc :
  (k < length l)%nat -> (k < length l')%nat ->
  nth k (map f (combine l l')) dc = f (nth k l da, nth k l' db).
Proof.
  revert l' k; induction l as [|a l IH]; intros [|b l'] [|k]; simpl; intros; try lia; auto.
  apply IH; lia.
Qed.

(** Three columns of the same rows, zipped back. *)
Lemma zip3_map_same {A B C D} (f : A -> B) (g : A -> C) (h : A -> D) (l : list A) :
  zip3 (map f l) (map g l) (map h l) = map (fun r => (f r, g r, h r)) l.
Proof. induction l as [|r l IH]; simpl; [reflexivity | rewrite IH; reflexivity]. Qed.

Lemma Forall2_map_l {A B C} (R : B -> C -> Prop) (f : A -> B) (l : list A) (m : list C) :
  Forall2 R (map f l) m -> Forall2 (fun a c => R (f a) c) l m.
Proof.
  revert m; induction l as [|a l IH]; intros m H; inversion H; subst; constructor; auto.
Qed.

Lemma Forall2_map_r {A B C} (R : A -> C -> Prop) (f : B -> C) (l : list A) (m : list B) :
  Forall2 (fun a b => R a (f b)) l m -> Forall2 R l (map f m).
Proof. induction 1; constructor; assumption. Qed.

(** Three columns related row by row to the same rows, zipped. *)
Lemma Forall2_zip3 {R A B C} (P : R -> A -> Prop) (Q : R -> B -> Prop) (S : R -> C -> Prop)
    (rs : list R) (a : list A) (b : list B) (c : list C) :
  Forall2 P rs a -> Forall2 Q rs b -> Forall2 S rs c ->
  Forall2 (fun r t => P r (fst (fst t)) /\ Q r (snd (fst t)) /\ S r (snd t)) rs (zip3 a b c).
Proof.
  intros H1. revert b c. induction H1 as [|r x rs a Hp _ IH]; intros b c H2 H3;
    inversion H2; inversion H3; subst; constructor; [split; [|split]; assumption | apply IH; assumption].
Qed.

Lemma zip3_map_r {A B C D} (f : C -> D) (a : list A) (b : list B) (c : list C) :
  zip3 a b (map f c) = map (fun '(x, y, z) => (x, y, f z)) (zip3 a b c).
Proof.
  revert b c; induction a as [|x a IH]; intros [|y b] [|z c]; simpl; auto.
  rewrite IH. reflexivity.
Qed.

Lemma nth_map_lt {A B} (f : A -> B) (l : list A) (j : nat) (d : B) (da : A) :
  (j < length l)%nat -> nth j (map f l) d = f (nth j l da).
Proof.
  intros Hj. rewrite nth_indep with (d' := f da) by (rewrite length_map; exact Hj).
  apply map_nth.
Qed.

Lemma filter_length_bound {A} (f : A -> bool) (l : list A) :
  (length (filter f l) <= length l)%nat.
Proof. induction l as [|a l IH]; simpl; [lia | destruct (f a); simpl; lia]. Qed.

Lemma length_combine_min {A B} (l : list A) (l' : list B) :
  length (combine l l') = Nat.min (length l) (length l').
Proof. apply length_combine. Qed.

Create HintDb pyq.
Create Rewrite HintDb pyq_len.
#[export] Hint Resolve Qle_refl Q.le_min_l Q.le_min_r Q.le_max_l Q.le_max_r : pyq.
#[export] Hint Rewrite @length_map length_seq length_app @length_combine : pyq_len.

(** [qsolve] closes linear goals over Q after turning Python's boolean
    comparisons into propositions. *)
Ltac qsolve :=
  repeat match goal with
         | H : Qle_bool _ _ = true |- _ => apply Qle_bool_iff in H
         | H : Qltb _ _ = true |- _ => apply Qltb_iff in H
         | H : Qltb _ _ = false |- _ => apply Qltb_false in H
         | |- Qle_bool _ _ = true => apply Qle_bool_iff
         | |- Qltb _ _ = true => apply Qltb_iff
         end;
  lra.

(** [res_inv] decomposes an equation [m = Ok a] or [m = Raise e] whose head
    is a [match] on a [res] value. *)
Ltac res_inv :=
  repeat match goal with
         | H : Ok _ = Ok _ |- _ => injection H as H; subst
         | H : Raise _ = Raise _ |- _ => injection H as H; subst
         | H : Ok _ = Raise _ |- _ => discriminate H
         | H : Raise _ = Ok _ |- _ => discriminate H
         end.
