(* ===== verification/PyFloat.v ===== *)
(** * numpy float64 semantics over exact rationals

    [pyfloat] is a Python or numpy float: a finite value (an exact rational),
    NaN, or one of the infinities.  The operations are those the scripts
    apply to arrays of floats: [np.maximum]/[np.minimum] (through [np.clip]),
    subtraction and division by a constant, [np.nan_to_num], Python's builtin
    [max], and the NaN-ignoring reductions [np.nanmax], [np.nanargmax],
    [np.nanvar] and [np.nanmean] of [heatmap_gstools.fit_variogram].  Finite
    arithmetic is exact (no rounding).  [pf_eq] identifies finite values
    that are equal as rationals; it is an equivalence and the operations
    respect it. *)

From Stdlib Require Import QArith Qminmax Lqa ZArith List Lia.
From Stdlib Require Import Morphisms RelationClasses Setoid.
From S2P Require Import Prelude.
Import ListNotations.

Inductive pyfloat : Type :=
| Fin (q : Q)
| NaN
| PInf
| NInf.

(** ** Equality up to [Qeq] *)

Definition pf_eq (a b : pyfloat) : Prop :=
  match a, b with
  | Fin x, Fin y => x == y
  | NaN, NaN | PInf, PInf | NInf, NInf => True
  | _, _ => False
  end.

#[export] Instance pf_eq_equiv : Equivalence pf_eq.
Proof.
  split.
  - intros [x| | |]; simpl; auto; reflexivity.
  - intros [x| | |] [y| | |]; simpl; auto; intros; symmetry; assumption.
  - intros [x| | |] [y| | |] [z| | |]; simpl; try tauto.
    intros H1 H2; rewrite H1; exact H2.
Qed.

Definition isnan (a : pyfloat) : bool :=
  match a with NaN => true | _ => false end.

(** ** Comparisons: every comparison with NaN is false *)

Definition pf_lt (a b : pyfloat) : bool :=
  match a, b with
  | NaN, _ | _, NaN => false
  | NInf, NInf => false
  | NInf, _ => true
  | Fin _, NInf => false
  | Fin x, Fin y => Qltb x y
  | Fin _, PInf => true
  | PInf, _ => false
  end.

(** ** [np.maximum], [np.minimum] and [np.clip] *)

Definition np_maximum (a b : pyfloat) : pyfloat :=
  match a, b with
  | NaN, _ | _, NaN => NaN
  | _, _ => if pf_lt a b then b else a
  end.

Definition np_minimum (a b : pyfloat) : pyfloat :=
  match a, b with
  | NaN, _ | _, NaN => NaN
  | _, _ => if pf_lt b a then b else a
  end.

(** [np.clip(v, lo, hi)] for scalar bounds: [minimum(maximum(v, lo), hi)]. *)
Definition np_clip (lo hi : Q) (v : pyfloat) : pyfloat :=
  np_minimum (np_maximum v (Fin lo)) (Fin hi).

(** ** Arithmetic *)

Definition pf_add (a b : pyfloat) : pyfloat :=
  match a, b with
  | NaN, _ | _, NaN => NaN
  | PInf, NInf | NInf, PInf => NaN
  | PInf, _ | _, PInf => PInf
  | NInf, _ | _, NInf => NInf
  | Fin x, Fin y => Fin (x + y)
  end.

Definition pf_neg (a : pyfloat) : pyfloat :=
  match a with
  | Fin x => Fin (- x)
  | NaN => NaN
  | PInf => NInf
  | NInf => PInf
  end.

Definition pf_sub (a b : pyfloat) : pyfloat := pf_add a (pf_neg b).

(** The sign of [x / 0] for finite [x] (signed zeros are not modelled). *)
Definition div_by_zero (x : Q) : pyfloat :=
  if Qltb 0 x then PInf else if Qltb x 0 then NInf else NaN.

Definition pf_div (a b : pyfloat) : pyfloat :=
  match a, b with
  | NaN, _ | _, NaN => NaN
  | Fin x, Fin y => if Qeq_bool y 0 then div_by_zero x else Fin (x / y)
  | Fin _, (PInf | NInf) => Fin 0
  | (PInf | NInf), (PInf | NInf) => NaN
  | PInf, Fin y => if Qltb y 0 then NInf else PInf
  | NInf, Fin y => if Qltb y 0 then PInf else NInf
  end.

(** numpy multiplication: NaN is absorbing, an infinity times zero is NaN,
    otherwise the signs multiply. *)
Definition pf_mul (a b : pyfloat) : pyfloat :=
  match a, b with
  | NaN, _ | _, NaN => NaN
  | Fin x, Fin y => Fin (x * y)
  | Fin x, PInf | PInf, Fin x => if Qeq_bool x 0 then NaN else if Qltb x 0 then NInf else PInf
  | Fin x, NInf | NInf, Fin x => if Qeq_bool x 0 then NaN else if Qltb x 0 then PInf else NInf
  | PInf, PInf | NInf, NInf => PInf
  | PInf, NInf | NInf, PInf => NInf
  end.

(** The largest finite binary64 value, [(2^53 - 1) * 2^971]. *)
Definition max_double : Q := inject_Z ((2 ^ 53 - 1) * 2 ^ 971)%Z.

(** [np.nan_to_num(x, nan=0.0)] *)
Definition nan_to_num (a : pyfloat) : pyfloat :=
  match a with
  | Fin x => Fin x
  | NaN => Fin 0
  | PInf => Fin max_double
  | NInf => Fin (- max_double)
  end.

(** Python's builtin [max(a, b)]: [a] unless [b > a]; so [max(nan, 1.0)] is
    NaN and [max(1.0, nan)] is [1.0]. *)
Definition py_max (a b : pyfloat) : pyfloat := if pf_lt a b then b else a.

(** ** NaN-ignoring reductions *)

Definition not_nan (l : list pyfloat) : list pyfloat :=
  filter (fun a => negb (isnan a)) l.

(** [np.nanmax]: [ValueError] on an empty array, NaN (with a warning) when
    every entry is NaN. *)
Definition nanmax (l : list pyfloat) : res pyfloat :=
  match l with
  | [] => Raise ValueError
  | _ =>
      match not_nan l with
      | [] => Ok NaN
      | a :: rest => Ok (fold_left np_maximum rest a)
      end
  end.

(** The index of the first maximum among the non-NaN entries. *)
Fixpoint argmax_from (l : list pyfloat) (i : nat) (best : pyfloat) (bi : nat)
  : nat :=
  match l with
  | [] => bi
  | a :: rest =>
      if isnan a then argmax_from rest (S i) best bi
      else if pf_lt best a then argmax_from rest (S i) a i
      else argmax_from rest (S i) best bi
  end.

Fixpoint first_not_nan (l : list pyfloat) (i : nat) : option (nat * pyfloat) :=
  match l with
  | [] => None
  | a :: rest => if isnan a then first_not_nan rest (S i) else Some (i, a)
  end.

(** [np.nanargmax]: [ValueError] when the array is empty or all NaN. *)
Definition nanargmax (l : list pyfloat) : res nat :=
  match first_not_nan l 0 with
  | None => Raise ValueError
  | Some (i, a) => Ok (argmax_from (skipn (S i) l) (S i) a i)
  end.

(** [np.any(~np.isnan(l))] *)
Definition any_not_nan (l : list pyfloat) : bool :=
  existsb (fun a => negb (isnan a)) l.

Definition Qsum (l : list Q) : Q := fold_right Qplus 0 l.

(** [np.nanmean] and [np.nanvar] (population variance, [ddof=0]) of an array
    of finite values: NaN (with a warning) when it is empty. *)
Definition nanmean (l : list Q) : pyfloat :=
  match l with
  | [] => NaN
  | _ => Fin (Qsum l / inject_Z (Z.of_nat (length l)))
  end.

Definition nanvar (l : list Q) : pyfloat :=
  match l with
  | [] => NaN
  | _ =>
      let n := inject_Z (Z.of_nat (length l)) in
      let m := Qsum l / n in
      Fin (Qsum (map (fun v => (v - m) * (v - m)) l) / n)
  end.

(** A value that is not infinite, and [v], at index [i] of [l], the first
    of the largest values of [l], the NaN skipped. *)
Definition no_inf (a : pyfloat) : Prop := a <> PInf /\ a <> NInf.

Definition first_max (l : list pyfloat) (i : nat) (v : Q) : Prop :=
  nth_error l i = Some (Fin v) /\
  (forall k w, nth_error l k = Some (Fin w) -> w <= v) /\
  (forall k w, (k < i)%nat -> nth_error l k = Some (Fin w) -> w < v).

(** ** Lemmas *)

Lemma pf_lt_irrefl (a : pyfloat) : pf_lt a a = false.
Proof.
  destruct a; simpl; auto. apply Qltb_false. lra.
Qed.

Lemma np_clip_nan (lo hi : Q) : np_clip lo hi NaN = NaN.
Proof. reflexivity. Qed.

(** The result of [np.clip] on a non-NaN value is finite and between the
    bounds. *)
Lemma np_clip_bounds (lo hi : Q) (v : pyfloat) :
  lo <= hi -> v <> NaN ->
  exists q, np_clip lo hi v = Fin q /\ lo <= q <= hi.
Proof.
  intros Hlh Hv. unfold np_clip, np_maximum, np_minimum.
  destruct v as [x| | |]; simpl; [|congruence| |].
  - destruct (Qltb x lo) eqn:E1; simpl.
    + destruct (Qltb hi lo) eqn:E2; eexists; split; try reflexivity; qsolve.
    + destruct (Qltb hi x) eqn:E2; eexists; split; try reflexivity; qsolve.
  - destruct (Qltb hi lo) eqn:E2; simpl; eexists; split; try reflexivity; qsolve.
  - destruct (Qltb hi lo) eqn:E2; simpl; eexists; split; try reflexivity; qsolve.
Qed.

(** On a finite value inside the bounds, [np.clip] is the identity. *)
Lemma np_clip_fin_inside (lo hi x : Q) :
  lo <= x <= hi -> pf_eq (np_clip lo hi (Fin x)) (Fin x).
Proof.
  intros [H1 H2]. unfold np_clip, np_maximum, np_minimum. simpl.
  destruct (Qltb x lo) eqn:E1; simpl.
  - destruct (Qltb hi lo) eqn:E2; simpl; qsolve.
  - destruct (Qltb hi x) eqn:E2; simpl; qsolve.
Qed.

Lemma np_clip_fin_below (lo hi x : Q) :
  lo <= hi -> x <= lo -> pf_eq (np_clip lo hi (Fin x)) (Fin lo).
Proof.
  intros Hlh Hx. unfold np_clip, np_maximum, np_minimum. simpl.
  destruct (Qltb x lo) eqn:E1; simpl.
  - destruct (Qltb hi lo) eqn:E2; simpl; qsolve.
  - destruct (Qltb hi x) eqn:E2; simpl; qsolve.
Qed.

Lemma np_clip_fin_above (lo hi x : Q) :
  lo <= hi -> hi <= x -> pf_eq (np_clip lo hi (Fin x)) (Fin hi).
Proof.
  intros Hlh Hx. unfold np_clip, np_maximum, np_minimum. simpl.
  destruct (Qltb x lo) eqn:E1; simpl.
  - destruct (Qltb hi lo) eqn:E2; simpl; qsolve.
  - destruct (Qltb hi x) eqn:E2; simpl; qsolve.
Qed.

#[export] Hint Resolve np_clip_fin_inside np_clip_fin_below np_clip_fin_above : pyq.

(** ** The operations respect [pf_eq] *)

(** [pf_destr] splits two [pf_eq]-related floats into their cases and
    rewrites Python's comparisons of related finite values. *)
Ltac pf_destr :=
  repeat match goal with
         | a : pyfloat |- _ => destruct a
         end;
  simpl in *; try contradiction; try tauto;
  repeat match goal with
         | H1 : ?x == ?x', H2 : ?y == ?y' |- context [Qltb ?x ?y] =>
             rewrite (Qltb_compat x x' y y' H1 H2)
         | H1 : ?x == ?x' |- context [Qltb ?x ?y] =>
             rewrite (Qltb_compat x x' y y H1 (Qeq_refl y))
         | H1 : ?y == ?y' |- context [Qltb ?x ?y] =>
             rewrite (Qltb_compat x x y y' (Qeq_refl x) H1)
         end.

#[export] Instance Fin_proper : Proper (Qeq ==> pf_eq) Fin.
Proof. intros x y H. exact H. Qed.

#[export] Instance pf_lt_proper : Proper (pf_eq ==> pf_eq ==> eq) pf_lt.
Proof. intros a a' Ha b b' Hb. pf_destr; reflexivity. Qed.

#[export] Instance np_maximum_proper : Proper (pf_eq ==> pf_eq ==> pf_eq) np_maximum.
Proof.
  intros a a' Ha b b' Hb. unfold np_maximum.
  pf_destr; repeat match goal with |- context [if ?c then _ else _] => destruct c end;
    simpl; auto.
Qed.

#[export] Instance np_minimum_proper : Proper (pf_eq ==> pf_eq ==> pf_eq) np_minimum.
Proof.
  intros a a' Ha b b' Hb. unfold np_minimum.
  pf_destr; repeat match goal with |- context [if ?c then _ else _] => destruct c end;
    simpl; auto.
Qed.

#[export] Instance np_clip_proper (lo hi : Q) : Proper (pf_eq ==> pf_eq) (np_clip lo hi).
Proof.
  intros a a' Ha. unfold np_clip.
  apply np_minimum_proper; [apply np_maximum_proper; [exact Ha | reflexivity] | reflexivity].
Qed.

#[export] Instance pf_add_proper : Proper (pf_eq ==> pf_eq ==> pf_eq) pf_add.
Proof.
  intros a a' Ha b b' Hb. pf_destr; auto. rewrite Ha, Hb. reflexivity.
Qed.

#[export] Instance pf_neg_proper : Proper (pf_eq ==> pf_eq) pf_neg.
Proof. intros a a' Ha. pf_destr; auto. rewrite Ha. reflexivity. Qed.

#[export] Instance pf_sub_proper : Proper (pf_eq ==> pf_eq ==> pf_eq) pf_sub.
Proof.
  intros a a' Ha b b' Hb. unfold pf_sub. apply pf_add_proper; [exact Ha|].
  apply pf_neg_proper; exact Hb.
Qed.

#[export] Instance div_by_zero_proper : Proper (Qeq ==> pf_eq) div_by_zero.
Proof.
  intros x x' Hx. unfold div_by_zero.
  rewrite (Qltb_compat 0 0 x x' (Qeq_refl 0) Hx), (Qltb_compat x x' 0 0 Hx (Qeq_refl 0)).
  destruct (Qltb 0 x'), (Qltb x' 0); simpl; auto.
Qed.

#[export] Instance pf_div_proper : Proper (pf_eq ==> pf_eq ==> pf_eq) pf_div.
Proof.
  intros a a' Ha b b' Hb. unfold pf_div.
  destruct a, a'; simpl in Ha; try contradiction;
  destruct b, b'; simpl in Hb; try contradiction; simpl; auto;
  repeat match goal with
         | H : ?y == ?y' |- context [Qeq_bool ?y 0] =>
             rewrite (Qeq_bool_compat y y' 0 0 H (Qeq_refl 0))
         | H : ?y == ?y' |- context [Qltb ?y 0] =>
             rewrite (Qltb_compat y y' 0 0 H (Qeq_refl 0))
         | |- context [if ?c then _ else _] => destruct c eqn:?
         end; simpl; auto.
  all: first [ reflexivity | apply div_by_zero_proper; exact Ha
             | rewrite Ha, Hb; reflexivity ].
Qed.

#[export] Instance nan_to_num_proper : Proper (pf_eq ==> pf_eq) nan_to_num.
Proof. intros a a' Ha. pf_destr; auto; reflexivity. Qed.

Lemma pf_eq_Fin_r (a : pyfloat) (e : Q) : pf_eq a (Fin e) -> exists q, a = Fin q /\ q == e.
Proof. destruct a; simpl; try contradiction. intros H; eauto. Qed.

(** ** [np.nanmax] and [np.nanargmax] agree on the first maximum *)

Lemma np_maximum_fin (b q : Q) :
  np_maximum (Fin b) (Fin q) = if Qltb b q then Fin q else Fin b.
Proof. reflexivity. Qed.

(** The scan of [nanargmax] from [i] with the best value [b] at [bi], and
    the fold of [nanmax] from [b]: either nothing beats [b], or both stop at
    the first strictly larger maximum. *)
Lemma argmax_from_spec (l : list pyfloat) : Forall no_inf l ->
  forall i b bi,
  (argmax_from l i (Fin b) bi = bi /\ fold_left np_maximum (not_nan l) (Fin b) = Fin b /\
   forall k w, nth_error l k = Some (Fin w) -> w <= b) \/
  (exists j v, argmax_from l i (Fin b) bi = (i + j)%nat /\
   fold_left np_maximum (not_nan l) (Fin b) = Fin v /\ b < v /\ first_max l j v).
Proof.
  induction 1 as [|a rest [Hp Hn] _ IH]; intros i b bi.
  - left. split; [reflexivity|]. split; [reflexivity|]. intros [|k] w H; discriminate.
  - destruct a as [q| | |]; try contradiction; cbn [argmax_from isnan not_nan filter negb fold_left].
    + fold (not_nan rest). rewrite np_maximum_fin. cbn [pf_lt].
      destruct (Qltb b q) eqn:E; [apply Qltb_iff in E|apply Qltb_false in E].
      * right. destruct (IH (S i) q i) as [[A [F L]]|[j [v [A [F [Lt [N [M P]]]]]]]].
        -- exists 0%nat, q. rewrite A, F, Nat.add_0_r. split; [reflexivity|]. split; [reflexivity|].
           split; [exact E|]. split; [reflexivity|]. split; [intros [|k] w H; [injection H as <-; lra | exact (L k w H)]|].
           intros k w Hk; lia.
        -- exists (S j), v. rewrite A, F. split; [lia|]. split; [reflexivity|]. split; [lra|].
           split; [exact N|]. split; [intros [|k] w H; [injection H as <-; lra | exact (M k w H)]|].
           intros [|k] w Hk H; [injection H as <-; exact Lt | apply (P k w); [lia | exact H]].
      * destruct (IH (S i) b bi) as [[A [F L]]|[j [v [A [F [Lt [N [M P]]]]]]]].
        -- left. rewrite A, F. split; [reflexivity|]. split; [reflexivity|].
           intros [|k] w H; [injection H as <-; lra | exact (L k w H)].
        -- right. exists (S j), v. rewrite A, F. split; [lia|]. split; [reflexivity|]. split; [exact Lt|].
           split; [exact N|]. split; [intros [|k] w H; [injection H as <-; lra | exact (M k w H)]|].
           intros [|k] w Hk H; [injection H as <-; lra | apply (P k w); [lia | exact H]].
    + fold (not_nan rest). destruct (IH (S i) b bi) as [[A [F L]]|[j [v [A [F [Lt [N [M P]]]]]]]].
      * left. split; [exact A|]. split; [exact F|]. intros [|k] w H; [discriminate | exact (L k w H)].
      * right. exists (S j), v. rewrite A. split; [lia|]. split; [exact F|]. split; [exact Lt|].
        split; [exact N|]. split; [intros [|k] w H; [discriminate | exact (M k w H)]|].
        intros [|k] w Hk H; [discriminate | apply (P k w); [lia | exact H]].
Qed.

Lemma Forall_skipn {A} (P : A -> Prop) (n : nat) (l : list A) : Forall P l -> Forall P (skipn n l).
Proof. revert l; induction n as [|n IH]; intros [|a l] H; cbn; auto. inversion H; auto. Qed.

(** [first_not_nan] from [n] finds the first value that is not NaN, at
    [n + i]: before it only NaN, after it the rest of the list. *)
Lemma first_not_nan_some (l : list pyfloat) : Forall no_inf l -> any_not_nan l = true ->
  forall n, exists i q, first_not_nan l n = Some ((n + i)%nat, Fin q) /\
    (forall k, (k < i)%nat -> nth_error l k = Some NaN) /\ nth_error l i = Some (Fin q) /\
    not_nan l = Fin q :: not_nan (skipn (S i) l).
Proof.
  induction 1 as [|a rest [Hp Hn] _ IH]; [discriminate|]. intros Hany n.
  destruct a as [q| | |]; try contradiction; cbn [first_not_nan isnan].
  - exists 0%nat, q. rewrite Nat.add_0_r. split; [reflexivity|]. split; [intros k Hk; lia|]. split; reflexivity.
  - destruct (IH Hany (S n)) as [i [q [F [B [N E]]]]].
    exists (S i), q. rewrite F, Nat.add_succ_r. split; [reflexivity|].
    split; [intros [|k] Hk; [reflexivity | apply B; lia]|]. split; [exact N | exact E].
Qed.

(** On a list with a number and no infinity, [np.nanmax] is the first
    maximum and [np.nanargmax] its index. *)
Lemma nanmax_nanargmax (l : list pyfloat) : Forall no_inf l -> any_not_nan l = true ->
  exists i v, nanmax l = Ok (Fin v) /\ nanargmax l = Ok i /\ first_max l i v.
Proof.
  intros Hf Hany. destruct (first_not_nan_some l Hf Hany 0) as [i0 [q [F [B [N E]]]]].
  unfold nanmax, nanargmax. rewrite F, E. cbn [Nat.add].
  assert (Hl : l <> []) by (intros ->; discriminate).
  destruct (argmax_from_spec (skipn (S i0) l) (Forall_skipn _ _ _ Hf) (S i0) q i0)
    as [[A [Fo L]]|[j [v [A [Fo [Lt [Nj [M P]]]]]]]]; rewrite A, Fo;
    (destruct l as [|a l'] eqn:El; [congruence|]; rewrite <- El in *).
  - setoid_rewrite nth_error_skipn in L. exists i0, q. split; [reflexivity|]. split; [reflexivity|]. split; [exact N|].
    split; [|intros k w Hk H; rewrite (B k Hk) in H; discriminate].
    intros k w H. destruct (Nat.lt_trichotomy k i0) as [Hk|[->|Hk]].
    + rewrite (B k Hk) in H; discriminate.
    + rewrite N in H. injection H as ->. apply Qle_refl.
    + apply (L (k - S i0)%nat). rewrite <- H. f_equal. lia.
  - rewrite nth_error_skipn in Nj. setoid_rewrite nth_error_skipn in M. setoid_rewrite nth_error_skipn in P.
    exists (S i0 + j)%nat, v. split; [reflexivity|]. split; [reflexivity|]. split; [exact Nj|].
    split.
    + intros k w H. destruct (Nat.lt_trichotomy k i0) as [Hk|[->|Hk]].
      * rewrite (B k Hk) in H; discriminate.
      * rewrite N in H. injection H as ->. lra.
      * apply (M (k - S i0)%nat). rewrite <- H. f_equal. lia.
    + intros k w Hk H. destruct (Nat.lt_trichotomy k i0) as [Hk'|[->|Hk']].
      * rewrite (B k Hk') in H; discriminate.
      * rewrite N in H. injection H as ->. exact Lt.
      * apply (P (k - S i0)%nat); [lia|]. rewrite <- H. f_equal. lia.
Qed.

Lemma not_nan_nil (l : list pyfloat) : any_not_nan l = false -> not_nan l = [].
Proof.
  induction l as [|a l IH]; [reflexivity|]. cbn [any_not_nan existsb not_nan filter].
  destruct (negb (isnan a)); [discriminate | exact IH].
Qed.
