(* ===== verification/NdArray.v ===== *)
(** * numpy arrays and the shape repair of [krige_with_gstools]

    An array is its shape and its entries in row-major (C) order, which is
    the order [ndarray.flatten()] returns them in.  [np_reshape] and [np_T]
    are numpy's [reshape] and [.T]; [normalize_field] is the block of
    [heatmap_gstools.krige_with_gstools] (lines 180-190) that repairs the
    shape of the kriging result before it is returned:

<<
        ny, nx = len(gy), len(gx)
        if field.shape != (ny, nx):
            if field.ndim == 1 and field.size == ny * nx:
                field = field.reshape((ny, nx))
            elif field.T.shape == (ny, nx):
                field = field.T
            else:
                print(f"Warning: ...")
>>
    The theorems characterise the shapes the repair accepts, show that the
    transposed branch really transposes, and that the decision looks at the
    shape only: an [(n, n)] field is returned as it is, whatever its
    orientation. *)

From Stdlib Require Import QArith ZArith List Lia.
From S2P Require Import Prelude PyFloat.
Import ListNotations.

Record ndarray (A : Type) : Type := mk_nd {
  shape : list nat;
  data : list A
}.
Arguments mk_nd {A} shape data.
Arguments shape {A} _.
Arguments data {A} _.

(** Well-formedness: as many entries as the shape has cells. *)
Definition nd_wf {A} (a : ndarray A) : Prop := length (data a) = prod_nat (shape a).

Definition ndim {A} (a : ndarray A) : nat := length (shape a).
Definition size {A} (a : ndarray A) : nat := prod_nat (shape a).
Definition flatten {A} (a : ndarray A) : list A := data a.

Fixpoint shape_eqb (s t : list nat) : bool :=
  match s, t with
  | [], [] => true
  | a :: s', b :: t' => Nat.eqb a b && shape_eqb s' t'
  | _, _ => false
  end.

(** [a.reshape(s)]: [ValueError] when the sizes differ. *)
Definition np_reshape {A} (a : ndarray A) (s : list nat) : res (ndarray A) :=
  if Nat.eqb (prod_nat s) (size a) then Ok (mk_nd s (data a)) else Raise ValueError.

(** The entry at row [i], column [j] of a two-dimensional array. *)
Definition get2 {A} (d : A) (a : ndarray A) (i j : nat) : A :=
  match shape a with
  | [_; c] => nth (i * c + j) (data a) d
  | _ => d
  end.

(** [a.T]: the axes reversed.  For a two-dimensional [(r, c)] array the
    entry [(i, j)] of the result is the entry [(j, i)] of [a]; arrays of
    rank 0 and 1 are their own transpose.  (The data permutation of rank 3
    and above is not modelled; [normalize_field] never transposes them.) *)
Definition np_T {A} (d : A) (a : ndarray A) : ndarray A :=
  match shape a with
  | [r; c] =>
      mk_nd [c; r]
        (flat_map (fun i => map (fun j => nth (j * c + i) (data a) d) (seq 0 r))
                  (seq 0 c))
  | s => mk_nd (rev s) (data a)
  end.

(** The shape repair of [krige_with_gstools] (the warning is a [print]). *)
Definition normalize_field (ny nx : nat) (field : ndarray pyfloat)
  : res (ndarray pyfloat) :=
  if negb (shape_eqb (shape field) [ny; nx]) then
    if Nat.eqb (ndim field) 1 && Nat.eqb (size field) (ny * nx) then
      np_reshape field [ny; nx]
    else if shape_eqb (shape (np_T NaN field)) [ny; nx] then
      Ok (np_T NaN field)
    else
      Ok field
  else Ok field.

(** ** Lemmas *)

Lemma shape_eqb_eq (s t : list nat) : shape_eqb s t = true <-> s = t.
Proof.
  revert t; induction s as [|a s IH]; intros [|b t]; simpl;
    try (split; congruence).
  rewrite Bool.andb_true_iff, Nat.eqb_eq, IH. split; [intros [-> ->]|intros H; injection H]; auto.
Qed.

Lemma shape_np_T {A} (d : A) (a : ndarray A) : shape (np_T d a) = rev (shape a).
Proof.
  unfold np_T. destruct (shape a) as [|r [|c [|k s]]]; reflexivity.
Qed.

Lemma prod_nat_app (s t : list nat) : prod_nat (s ++ t) = (prod_nat s * prod_nat t)%nat.
Proof. induction s as [|a s IH]; simpl; [lia | rewrite IH; lia]. Qed.

Lemma prod_nat_rev (s : list nat) : prod_nat (rev s) = prod_nat s.
Proof. induction s as [|a s IH]; simpl; [reflexivity|]. rewrite prod_nat_app, IH; simpl; lia. Qed.

Lemma np_T_wf {A} (d : A) (a : ndarray A) : nd_wf a -> nd_wf (np_T d a).
Proof.
  unfold nd_wf. intros H. unfold np_T.
  destruct (shape a) as [|r [|c [|k s]]] eqn:Es; simpl in *;
    try (rewrite H; simpl; lia).
  - rewrite (length_flat_map_const _ r); [rewrite length_seq; lia|].
    intros; rewrite length_map, length_seq; reflexivity.
  - rewrite H. pose proof (prod_nat_rev (r :: c :: k :: s)) as Hr.
    simpl in Hr |- *. rewrite Hr. reflexivity.
Qed.

Lemma rev_shape_two (s : list nat) (a b : nat) : rev s = [a; b] -> s = [b; a].
Proof.
  intros H. rewrite <- (rev_involutive s), H. reflexivity.
Qed.

(** The transposed entries of a well-formed two-dimensional array. *)
Lemma get2_np_T {A} (d : A) (a : ndarray A) (r c i j : nat) :
  shape a = [r; c] -> (i < c)%nat -> (j < r)%nat ->
  get2 d (np_T d a) i j = get2 d a j i.
Proof.
  intros Hs Hi Hj. unfold get2, np_T. rewrite Hs. simpl.
  rewrite (nth_flat_map_block _ r (seq 0 c) i j d 0%nat);
    [| intros; rewrite length_map, length_seq; reflexivity
     | rewrite length_seq; exact Hi | exact Hj].
  rewrite seq_nth by exact Hi. rewrite nth_map_seq by exact Hj. reflexivity.
Qed.

Lemma prod_nat_pair (a b : nat) : prod_nat [a; b] = (a * b)%nat.
Proof. simpl. lia. Qed.

Lemma shape_single_size (s : list nat) (n : nat) :
  length s = 1%nat -> prod_nat s = n -> s = [n].
Proof. destruct s as [|a [|b s]]; simpl; intros; try lia. f_equal. lia. Qed.

(** The case analysis of [normalize_field] on the shape of its input. *)
Lemma normalize_field_cases (ny nx : nat) (f : ndarray pyfloat) :
  (shape f = [ny; nx] /\ normalize_field ny nx f = Ok f)
  \/ (shape f = [(ny * nx)%nat] /\ normalize_field ny nx f = Ok (mk_nd [ny; nx] (data f)))
  \/ (shape f = [nx; ny] /\ shape f <> [ny; nx]
      /\ normalize_field ny nx f = Ok (np_T NaN f))
  \/ (shape f <> [ny; nx] /\ shape f <> [(ny * nx)%nat] /\ shape f <> [nx; ny]
      /\ normalize_field ny nx f = Ok f).
Proof.
  unfold normalize_field.
  destruct (shape_eqb (shape f) [ny; nx]) eqn:E0; simpl.
  { left. apply shape_eqb_eq in E0. auto. }
  assert (N0 : shape f <> [ny; nx]) by (intro H; apply shape_eqb_eq in H; congruence).
  destruct (Nat.eqb (ndim f) 1 && Nat.eqb (size f) (ny * nx)) eqn:E1.
  - apply Bool.andb_true_iff in E1 as [E1 E2].
    apply Nat.eqb_eq in E1, E2. unfold ndim, size in *.
    right; left. split; [apply shape_single_size; assumption|].
    unfold np_reshape, size. rewrite prod_nat_pair, E2, Nat.eqb_refl. reflexivity.
  - destruct (shape_eqb (shape (np_T NaN f)) [ny; nx]) eqn:E2.
    + apply shape_eqb_eq in E2. rewrite shape_np_T in E2.
      right; right; left. apply rev_shape_two in E2. auto.
    + right; right; right. repeat split; auto.
      * intro H. apply Bool.andb_false_iff in E1. unfold ndim, size in E1.
        rewrite H in E1. simpl in E1. rewrite Nat.mul_1_r, Nat.eqb_refl in E1.
        destruct E1; discriminate.
      * intro H. rewrite shape_np_T, H in E2. simpl in E2.
        rewrite !Nat.eqb_refl in E2. discriminate.
Qed.

(** C6. The shape repair never raises, keeps the array well formed, and its
    result has the grid's shape [(ny, nx)] exactly when the backend returned
    an array of shape [(ny, nx)], a flat array of [ny * nx] values, or an
    array of shape [(nx, ny)]; any other shape is passed on unrepaired
    (with a printed warning). *)
Theorem normalize_field_shape (ny nx : nat) (f : ndarray pyfloat) :
  nd_wf f ->
  exists g, normalize_field ny nx f = Ok g /\ nd_wf g /\
    (shape g = [ny; nx] <->
       shape f = [ny; nx] \/ shape f = [(ny * nx)%nat] \/ shape f = [nx; ny]).
Proof.
  intros Hwf.
  destruct (normalize_field_cases ny nx f)
    as [[Hs ->]|[[Hs ->]|[[Hs [Hn ->]]|[Hs1 [Hs2 [Hs3 ->]]]]]];
    eexists; (split; [reflexivity|]).
  - split; [exact Hwf | tauto].
  - split; [unfold nd_wf in *; simpl; rewrite Hwf, Hs; simpl; lia|].
    simpl; tauto.
  - split; [apply np_T_wf; exact Hwf|]. rewrite shape_np_T, Hs. simpl; tauto.
  - split; [exact Hwf | tauto].
Qed.

(** C12. When the backend returns the field x-major, shape [(nx, ny)] with
    [nx <> ny], the repair transposes it: the entry at row [i], column [j]
    of the result is the entry at row [j], column [i] of the input. *)
Theorem normalize_field_transposes (ny nx i j : nat) (f : ndarray pyfloat) :
  shape f = [nx; ny] -> nx <> ny -> (i < ny)%nat -> (j < nx)%nat ->
  exists g, normalize_field ny nx f = Ok g /\ shape g = [ny; nx] /\
    get2 NaN g i j = get2 NaN f j i.
Proof.
  intros Hs Hne Hi Hj.
  destruct (normalize_field_cases ny nx f)
    as [[Hs' _]|[[Hs' _]|[[_ [_ ->]]|[_ [_ [Hs3 _]]]]]].
  - rewrite Hs in Hs'. injection Hs'. lia.
  - rewrite Hs in Hs'. discriminate.
  - eexists; split; [reflexivity|]. split.
    + rewrite shape_np_T, Hs. reflexivity.
    + apply (get2_np_T NaN f nx ny); assumption.
  - contradiction.
Qed.

(** The decision looks at the shape only: a square field is never
    transposed, whichever axis it is indexed by first. *)
Lemma normalize_field_square (n : nat) (f : ndarray pyfloat) :
  shape f = [n; n] -> normalize_field n n f = Ok f.
Proof.
  intros Hs. unfold normalize_field. rewrite Hs. simpl. rewrite Nat.eqb_refl. reflexivity.
Qed.

(** ** Witnesses *)

Lemma normalize_field_shape_witness :
  exists g, normalize_field 1 3 (mk_nd [3%nat] [Fin 1; Fin 2; Fin 3]) = Ok g /\ shape g = [1%nat; 3%nat].
Proof.
  destruct (normalize_field_shape 1 3 (mk_nd [3%nat] [Fin 1; Fin 2; Fin 3]) eq_refl)
    as [g [H1 [_ H3]]].
  exists g. split; [exact H1 | apply H3; right; left; reflexivity].
Defined.

Lemma normalize_field_transposes_witness :
  exists g, normalize_field 2 3 (mk_nd [3%nat; 2%nat] [Fin 1; Fin 2; Fin 3; Fin 4; Fin 5; Fin 6]) = Ok g
    /\ get2 NaN g 1 2 = Fin 6.
Proof.
  destruct (normalize_field_transposes 2 3 1 2
              (mk_nd [3%nat; 2%nat] [Fin 1; Fin 2; Fin 3; Fin 4; Fin 5; Fin 6])
              eq_refl ltac:(lia) ltac:(lia) ltac:(lia)) as [g [H1 [_ H3]]].
  exists g. split; [exact H1 | rewrite H3; reflexivity].
Defined.
