(* ===== verification/Grid.v ===== *)
(** * The evaluation grid: [np.arange], [build_grid], [np.meshgrid]

    [build_grid] of [heatmap_gstools.py] (lines 59-68) takes the projected
    coordinates and a cell size [r] and builds the axes

<<
    gx = np.arange(minx - r, maxx + r + 1e-6, r)
    gy = np.arange(miny - r, maxy + r + 1e-6, r)
>>
    and their [np.meshgrid].  [heatmap-generator-3.py] (lines 48-53) builds
    the same axes without the padding, [np.arange(min, max, r)].  numpy's
    [arange] has [ceil((stop - start) / step)] entries [start + i * step]
    (none when that is not positive) and raises [ZeroDivisionError] for a
    zero step; [np.min]/[np.max] raise [ValueError] on an empty array.  The
    coordinates are finite, so they are rationals here. *)

From Stdlib Require Import QArith Qround Qminmax Lqa ZArith List Lia.
From S2P Require Import Prelude NdArray.
Import ListNotations.

Local Open Scope py_scope.

(** The [n] entries [start + i * step]. *)
Definition arange_list (start step : Q) (n : nat) : list Q :=
  map (fun i => start + inject_Z (Z.of_nat i) * step) (seq 0 n).

Definition np_arange (start stop step : Q) : res (list Q) :=
  if Qeq_bool step 0 then Raise ZeroDivisionError
  else Ok (arange_list start step (Z.to_nat (Qceiling ((stop - start) / step)))).

Definition np_min (l : list Q) : res Q :=
  match l with [] => Raise ValueError | a :: rest => Ok (fold_left Qmin rest a) end.

Definition np_max (l : list Q) : res Q :=
  match l with [] => Raise ValueError | a :: rest => Ok (fold_left Qmax rest a) end.

(** [np.meshgrid(gx, gy)] (indexing ["xy"]): two arrays of shape
    [(len gy, len gx)], the first repeating [gx] on every row, the second
    holding [gy[i]] all along row [i]. *)
Definition meshgrid (gx gy : list Q) : ndarray Q * ndarray Q :=
  (mk_nd [length gy; length gx] (flat_map (fun _ => gx) gy),
   mk_nd [length gy; length gx] (flat_map (fun v => map (fun _ => v) gx) gy)).

(** The [+ 1e-6] of the upper bound. *)
Definition grid_eps : Q := 1 # 1000000.

Definition build_grid (x y : list Q) (grid_res_m : Q)
  : res (list Q * list Q * ndarray Q * ndarray Q) :=
  minx <- np_min x ;; maxx <- np_max x ;;
  miny <- np_min y ;; maxy <- np_max y ;;
  let padx := grid_res_m * 1 in
  let pady := grid_res_m * 1 in
  gx <- np_arange (minx - padx) (maxx + padx + grid_eps) grid_res_m ;;
  gy <- np_arange (miny - pady) (maxy + pady + grid_eps) grid_res_m ;;
  let '(gridx, gridy) := meshgrid gx gy in
  Ok (gx, gy, gridx, gridy).

(** One axis of [heatmap-generator-3.py]: [np.arange(np.min(v), np.max(v), r)]. *)
Definition grid3_axis (v : list Q) (grid_res : Q) : res (list Q) :=
  lo <- np_min v ;; hi <- np_max v ;; np_arange lo hi grid_res.

(** ** [np.min] and [np.max] *)

Lemma fold_left_Qmin_le (l : list Q) (a : Q) :
  fold_left Qmin l a <= a /\ forall p, In p l -> fold_left Qmin l a <= p.
Proof.
  revert a; induction l as [|b l IH]; intros a; simpl; [split; [lra | tauto]|].
  destruct (IH (Qmin a b)) as [H1 H2]. split.
  - eapply Qle_trans; [exact H1 | apply Q.le_min_l].
  - intros p [<-|Hp]; [|auto].
    eapply Qle_trans; [exact H1 | apply Q.le_min_r].
Qed.

Lemma fold_left_Qmax_ge (l : list Q) (a : Q) :
  a <= fold_left Qmax l a /\ forall p, In p l -> p <= fold_left Qmax l a.
Proof.
  revert a; induction l as [|b l IH]; intros a; simpl; [split; [lra | tauto]|].
  destruct (IH (Qmax a b)) as [H1 H2]. split.
  - eapply Qle_trans; [apply Q.le_max_l | exact H1].
  - intros p [<-|Hp]; [|auto].
    eapply Qle_trans; [apply Q.le_max_r | exact H1].
Qed.

Lemma np_min_spec (l : list Q) (m : Q) :
  np_min l = Ok m -> forall p, In p l -> m <= p.
Proof.
  destruct l as [|a l]; simpl; intros H; res_inv.
  destruct (fold_left_Qmin_le l a) as [H1 H2]. intros p [<-|Hp]; auto.
Qed.

Lemma np_max_spec (l : list Q) (m : Q) :
  np_max l = Ok m -> forall p, In p l -> p <= m.
Proof.
  destruct l as [|a l]; simpl; intros H; res_inv.
  destruct (fold_left_Qmax_ge l a) as [H1 H2]. intros p [<-|Hp]; auto.
Qed.

Lemma np_min_ok (l : list Q) : l <> [] -> exists m, np_min l = Ok m.
Proof. destruct l; [congruence | eexists; reflexivity]. Qed.

Lemma np_max_ok (l : list Q) : l <> [] -> exists m, np_max l = Ok m.
Proof. destruct l; [congruence | eexists; reflexivity]. Qed.

(** ** [np.arange] *)

Definition arange_len (start stop step : Q) : nat :=
  Z.to_nat (Qceiling ((stop - start) / step)).

Lemma np_arange_ok (start stop step : Q) :
  ~ step == 0 ->
  np_arange start stop step
  = Ok (arange_list start step (arange_len start stop step)).
Proof.
  intros H. unfold np_arange. destruct (Qeq_bool step 0) eqn:E; [|reflexivity].
  apply Qeq_bool_iff in E. contradiction.
Qed.

Lemma arange_nth (start step : Q) (n i : nat) :
  (i < n)%nat -> nth i (arange_list start step n) 0 = start + inject_Z (Z.of_nat i) * step.
Proof. intros Hi. unfold arange_list. rewrite nth_map_seq by exact Hi. reflexivity. Qed.

Lemma length_arange_list (start step : Q) (n : nat) : length (arange_list start step n) = n.
Proof. unfold arange_list. rewrite length_map, length_seq. reflexivity. Qed.

(** Every entry [start + i * step] lies below [stop]: [i < ceil(t)] gives
    [i < t] for [t = (stop - start) / step]. *)
Lemma arange_entry_lt_stop (start stop step : Q) (i : nat) :
  0 < step -> (i < arange_len start stop step)%nat ->
  start + inject_Z (Z.of_nat i) * step < stop.
Proof.
  intros Hs Hi. unfold arange_len in Hi.
  set (t := (stop - start) / step) in *.
  assert (Hc : (Z.of_nat i + 1 <= Qceiling t)%Z) by lia.
  assert (Ht : inject_Z (Z.of_nat i) < t).
  { pose proof (Qceiling_lt t) as Hl.
    assert (inject_Z (Z.of_nat i) <= inject_Z (Qceiling t - 1)) as Hle
      by (rewrite <- Zle_Qle; lia).
    lra. }
  assert (Hst : t * step == stop - start) by (unfold t; field; lra).
  assert (inject_Z (Z.of_nat i) * step < t * step) by (apply Qmult_lt_r; assumption).
  lra.
Qed.

(** The last entry is at least [stop - step]. *)
Lemma arange_last_ge (start stop step : Q) :
  0 < step -> start < stop ->
  (0 < arange_len start stop step)%nat /\
  stop - step <= start + inject_Z (Z.of_nat (arange_len start stop step - 1)) * step.
Proof.
  intros Hs Hlt. unfold arange_len.
  set (t := (stop - start) / step).
  assert (Htpos : 0 < t) by (unfold t; apply Qlt_shift_div_l; lra).
  pose proof (Qle_ceiling t) as Hc.
  assert (Hcpos : (0 < Qceiling t)%Z).
  { apply Z.lt_nge. intro Hn. assert (inject_Z (Qceiling t) <= 0) as Hq
      by (change 0 with (inject_Z 0); rewrite <- Zle_Qle; exact Hn). lra. }
  split; [lia|].
  rewrite Nat2Z.inj_sub by lia. rewrite Z2Nat.id by lia.
  assert (Hm : inject_Z (Qceiling t - Z.of_nat 1) == inject_Z (Qceiling t) - 1)
    by (unfold Qeq; simpl; lia).
  rewrite Hm.
  assert (Hst : t * step == stop - start) by (unfold t; field; lra).
  assert (t * step <= inject_Z (Qceiling t) * step) by (apply Qmult_le_r; assumption).
  nra.
Qed.

(** Consecutive entries of an [arange] differ by the step. *)
Lemma arange_list_step (start step : Q) (n i : nat) :
  (S i < n)%nat ->
  nth (S i) (arange_list start step n) 0 == nth i (arange_list start step n) 0 + step.
Proof.
  intros Hi. rewrite !arange_nth by lia.
  rewrite Nat2Z.inj_succ, <- Z.add_1_r, inject_Z_plus. simpl. ring.
Qed.

(** One padded axis: non-empty, starting at [lo - r], every entry below
    [hi + r + 1e-6], and its last entry above [hi]. *)
Lemma padded_axis (lo hi r : Q) :
  0 < r -> lo <= hi ->
  let g := arange_list (lo - r * 1) r (arange_len (lo - r * 1) (hi + r * 1 + grid_eps) r) in
  (0 < length g)%nat /\ nth 0 g 0 == lo - r /\ hi < nth (length g - 1) g 0 /\
  (forall i, (i < length g)%nat -> nth i g 0 < hi + r + grid_eps).
Proof.
  intros Hr Hlh g. unfold g. rewrite length_arange_list.
  destruct (arange_last_ge (lo - r * 1) (hi + r * 1 + grid_eps) r Hr)
    as [Hpos Hlast]; [unfold grid_eps; lra|].
  repeat split; [exact Hpos | | |].
  - rewrite arange_nth by exact Hpos. simpl. ring.
  - rewrite arange_nth by lia. unfold grid_eps in *. lra.
  - intros i Hi. rewrite arange_nth by exact Hi.
    pose proof (arange_entry_lt_stop (lo - r * 1) (hi + r * 1 + grid_eps) r i Hr Hi). lra.
Qed.

Lemma np_min_le_max (l : list Q) (lo hi : Q) :
  np_min l = Ok lo -> np_max l = Ok hi -> lo <= hi.
Proof.
  destruct l as [|a l]; [discriminate|]. intros H1 H2.
  apply Qle_trans with a; [apply (np_min_spec _ _ H1) | apply (np_max_spec _ _ H2)]; left; reflexivity.
Qed.

Lemma fold_left_Qmax_in (l : list Q) (a : Q) :
  exists p, In p (a :: l) /\ p == fold_left Qmax l a.
Proof.
  revert a. induction l as [|b l IH]; intros a.
  - exists a. split; [left; reflexivity | apply Qeq_refl].
  - destruct (IH (Qmax a b)) as [p [[Hp|Hp] Heq]]; cbn [fold_left].
    + destruct (Q.max_spec_le a b) as [[_ E]|[_ E]].
      * exists b. split; [right; left; reflexivity|].
        apply Qeq_trans with (Qmax a b); [apply Qeq_sym, E | rewrite Hp at 1; exact Heq].
      * exists a. split; [left; reflexivity|].
        apply Qeq_trans with (Qmax a b); [apply Qeq_sym, E | rewrite Hp at 1; exact Heq].
    + exists p. split; [right; right; exact Hp | exact Heq].
Qed.

Lemma fold_left_Qmin_in (l : list Q) (a : Q) :
  exists p, In p (a :: l) /\ p == fold_left Qmin l a.
Proof.
  revert a. induction l as [|b l IH]; intros a.
  - exists a. split; [left; reflexivity | apply Qeq_refl].
  - destruct (IH (Qmin a b)) as [p [[Hp|Hp] Heq]]; cbn [fold_left].
    + destruct (Q.min_spec_le a b) as [[_ E]|[_ E]].
      * exists a. split; [left; reflexivity|].
        apply Qeq_trans with (Qmin a b); [apply Qeq_sym, E | rewrite Hp at 1; exact Heq].
      * exists b. split; [right; left; reflexivity|].
        apply Qeq_trans with (Qmin a b); [apply Qeq_sym, E | rewrite Hp at 1; exact Heq].
    + exists p. split; [right; right; exact Hp | exact Heq].
Qed.

Lemma np_min_in (l : list Q) (m : Q) : np_min l = Ok m -> exists p, In p l /\ p == m.
Proof.
  destruct l as [|a l]; intros H; [discriminate|]. injection H as <-.
  apply fold_left_Qmin_in.
Qed.

Lemma np_max_in (l : list Q) (m : Q) : np_max l = Ok m -> exists p, In p l /\ p == m.
Proof.
  destruct l as [|a l]; intros H; [discriminate|]. injection H as <-.
  apply fold_left_Qmax_in.
Qed.

(** The facts of one padded axis, from its [np.min] and [np.max]. *)
Lemma padded_axis_of (v : list Q) (lo hi r : Q) :
  0 < r -> np_min v = Ok lo -> np_max v = Ok hi ->
  let g := arange_list (lo - r * 1) r (arange_len (lo - r * 1) (hi + r * 1 + grid_eps) r) in
  (0 < length g)%nat /\
  (forall i, (S i < length g)%nat -> nth (S i) g 0 == nth i g 0 + r) /\
  (forall p, In p v -> nth 0 g 0 + r <= p /\ p < nth (length g - 1) g 0) /\
  (exists p, In p v /\ nth (length g - 1) g 0 < p + r + grid_eps).
Proof.
  intros Hr Hlo Hhi g.
  destruct (padded_axis lo hi r Hr (np_min_le_max v lo hi Hlo Hhi)) as [P1 [P2 [P3 P4]]].
  fold g in P1, P2, P3, P4.
  split; [exact P1|]. split; [|split].
  - intros i Hi. unfold g in *. rewrite length_arange_list in Hi. apply arange_list_step; exact Hi.
  - intros p Hp. pose proof (np_min_spec _ _ Hlo p Hp). pose proof (np_max_spec _ _ Hhi p Hp). lra.
  - destruct (np_max_in v hi Hhi) as [p [Hp Hq]]. exists p. split; [exact Hp|].
    pose proof (P4 (length g - 1)%nat ltac:(lia)). lra.
Qed.

(** C2. For a non-empty input and a positive cell size, [build_grid]
    returns (it does not raise) two axes that rise by exactly one cell at
    each step, whose first line lies at least one cell below every input
    coordinate, whose last line lies above every input coordinate, and
    which end within one cell plus [1e-6] of the largest coordinate: the
    grid covers the padded bounding box of the input. *)
Theorem build_grid_covers (x y : list Q) (r : Q) :
  x <> [] -> y <> [] -> 0 < r ->
  exists gx gy gridx gridy,
    build_grid x y r = Ok (gx, gy, gridx, gridy) /\
    (0 < length gx)%nat /\
    (forall i, (S i < length gx)%nat -> nth (S i) gx 0 == nth i gx 0 + r) /\
    (forall p, In p x -> nth 0 gx 0 + r <= p /\ p < nth (length gx - 1) gx 0) /\
    (exists p, In p x /\ nth (length gx - 1) gx 0 < p + r + grid_eps) /\
    (0 < length gy)%nat /\
    (forall i, (S i < length gy)%nat -> nth (S i) gy 0 == nth i gy 0 + r) /\
    (forall p, In p y -> nth 0 gy 0 + r <= p /\ p < nth (length gy - 1) gy 0) /\
    (exists p, In p y /\ nth (length gy - 1) gy 0 < p + r + grid_eps).
Proof.
  intros Hx Hy Hr.
  destruct (np_min_ok x Hx) as [minx Hminx]. destruct (np_max_ok x Hx) as [maxx Hmaxx].
  destruct (np_min_ok y Hy) as [miny Hminy]. destruct (np_max_ok y Hy) as [maxy Hmaxy].
  assert (Hr0 : ~ r == 0) by lra.
  unfold build_grid. rewrite Hminx, Hmaxx, Hminy, Hmaxy. simpl.
  rewrite !np_arange_ok by exact Hr0. simpl.
  do 4 eexists. split; [reflexivity|].
  pose proof (padded_axis_of x minx maxx r Hr Hminx Hmaxx) as Px.
  pose proof (padded_axis_of y miny maxy r Hr Hminy Hmaxy) as Py.
  simpl in Px, Py. tauto.
Qed.

(** C17. The unpadded axis of [heatmap-generator-3.py] stops short of the
    data: every grid line lies strictly below the largest coordinate, so the
    extreme samples fall outside the kriged grid (and a dataset whose
    coordinates are all equal gets no grid line at all). *)
Theorem grid3_axis_below_max (v : list Q) (r : Q) (g : list Q) (hi : Q) :
  0 < r -> np_max v = Ok hi -> grid3_axis v r = Ok g ->
  forall e, In e g -> e < hi.
Proof.
  intros Hr Hhi Hg e He. unfold grid3_axis in Hg.
  destruct (np_min v) as [lo|] eqn:Hlo; [|discriminate]. simpl in Hg.
  rewrite Hhi in Hg. simpl in Hg.
  rewrite np_arange_ok in Hg by lra. injection Hg as <-.
  unfold arange_list in He. apply in_map_iff in He as [i [<- Hi]].
  apply in_seq in Hi. apply arange_entry_lt_stop; [exact Hr | lia].
Qed.

Lemma grid3_axis_constant (v : list Q) (r : Q) (c : Q) :
  0 < r -> v <> [] -> (forall p, In p v -> p == c) -> grid3_axis v r = Ok [].
Proof.
  intros Hr Hv Hc.
  destruct (np_min_ok v Hv) as [lo Hlo]. destruct (np_max_ok v Hv) as [hi Hhi].
  unfold grid3_axis. rewrite Hlo, Hhi. simpl. rewrite np_arange_ok by lra.
  assert (Hle : hi <= lo).
  { destruct (np_max_in v hi Hhi) as [p [Hp Hq]].
    destruct (np_min_in v lo Hlo) as [p' [Hp' Hq']].
    pose proof (Hc p Hp). pose proof (Hc p' Hp'). lra. }
  unfold arange_len.
  assert (Hq : (hi - lo) / r <= 0).
  { apply Qle_shift_div_r; lra. }
  assert (Hc0 : (Qceiling ((hi - lo) / r) <= 0)%Z).
  { change 0%Z with (Qceiling 0). apply Qceiling_resp_le. exact Hq. }
  replace (Z.to_nat (Qceiling ((hi - lo) / r))) with 0%nat by lia. reflexivity.
Qed.

(** The entry at row [i], column [j] of the meshgrid is [(gx[j], gy[i])]. *)
Lemma meshgrid_get2 (gx gy : list Q) (i j : nat) :
  (i < length gy)%nat -> (j < length gx)%nat ->
  get2 0 (fst (meshgrid gx gy)) i j = nth j gx 0 /\
  get2 0 (snd (meshgrid gx gy)) i j = nth i gy 0.
Proof.
  intros Hi Hj. unfold get2, meshgrid. simpl. split.
  - rewrite (nth_flat_map_block (fun _ => gx) (length gx) gy i j 0 0); auto.
  - rewrite (nth_flat_map_block (fun v => map (fun _ => v) gx) (length gx) gy i j 0 0); auto.
    + apply nth_map_const. exact Hj.
    + intros; rewrite length_map; reflexivity.
Qed.

Lemma meshgrid_wf (gx gy : list Q) :
  nd_wf (fst (meshgrid gx gy)) /\ nd_wf (snd (meshgrid gx gy)).
Proof.
  unfold nd_wf, meshgrid. simpl. split.
  - rewrite (length_flat_map_const _ (length gx)); [lia | reflexivity].
  - rewrite (length_flat_map_const _ (length gx)); [lia|].
    intros; rewrite length_map; reflexivity.
Qed.

(** ** Witnesses *)

Lemma build_grid_covers_witness :
  exists gx gy gridx gridy,
    build_grid [0; 10] [0; 5] 5 = Ok (gx, gy, gridx, gridy) /\ (0 < length gx)%nat /\
    forall p, In p [0; 10] -> nth 0 gx 0 + 5 <= p /\ p < nth (length gx - 1) gx 0.
Proof.
  destruct (build_grid_covers [0; 10] [0; 5] 5 ltac:(discriminate) ltac:(discriminate)
              ltac:(reflexivity)) as [gx [gy [gridx [gridy [H1 [H2 [_ [H4 _]]]]]]]].
  exists gx, gy, gridx, gridy. auto.
Defined.

Lemma grid3_axis_below_max_witness :
  exists g, grid3_axis [0; 10; 25] 10 = Ok g /\ forall e, In e g -> e < 25.
Proof.
  eexists; split; [reflexivity|].
  apply (grid3_axis_below_max [0; 10; 25] 10 _ 25); reflexivity.
Defined.

Lemma build_grid_meshgrid (x y : list Q) (r : Q) gx gy gridx gridy :
  build_grid x y r = Ok (gx, gy, gridx, gridy) -> (gridx, gridy) = meshgrid gx gy.
Proof.
  unfold build_grid.
  destruct (np_min x), (np_max x), (np_min y), (np_max y); simpl; try discriminate.
  destruct (np_arange _ _ r) as [ax|]; simpl; [|discriminate].
  destruct (np_arange _ _ r) as [ay|]; simpl; [|discriminate].
  intros H. injection H as <- <- <- <-. reflexivity.
Qed.
