(* ===== verification/Weights.v ===== *)
(** * Weights of the heatmap

    [grid_to_heatmap_data] of [heatmap_gstools.py] (lines 205-219) turns the
    kriged field into heatmap weights by the clipped rescale

<<
    v_clipped = np.clip(v, -140.0, -10.0)
    weights = (v_clipped - (-140.0)) / (130.0)
    weights = np.nan_to_num(weights, nan=0.0)
>>
    and [main] (line 277) keeps the grid points whose weight is positive.
    The other generators use the shift [weight = sig + 100]
    ([heatmap-generator-3.py] lines 76-80, [heatmap_generator.py] line 19,
    [heatmap_generator-2.py] line 64).  The theorems bound the rescale for
    every float, NaN and infinities included, show it monotone and clipped,
    and characterise the points the filter keeps. *)

From Stdlib Require Import QArith Qminmax Lqa ZArith List Lia.
From Stdlib Require Import Morphisms Setoid.
From S2P Require Import Prelude PyFloat NdArray.
Import ListNotations.

(** The weight of one field value. *)
Definition rssi_weight (v : pyfloat) : pyfloat :=
  nan_to_num (pf_div (pf_sub (np_clip (-140) (-10) v) (Fin (-140))) (Fin 130)).

Definition grid_to_heatmap_data (field : ndarray pyfloat) (gridx gridy : ndarray Q)
  : list Q * list Q * list pyfloat :=
  let flat_x := flatten gridx in
  let flat_y := flatten gridy in
  let flat_val := flatten field in
  (flat_x, flat_y, map rssi_weight flat_val).

(** [[[lat, lon, w] for lat, lon, w in zip(lats, lons, weights) if w > 0]] *)
Definition heat_points (lats lons : list Q) (weights : list pyfloat)
  : list (Q * Q * pyfloat) :=
  filter (fun '(_, _, w) => pf_lt (Fin 0) w) (zip3 lats lons weights).

(** [heatmap-generator-3.py]: [weight = sig + 100] for every kriged cell. *)
Definition shift_heat_data (flat_lat flat_lon : list Q) (flat_pred : list pyfloat)
  : list (Q * Q * pyfloat) :=
  map (fun '(la, lo, sig) => (la, lo, pf_add sig (Fin 100)))
      (zip3 flat_lat flat_lon flat_pred).

(** [heatmap_generator.py] lines 19-22: [weight = 100 + rssi] on the raw
    samples, zipped as [[lat, lon, weight]]. *)
Definition raw_heat_data (lat lon rssi : list pyfloat) : list (pyfloat * pyfloat * pyfloat) :=
  zip3 lat lon (map (fun r => pf_add (Fin 100) r) rssi).

(** ** The weight of a finite value *)

#[export] Instance rssi_weight_proper : Proper (pf_eq ==> pf_eq) rssi_weight.
Proof.
  intros a b H. unfold rssi_weight. rewrite H. reflexivity.
Qed.

Lemma Qeq_bool_130 : Qeq_bool 130 0 = false.
Proof. reflexivity. Qed.

(** On a value already inside [[-140, -10]] the weight is the affine
    rescale. *)
Lemma rssi_weight_inside (x : Q) :
  -140 <= x <= -10 -> pf_eq (rssi_weight (Fin x)) (Fin ((x + 140) / 130)).
Proof.
  intros Hx. unfold rssi_weight. rewrite (np_clip_fin_inside _ _ _ Hx).
  simpl. field.
Qed.

Lemma rssi_weight_below (x : Q) : x <= -140 -> pf_eq (rssi_weight (Fin x)) (Fin 0).
Proof.
  intros Hx. unfold rssi_weight.
  rewrite (np_clip_fin_below (-140) (-10) x) by lra.
  simpl. reflexivity.
Qed.

Lemma rssi_weight_above (x : Q) : -10 <= x -> pf_eq (rssi_weight (Fin x)) (Fin 1).
Proof.
  intros Hx. unfold rssi_weight.
  rewrite (np_clip_fin_above (-140) (-10) x) by lra.
  simpl. reflexivity.
Qed.

(** The weight of a finite value, in closed form. *)
Lemma rssi_weight_fin (x : Q) :
  pf_eq (rssi_weight (Fin x)) (Fin ((Qmin (-10) (Qmax (-140) x) + 140) / 130)).
Proof.
  destruct (Qlt_le_dec x (-140)) as [H1|H1]; [|destruct (Qlt_le_dec x (-10)) as [H2|H2]].
  - rewrite rssi_weight_below by lra. simpl.
    rewrite Q.max_l by lra. rewrite Q.min_r by lra. field.
  - rewrite rssi_weight_inside by lra. simpl.
    rewrite Q.max_r by lra. rewrite Q.min_r by lra. reflexivity.
  - rewrite rssi_weight_above by lra. simpl.
    rewrite Q.max_r by lra. rewrite Q.min_l by lra. field.
Qed.

Lemma clipped_rescale_bounds (c : Q) :
  -140 <= c <= -10 -> 0 <= (c + - (-140)) / 130 <= 1.
Proof.
  intros Hc. split; [apply Qle_shift_div_l | apply Qle_shift_div_r]; lra.
Qed.

(** The weight of any float lies in [[0, 1]]. *)
Lemma rssi_weight_unit (v : pyfloat) :
  exists q, rssi_weight v = Fin q /\ 0 <= q <= 1.
Proof.
  destruct v as [x| | |] eqn:Ev;
    [| exists 0; split; [reflexivity | lra] | |];
    (destruct (np_clip_bounds (-140) (-10) v ltac:(lra) ltac:(rewrite Ev; discriminate))
       as [c [Hc Hb]]; subst v;
     unfold rssi_weight; rewrite Hc; simpl;
     eexists; split; [reflexivity | apply clipped_rescale_bounds; exact Hb]).
Qed.

(** C1. For every float the kriging backend may predict (finite, NaN,
    [+inf] or [-inf]), the weight [grid_to_heatmap_data] computes is a
    finite number between 0 and 1. *)
Theorem rssi_weight_bounded (v : pyfloat) :
  exists q, rssi_weight v = Fin q /\ 0 <= q <= 1.
Proof. apply rssi_weight_unit. Qed.

(** The rescale is monotone: a stronger predicted signal never gets a
    smaller weight. *)
Theorem rssi_weight_monotone (x y : Q) :
  x <= y ->
  exists qx qy, rssi_weight (Fin x) = Fin qx /\ rssi_weight (Fin y) = Fin qy /\ qx <= qy.
Proof.
  intros Hxy.
  destruct (pf_eq_Fin_r _ _ (rssi_weight_fin x)) as [qx [Ex Hx]].
  destruct (pf_eq_Fin_r _ _ (rssi_weight_fin y)) as [qy [Ey Hy]].
  exists qx, qy. split; [exact Ex|]. split; [exact Ey|].
  rewrite Hx, Hy. unfold Qdiv. apply Qmult_le_compat_r; [|apply Qinv_le_0_compat; lra].
  apply Qplus_le_compat; [|apply Qle_refl].
  apply Q.min_le_compat_l, Q.max_le_compat_l. exact Hxy.
Qed.

(** C11. A value is clipped, never extrapolated: below [-140] the weight is
    0, above [-10] it is 1, and in between it is [(x + 140) / 130]. *)
Theorem rssi_weight_clipped (x : Q) :
  (x <= -140 -> pf_eq (rssi_weight (Fin x)) (Fin 0)) /\
  (-10 <= x -> pf_eq (rssi_weight (Fin x)) (Fin 1)) /\
  (-140 <= x <= -10 -> pf_eq (rssi_weight (Fin x)) (Fin ((x + 140) / 130))).
Proof.
  split; [apply rssi_weight_below | split; [apply rssi_weight_above | apply rssi_weight_inside]].
Qed.

(** Which values survive the [w > 0] filter of [main]. *)
Lemma rssi_weight_positive_iff (v : pyfloat) :
  pf_lt (Fin 0) (rssi_weight v) = true <-> v = PInf \/ exists x, v = Fin x /\ -140 < x.
Proof.
  destruct v as [x| | |].
  - destruct (pf_eq_Fin_r _ _ (rssi_weight_fin x)) as [q [E Hq]]. rewrite E. simpl.
    rewrite Qltb_iff. rewrite Hq. split.
    + intros H. right. exists x. split; [reflexivity|].
      destruct (Qlt_le_dec (-140) x) as [Hl|Hl]; [exact Hl|].
      rewrite Q.max_l in H by lra. rewrite Q.min_r in H by lra.
      exfalso. assert ((-140 + 140) / 130 == 0) as Z0 by reflexivity. lra.
    + intros [H|[x' [H Hx]]]; [discriminate|]. injection H as <-.
      unfold Qdiv. apply Qmult_lt_0_compat; [|reflexivity].
      pose proof (Q.le_min_l (-10) (Qmax (-140) x)).
      destruct (Q.min_spec_le (-10) (Qmax (-140) x)) as [[_ E1]|[_ E1]]; rewrite E1;
        [lra|]. pose proof (Q.le_max_r (-140) x). lra.
  - simpl. split; [discriminate | intros [H|[x [H _]]]; discriminate].
  - simpl. split; [intros _; left; reflexivity | reflexivity].
  - simpl. split; [discriminate | intros [H|[x [H _]]]; discriminate].
Qed.

(** The values the filter keeps, decided on the value itself. *)
Definition keep_value (v : pyfloat) : bool :=
  match v with PInf => true | Fin x => Qltb (-140) x | _ => false end.

Lemma keep_value_iff (v : pyfloat) : pf_lt (Fin 0) (rssi_weight v) = keep_value v.
Proof.
  destruct (keep_value v) eqn:E.
  - apply rssi_weight_positive_iff. destruct v; simpl in E; try discriminate; auto.
    right. eexists; split; [reflexivity|]. apply Qltb_iff; exact E.
  - destruct (pf_lt (Fin 0) (rssi_weight v)) eqn:E'; [|reflexivity].
    apply rssi_weight_positive_iff in E'.
    destruct E' as [->|[x [-> Hx]]]; simpl in E; [discriminate|].
    apply Qltb_false in E. lra.
Qed.

Lemma heat_points_filter (lats lons : list Q) (vals : list pyfloat) :
  heat_points lats lons (map rssi_weight vals) =
  map (fun '(la, lo, v) => (la, lo, rssi_weight v))
      (filter (fun '(_, _, v) => keep_value v) (zip3 lats lons vals)).
Proof.
  unfold heat_points. rewrite zip3_map_r.
  induction (zip3 lats lons vals) as [|[[la lo] v] l IH]; cbn [filter map]; [reflexivity|].
  rewrite keep_value_iff. destruct (keep_value v); [cbn [map]; f_equal|]; exact IH.
Qed.

(** C10. Filtering the weights by [w > 0] is filtering the predicted values
    by "above -140 dBm, or [+inf]": NaN and [-inf] predictions and values at
    or below -140 are dropped, the rest keep their order; and every weight
    that reaches the map lies in (0, 1]. *)
Theorem heat_points_spec (lats lons : list Q) (vals : list pyfloat) :
  heat_points lats lons (map rssi_weight vals) =
  map (fun '(la, lo, v) => (la, lo, rssi_weight v))
      (filter (fun '(_, _, v) => keep_value v) (zip3 lats lons vals)) /\
  (forall la lo w, In (la, lo, w) (heat_points lats lons (map rssi_weight vals)) ->
     exists q, w = Fin q /\ 0 < q <= 1).
Proof.
  split; [apply heat_points_filter|].
  intros la lo w Hin. unfold heat_points in Hin.
  apply filter_In in Hin as [Hz Hpos].
  destruct (in_zip3 _ _ _ _ _ _ Hz) as [i [_ [_ [_ [_ [_ Hw]]]]]].
  apply nth_error_In, in_map_iff in Hw as [v [<- _]].
  destruct (rssi_weight_unit v) as [q [Eq Hq]]. rewrite Eq in Hpos |- *.
  exists q. split; [reflexivity|]. simpl in Hpos. apply Qltb_iff in Hpos. lra.
Qed.

(** ** Witnesses *)

Lemma rssi_weight_monotone_witness :
  exists qx qy, rssi_weight (Fin (-100)) = Fin qx /\ rssi_weight (Fin (-50)) = Fin qy /\ qx <= qy.
Proof. apply rssi_weight_monotone. apply Qle_bool_iff. reflexivity. Defined.

Lemma rssi_weight_clipped_witness : pf_eq (rssi_weight (Fin (-150))) (Fin 0).
Proof. apply (proj1 (rssi_weight_clipped (-150))). apply Qle_bool_iff. reflexivity. Defined.

Lemma heat_points_spec_witness :
  heat_points [1; 2; 3] [4; 5; 6] (map rssi_weight [Fin (-75); NaN; Fin (-150)])
  = [(1, 4, rssi_weight (Fin (-75)))] /\
  forall la lo w,
    In (la, lo, w) (heat_points [1; 2; 3] [4; 5; 6] (map rssi_weight [Fin (-75); NaN; Fin (-150)])) ->
    exists q, w = Fin q /\ 0 < q <= 1.
Proof.
  destruct (heat_points_spec [1; 2; 3] [4; 5; 6] [Fin (-75); NaN; Fin (-150)]) as [H1 H2].
  split; [rewrite H1; reflexivity | exact H2].
Defined.
