(* ===== verification/Backend.v ===== *)
(** * The library calls of [heatmap_gstools.py], as an interface

    [fit_variogram] and [krige_with_gstools] call gstools under several call
    signatures, because its API changed across versions, and catch what the
    calls raise.  What a call returns or raises depends on the installed
    gstools; so the calls are the fields of the class [GSTools], each
    returning [Ok] or [Raise e], and the repository's control flow around
    them is proved for every instance.  [CovModel] instances, [SRF] objects
    and [krige.Ordinary] objects are abstract types of the instance.
    [vario_fit] answers [Some m] when it returns a [CovModel] instance and
    [None] when it returns anything else (a tuple of parameters).
    [np.hypot] is a field too: its square root has no rational value. *)

From Stdlib Require Import QArith Qabs Arith List.
From S2P Require Import Prelude PyFloat NdArray.
Import ListNotations.

(** What calling a [krige.Ordinary] object returns: [(field, var)] or a
    single field. *)
Inductive kresult : Type :=
| KPair (field var : ndarray pyfloat)
| KSingle (field : ndarray pyfloat).

Class GSTools : Type := {
  cov_model : Type;
  srf_obj : Type;
  krige_obj : Type;
  (** [gs.Exponential(dim=2, var=v, len_scale=l)] *)
  Exponential : pyfloat -> pyfloat -> res cov_model;
  (** [gs.vario_estimate(coords, vals, max_dist=d, bin_num=n)] *)
  vario_estimate_bin_num : list Q * list Q -> list Q -> Q -> nat -> res (list Q * list pyfloat);
  (** [gs.vario_estimate(coords, vals, max_dist=d, bins=n)] *)
  vario_estimate_bins : list Q * list Q -> list Q -> Q -> nat -> res (list Q * list pyfloat);
  (** [gs.vario_estimate(coords, vals, n)] *)
  vario_estimate_pos : list Q * list Q -> list Q -> nat -> res (list Q * list pyfloat);
  (** [gs.vario_fit(bins, vario)]: [Some m] for a [CovModel] instance *)
  vario_fit : list Q -> list pyfloat -> res (option cov_model);
  (** [gs.SRF(model, mean=m)] *)
  SRF : cov_model -> pyfloat -> res srf_obj;
  (** [srf.structured([gx, gy], cond_pos=p, cond_val=v, mode="conditional")] *)
  structured_mode : srf_obj -> list Q * list Q -> list (Q * Q) -> list Q -> res (ndarray pyfloat);
  (** [srf.structured([gx, gy], cond_pos=p, cond_val=v)] *)
  structured_kw : srf_obj -> list Q * list Q -> list (Q * Q) -> list Q -> res (ndarray pyfloat);
  (** [srf.structured([gx, gy], p, v)] *)
  structured_pos : srf_obj -> list Q * list Q -> list (Q * Q) -> list Q -> res (ndarray pyfloat);
  (** [gs.krige.Ordinary(model, cond_pos=p, cond_val=v)] *)
  krige_Ordinary : cov_model -> list (Q * Q) -> list Q -> res krige_obj;
  (** [ok((gx, gy))] and [ok((gridx, gridy))] *)
  krige_call_axes : krige_obj -> list Q * list Q -> res kresult;
  krige_call_mesh : krige_obj -> ndarray Q * ndarray Q -> res kresult;
  (** [np.hypot(a, b)] *)
  np_hypot : Q -> Q -> Q
}.

(** [np.column_stack((x, y))]: [ValueError] when the columns differ in
    length. *)
Definition column_stack (x y : list Q) : res (list (Q * Q)) :=
  if Nat.eqb (length x) (length y) then Ok (combine x y) else Raise ValueError.

Lemma column_stack_ok (x y : list Q) :
  length x = length y -> column_stack x y = Ok (combine x y).
Proof. intros H. unfold column_stack. rewrite H, Nat.eqb_refl. reflexivity. Qed.

(** ** A concrete backend, for running the model on examples

    Every library call answers what it is given; an [Exponential] model is
    its pair of parameters; [np_hypot] is stood in by the L1 norm (a
    rational over-approximation). *)
Definition toy_backend (est1 est2 est3 : res (list Q * list pyfloat))
    (fit : res (option (pyfloat * pyfloat)))
    (srf1 srf2 srf3 : res (ndarray pyfloat)) (kr_axes kr_mesh : res kresult)
  : GSTools := {|
  cov_model := pyfloat * pyfloat;
  srf_obj := unit;
  krige_obj := unit;
  Exponential := fun v l => Ok (v, l);
  vario_estimate_bin_num := fun _ _ _ _ => est1;
  vario_estimate_bins := fun _ _ _ _ => est2;
  vario_estimate_pos := fun _ _ _ => est3;
  vario_fit := fun _ _ => fit;
  SRF := fun _ _ => Ok tt;
  structured_mode := fun _ _ _ _ => srf1;
  structured_kw := fun _ _ _ _ => srf2;
  structured_pos := fun _ _ _ _ => srf3;
  krige_Ordinary := fun _ _ _ => Ok tt;
  krige_call_axes := fun _ _ => kr_axes;
  krige_call_mesh := fun _ _ => kr_mesh;
  np_hypot := fun a b => Qabs a + Qabs b
|}.

(** Every call raises: [vario_estimate] with two [TypeError]s and a
    [ValueError], every [structured] and kriging call. *)
Definition failing_backend : GSTools :=
  toy_backend (Raise TypeError) (Raise TypeError) (Raise ValueError) (Raise OtherError)
    (Raise TypeError) (Raise TypeError) (Raise OtherError) (Raise OtherError) (Raise ValueError).

(** The first [vario_estimate] call returns two bins, [vario_fit] returns
    parameters rather than a [CovModel]. *)
Definition estimating_backend : GSTools :=
  toy_backend (Ok ([10; 20], [Fin 5; Fin 9])) (Raise TypeError) (Raise TypeError) (Ok None)
    (Raise TypeError) (Raise TypeError) (Raise OtherError) (Raise OtherError) (Raise ValueError).

(** Every estimation call raises, the first SRF call returns a 3 x 3
    field. *)
Definition kriging_backend : GSTools :=
  toy_backend (Raise TypeError) (Raise TypeError) (Raise ValueError) (Raise OtherError)
    (Ok (mk_nd [3%nat; 3%nat]
           [Fin (-60); Fin (-65); Fin (-70); Fin (-150); NaN; Fin (-55);
            Fin (-80); Fin (-5); Fin (-140)]))
    (Raise TypeError) (Raise OtherError) (Raise OtherError) (Raise ValueError).
