(* ===== verification/Variogram.v ===== *)
(** * [fit_variogram]: estimation, fit and the two fallbacks

    [heatmap_gstools.fit_variogram] (lines 71-129), for every instance of
    the library interface [GSTools].  The function

    - computes [max_dist = hypot(x.max() - x.min(), y.max() - y.min()) / 2]
      when it is not given (outside the [try]: an empty input raises
      [ValueError] here);
    - tries [vario_estimate] with [bin_num=], then with [bins=] (only after
      a [TypeError]), then positionally (only after a second [TypeError]);
      the third attempt's failure of any kind, and the [raise RuntimeError]
      that follows it, reach the outer handler, and so does a
      non-[TypeError] of the first two attempts;
    - fits with [vario_fit]; a [CovModel] result is the model, anything else
      (or an exception, caught) leads to the empirical model
      [Exponential(var=nanmax(vario), len_scale=max(bins[nanargmax(vario)], 1.0))];
    - in the outer handler, builds the default model
      [Exponential(var=nanvar(vals), len_scale=max(diag / 5.0, 1.0))].

    [estimate] is the first two steps of the [try], [empirical_model] the
    [else] branch of lines 114-118, [default_model] the outer handler. *)

From Stdlib Require Import QArith Qabs Qminmax Lqa List Lia.
From S2P Require Import Prelude PyFloat NdArray Grid Backend.
Import ListNotations.

Local Open Scope py_scope.

Section Variogram.
Context `{GS : GSTools}.

(** [np.hypot(x.max() - x.min(), y.max() - y.min())] *)
Definition diag_extent (x y : list Q) : res Q :=
  xmax <- np_max x ;; xmin <- np_min x ;;
  ymax <- np_max y ;; ymin <- np_min y ;;
  Ok (np_hypot (xmax - xmin) (ymax - ymin)).

(** Lines 80-101: [Some (bins, vario)] when a call succeeded, [None] when
    the positional call failed ([called = False]); a non-[TypeError] of the
    first two calls propagates. *)
Definition estimate (coords : list Q * list Q) (vals : list Q) (max_dist : Q)
    (bin_num : nat) : res (option (list Q * list pyfloat)) :=
  catch_type (res_map Some (vario_estimate_bin_num coords vals max_dist bin_num))
    (catch_type (res_map Some (vario_estimate_bins coords vals max_dist bin_num))
       (catch_all (res_map Some (vario_estimate_pos coords vals bin_num)) (Ok None))).

(** [bins[i]]: [IndexError] out of range. *)
Definition index_bins (bins : list Q) (i : nat) : res pyfloat :=
  match nth_error bins i with Some b => Ok (Fin b) | None => Raise IndexError end.

(** Lines 116-118, with [vario is not None] true after a successful call. *)
Definition empirical_model (bins : list Q) (vario : list pyfloat) (max_dist : Q)
  : res cov_model :=
  sill <- nanmax vario ;;
  rng <- (if any_not_nan vario then (i <- nanargmax vario ;; index_bins bins i)
          else Ok (Fin (max_dist / 3))) ;;
  Exponential sill (py_max rng (Fin 1)).

(** Lines 124-129: the outer handler. *)
Definition default_model (x y vals : list Q) : res cov_model :=
  let sill := nanvar vals in
  diag <- diag_extent x y ;;
  let length := py_max (Fin (diag / 5)) (Fin 1) in
  Exponential sill length.

(** The body of the outer [try] (lines 78-120). *)
Definition fit_attempt (x y vals : list Q) (max_dist : Q) (bin_num : nat)
  : res cov_model :=
  est <- estimate (x, y) vals max_dist bin_num ;;
  match est with
  | None => Raise RuntimeError
  | Some (bins, vario) =>
      fit <- catch_all (res_map Some (vario_fit bins vario)) (Ok None) ;;
      match fit with
      | Some (Some m) => Ok m
      | _ => empirical_model bins vario max_dist
      end
  end.

Definition fit_variogram (x y vals : list Q) (max_dist : option Q) (bin_num : nat)
  : res cov_model :=
  md <- match max_dist with
        | None => d <- diag_extent x y ;; Ok (d / 2)
        | Some d => Ok d
        end ;;
  catch_all (fit_attempt x y vals md bin_num) (default_model x y vals).

(** ** Lemmas *)

Lemma diag_extent_ok (x y : list Q) :
  x <> [] -> y <> [] -> exists d, diag_extent x y = Ok d.
Proof.
  intros Hx Hy.
  destruct (np_max_ok x Hx) as [a Ha]. destruct (np_min_ok x Hx) as [b Hb].
  destruct (np_max_ok y Hy) as [c Hc]. destruct (np_min_ok y Hy) as [d Hd].
  unfold diag_extent. rewrite Ha, Hb, Hc, Hd. simpl. eexists; reflexivity.
Qed.

(** The estimation attempts fail exactly in these cases. *)
Lemma estimate_fails (coords : list Q * list Q) (vals : list Q) (md : Q) (n : nat) :
  (forall r, estimate coords vals md n <> Ok (Some r)) <->
  (exists e, vario_estimate_bin_num coords vals md n = Raise e /\ e <> TypeError) \/
  (vario_estimate_bin_num coords vals md n = Raise TypeError /\
   exists e, vario_estimate_bins coords vals md n = Raise e /\ e <> TypeError) \/
  (vario_estimate_bin_num coords vals md n = Raise TypeError /\
   vario_estimate_bins coords vals md n = Raise TypeError /\
   exists e, vario_estimate_pos coords vals n = Raise e).
Proof.
  unfold estimate.
  destruct (vario_estimate_bin_num coords vals md n) as [r1|[]];
  try destruct (vario_estimate_bins coords vals md n) as [r2|[]];
  try destruct (vario_estimate_pos coords vals n) as [r3|[]]; simpl;
  split; intros H;
  repeat match goal with
         | H : exists _, _ |- _ => destruct H
         | H : _ /\ _ |- _ => destruct H
         | H : _ \/ _ |- _ => destruct H
         end;
  try discriminate; try congruence;
  try (exfalso; eapply H; reflexivity);
  try (intros r Hr; discriminate);
  eauto 7 using TypeError with nocore;
  try (left; eexists; split; [reflexivity | discriminate]);
  try (right; left; split; [reflexivity | eexists; split; [reflexivity | discriminate]]);
  try (right; right; split; [reflexivity | split; [reflexivity | eexists; reflexivity]]).
Qed.

Lemma py_max_fin_ge1 (a : Q) :
  exists l, py_max (Fin a) (Fin 1) = Fin l /\ 1 <= l.
Proof.
  unfold py_max. simpl. destruct (Qltb a 1) eqn:E.
  - exists 1. split; [reflexivity | lra].
  - exists a. split; [reflexivity|]. apply Qltb_false in E. exact E.
Qed.

Lemma fit_variogram_none (x y vals : list Q) (n : nat) (d : Q) :
  diag_extent x y = Ok d ->
  fit_variogram x y vals None n
  = catch_all (fit_attempt x y vals (d / 2) n) (default_model x y vals).
Proof. intros Hd. unfold fit_variogram. rewrite Hd. reflexivity. Qed.

Lemma default_model_eq (x y vals : list Q) (d : Q) :
  diag_extent x y = Ok d ->
  default_model x y vals = Exponential (nanvar vals) (py_max (Fin (d / 5)) (Fin 1)).
Proof. intros Hd. unfold default_model. rewrite Hd. reflexivity. Qed.

(** C4. [fit_variogram] as [main] calls it ([max_dist=None]) raises
    [ValueError] on an empty input, before its [try]; on a non-empty input
    (a single point included) it always returns a model, provided gstools
    accepts an exponential model of the data's variance and a length scale
    of at least 1: every estimation, fit or fallback failure is recovered. *)
Theorem fit_variogram_total (x y vals : list Q) (n : nat) :
  (x = [] -> fit_variogram x y vals None n = Raise ValueError) /\
  (x <> [] -> y <> [] ->
   (forall l, 1 <= l -> exists m, Exponential (nanvar vals) (Fin l) = Ok m) ->
   exists m, fit_variogram x y vals None n = Ok m).
Proof.
  split.
  - intros ->. reflexivity.
  - intros Hx Hy HExp.
    destruct (diag_extent_ok x y Hx Hy) as [d Hd].
    rewrite (fit_variogram_none _ _ _ _ _ Hd).
    destruct (fit_attempt x y vals (d / 2) n) as [m|e]; simpl; [eauto|].
    rewrite (default_model_eq _ _ _ _ Hd).
    destruct (py_max_fin_ge1 (d / 5)) as [l [-> Hl]]. apply HExp, Hl.
Qed.

(** C3. When every [vario_estimate] attempt fails the way the handlers let
    it reach the outer [except] (a non-[TypeError] of the first or second
    call, or any failure of the third after two [TypeError]s), the model is
    the default one: exponential, with the sample variance of the RSSI
    values as variance and [max(diag / 5, 1)] as length scale, [diag] being
    the diagonal of the data's bounding box.  Its parameters depend on the
    data only, not on the library's answers. *)
Theorem fit_variogram_default (x y vals : list Q) (n : nat) (d : Q) :
  diag_extent x y = Ok d ->
  ((exists e, vario_estimate_bin_num (x, y) vals (d / 2) n = Raise e /\ e <> TypeError) \/
   (vario_estimate_bin_num (x, y) vals (d / 2) n = Raise TypeError /\
    exists e, vario_estimate_bins (x, y) vals (d / 2) n = Raise e /\ e <> TypeError) \/
   (vario_estimate_bin_num (x, y) vals (d / 2) n = Raise TypeError /\
    vario_estimate_bins (x, y) vals (d / 2) n = Raise TypeError /\
    exists e, vario_estimate_pos (x, y) vals n = Raise e)) ->
  fit_variogram x y vals None n
  = Exponential (nanvar vals) (py_max (Fin (d / 5)) (Fin 1)).
Proof.
  intros Hd Hfail. pose proof (proj2 (estimate_fails _ _ _ _) Hfail) as Hno. clear Hfail.
  rewrite (fit_variogram_none _ _ _ _ _ Hd), <- (default_model_eq x y vals d Hd).
  unfold fit_attempt.
  destruct (estimate (x, y) vals (d / 2) n) as [[r|]|e] eqn:E; simpl; try reflexivity.
  exfalso. apply (Hno r). reflexivity.
Qed.

(** C14. When an estimation call succeeds, a [CovModel] returned by
    [vario_fit] is the model.  When [vario_fit] raises or returns anything
    else and the variogram has no infinite value, the model is the
    empirical exponential of lines 116-118: its variance is the first of
    the largest values of the variogram, its length scale the bin at that
    same index, floored at 1; a variogram of NaN only gives variance NaN
    and length [max_dist / 3] (floored at 1); an empty variogram, or a bin
    index out of range, raises inside the [try] and the default model is
    used instead, as it is when [gs.Exponential] itself raises. *)
Theorem fit_variogram_estimated (x y vals : list Q) (n : nat) (d : Q)
    (bins : list Q) (vario : list pyfloat) :
  diag_extent x y = Ok d ->
  estimate (x, y) vals (d / 2) n = Ok (Some (bins, vario)) ->
  (forall m, vario_fit bins vario = Ok (Some m) -> fit_variogram x y vals None n = Ok m) /\
  ((forall m, vario_fit bins vario <> Ok (Some m)) -> Forall no_inf vario ->
   (vario = [] -> fit_variogram x y vals None n = default_model x y vals) /\
   (vario <> [] -> any_not_nan vario = false ->
    fit_variogram x y vals None n =
      catch_all (Exponential NaN (py_max (Fin (d / 2 / 3)) (Fin 1))) (default_model x y vals)) /\
   (any_not_nan vario = true -> exists i v, first_max vario i v /\
    fit_variogram x y vals None n =
      match nth_error bins i with
      | Some b => catch_all (Exponential (Fin v) (py_max (Fin b) (Fin 1))) (default_model x y vals)
      | None => default_model x y vals
      end)).
Proof.
  intros Hd He. rewrite (fit_variogram_none _ _ _ _ _ Hd).
  unfold fit_attempt. rewrite He. cbn [res_bind].
  split; [intros m E; rewrite E; reflexivity|]. intros Hnf Hinf.
  assert (Emp : catch_all (fit <- catch_all (res_map Some (vario_fit bins vario)) (Ok None) ;;
                  match fit with Some (Some m) => Ok m | _ => empirical_model bins vario (d / 2) end)
                  (default_model x y vals)
                = catch_all (empirical_model bins vario (d / 2)) (default_model x y vals)).
  { destruct (vario_fit bins vario) as [[m|]|e]; [exfalso; exact (Hnf m eq_refl) | reflexivity | reflexivity]. }
  rewrite Emp. unfold empirical_model. split; [intros ->; reflexivity|]. split.
  - intros Hne Hany. unfold nanmax. rewrite (not_nan_nil _ Hany), Hany.
    destruct vario; [contradiction | reflexivity].
  - intros Hany. destruct (nanmax_nanargmax vario Hinf Hany) as [i [v [Emax [Earg Hmax]]]].
    exists i, v. split; [exact Hmax|]. rewrite Emax, Hany. cbn [res_bind]. rewrite Earg. cbn [res_bind].
    unfold index_bins. destruct (nth_error bins i); reflexivity.
Qed.

End Variogram.

(** ** Witnesses *)

Lemma fit_variogram_total_witness :
  exists m, @fit_variogram failing_backend [0; 3] [0; 4] [-60; -70] None 20 = Ok m.
Proof.
  apply (proj2 (@fit_variogram_total failing_backend [0; 3] [0; 4] [-60; -70] 20));
    [discriminate | discriminate | intros l _; eexists; reflexivity].
Defined.

Lemma fit_variogram_default_witness :
  exists d, @diag_extent failing_backend [0; 3] [0; 4] = Ok d /\
    @fit_variogram failing_backend [0; 3] [0; 4] [-60; -70] None 20
    = Ok (nanvar [-60; -70], py_max (Fin (d / 5)) (Fin 1)).
Proof.
  exists (Qabs (3 - 0) + Qabs (4 - 0)). split; [reflexivity|].
  rewrite (@fit_variogram_default failing_backend [0; 3] [0; 4] [-60; -70] 20
             (Qabs (3 - 0) + Qabs (4 - 0)) eq_refl); [reflexivity|].
  right; right. split; [reflexivity|]. split; [reflexivity|]. eexists; reflexivity.
Defined.

Lemma fit_variogram_estimated_witness :
  exists i v, first_max [Fin 5; Fin 9] i v /\
    @fit_variogram estimating_backend [0; 3] [0; 4] [-60; -70] None 20 =
      match nth_error [10; 20] i with
      | Some b => catch_all (@Exponential estimating_backend (Fin v) (py_max (Fin b) (Fin 1)))
                    (@default_model estimating_backend [0; 3] [0; 4] [-60; -70])
      | None => @default_model estimating_backend [0; 3] [0; 4] [-60; -70]
      end.
Proof.
  destruct (@fit_variogram_estimated estimating_backend [0; 3] [0; 4] [-60; -70] 20
              (Qabs (3 - 0) + Qabs (4 - 0)) [10; 20] [Fin 5; Fin 9] eq_refl eq_refl) as [_ H].
  apply H; [intros m E; discriminate E | repeat constructor; discriminate | reflexivity].
Defined.
