(* ===== verification/Kriging.v ===== *)
(** * [krige_with_gstools]: three attempts and a final [RuntimeError]

    [heatmap_gstools.krige_with_gstools] (lines 132-196) for every instance
    of [GSTools]:

    - [srf_attempt]: [gs.SRF(model, mean=nanmean(vals))], then
      [srf.structured] with [mode="conditional"], without it after a
      [TypeError], positionally after a second [TypeError];
    - on any exception, [srf_retry]: a new [SRF], [structured] without
      [mode], positionally after a [TypeError];
    - on any exception, [ordinary_attempt]: [gs.krige.Ordinary], called on
      the axes and, on any exception, on the meshgrid; the first component
      of a pair is the field; then the shape repair [normalize_field];
    - on any exception, [raise RuntimeError].

    [cond_pos = np.column_stack((x, y))] is computed before the first
    [try].  The SRF results are returned as the library gives them, without
    the shape repair. *)

From Stdlib Require Import QArith Arith List Lia.
From S2P Require Import Prelude PyFloat NdArray Backend.
Import ListNotations.

Local Open Scope py_scope.

Section Kriging.
Context `{GS : GSTools}.

(** Lines 136-148. *)
Definition srf_attempt (model : cov_model) (vals : list Q) (gx gy : list Q)
    (cond_pos : list (Q * Q)) : res (ndarray pyfloat) :=
  srf <- SRF model (nanmean vals) ;;
  catch_type (structured_mode srf (gx, gy) cond_pos vals)
    (catch_type (structured_kw srf (gx, gy) cond_pos vals)
       (structured_pos srf (gx, gy) cond_pos vals)).

(** Lines 152-160. *)
Definition srf_retry (model : cov_model) (vals : list Q) (gx gy : list Q)
    (cond_pos : list (Q * Q)) : res (ndarray pyfloat) :=
  srf <- SRF model (nanmean vals) ;;
  catch_type (structured_kw srf (gx, gy) cond_pos vals)
    (structured_pos srf (gx, gy) cond_pos vals).

Definition kresult_field (r : kresult) : ndarray pyfloat :=
  match r with KPair f _ => f | KSingle f => f end.

(** Lines 165-192. *)
Definition ordinary_attempt (model : cov_model) (vals : list Q) (gx gy : list Q)
    (gridx gridy : ndarray Q) (cond_pos : list (Q * Q)) : res (ndarray pyfloat) :=
  ok <- krige_Ordinary model cond_pos vals ;;
  r <- catch_all (krige_call_axes ok (gx, gy)) (krige_call_mesh ok (gridx, gridy)) ;;
  normalize_field (length gy) (length gx) (kresult_field r).

Definition krige_with_gstools (model : cov_model) (x y vals : list Q) (gx gy : list Q)
    (gridx gridy : ndarray Q) : res (ndarray pyfloat) :=
  cond_pos <- column_stack x y ;;
  catch_all (srf_attempt model vals gx gy cond_pos)
    (catch_all (srf_retry model vals gx gy cond_pos)
       (catch_all (ordinary_attempt model vals gx gy gridx gridy cond_pos)
          (Raise RuntimeError))).

(** ** Theorems *)

(** C5. Kriging on columns of equal length fails only with
    [RuntimeError], and exactly when the SRF attempt, the SRF retry and the
    [krige.Ordinary] attempt all raise; otherwise its result is that of the
    first attempt that succeeds, in this order. *)
Theorem krige_with_gstools_spec (model : cov_model) (x y vals gx gy : list Q)
    (gridx gridy : ndarray Q) :
  length x = length y ->
  let cp := combine x y in
  (forall e, krige_with_gstools model x y vals gx gy gridx gridy = Raise e ->
     e = RuntimeError) /\
  (krige_with_gstools model x y vals gx gy gridx gridy = Raise RuntimeError <->
     (exists e1, srf_attempt model vals gx gy cp = Raise e1) /\
     (exists e2, srf_retry model vals gx gy cp = Raise e2) /\
     (exists e3, ordinary_attempt model vals gx gy gridx gridy cp = Raise e3)) /\
  (forall f, krige_with_gstools model x y vals gx gy gridx gridy = Ok f <->
     srf_attempt model vals gx gy cp = Ok f \/
     ((exists e1, srf_attempt model vals gx gy cp = Raise e1) /\
      srf_retry model vals gx gy cp = Ok f) \/
     ((exists e1, srf_attempt model vals gx gy cp = Raise e1) /\
      (exists e2, srf_retry model vals gx gy cp = Raise e2) /\
      ordinary_attempt model vals gx gy gridx gridy cp = Ok f)).
Proof.
  intros Hlen cp. unfold krige_with_gstools. rewrite (column_stack_ok x y Hlen). simpl.
  fold cp.
  destruct (srf_attempt model vals gx gy cp) as [f1|e1];
  destruct (srf_retry model vals gx gy cp) as [f2|e2];
  destruct (ordinary_attempt model vals gx gy gridx gridy cp) as [f3|e3]; simpl.
  all: split; [intros e He; congruence | split; [split | intros f; split]].
  all: intros H;
    repeat match goal with
           | H : _ \/ _ |- _ => destruct H
           | H : _ /\ _ |- _ => destruct H
           | H : exists _, _ |- _ => destruct H
           end; try congruence; eauto 8.
Qed.

End Kriging.

(** ** Witnesses *)

Lemma krige_with_gstools_spec_witness :
  @krige_with_gstools failing_backend (Fin 1, Fin 1) [0; 1] [0; 1] [-60; -70] [0] [0]
    (mk_nd [1%nat; 1%nat] [0]) (mk_nd [1%nat; 1%nat] [0]) = Raise RuntimeError.
Proof.
  destruct (@krige_with_gstools_spec failing_backend (Fin 1, Fin 1) [0; 1] [0; 1] [-60; -70]
              [0] [0] (mk_nd [1%nat; 1%nat] [0]) (mk_nd [1%nat; 1%nat] [0]) eq_refl)
    as [_ [H _]].
  apply H. split; [|split]; eexists; reflexivity.
Defined.
