(* ===== verification/Pipeline.v ===== *)
(** * [main] of [heatmap_gstools.py]: the pipeline after loading

    [main] (lines 245-285) projects the samples ([project_to_meters], lines
    53-56), builds the grid, fits the variogram with [bin_num=20], kriges,
    converts the flattened meshgrid back to latitude and longitude
    ([to_latlon], lines 199-202), computes the weights, zips coordinates
    with weights keeping [w > 0], and centres the map at the medians of the
    input coordinates.  The two coordinate transforms are pyproj's
    EPSG:4326 <-> EPSG:3857 transformers: they are variables of the section.

    The grid points and the field values are paired by flat index (the
    [zip] of line 277).  The meshgrid is row-major over [(y, x)]; a field
    that the backend indexes x first, of shape [(nx, ny)], is paired
    correctly only when the shape repair transposes it, which it does
    when [nx <> ny] and never when [nx = ny]. *)

From Stdlib Require Import QArith Arith List Lia.
From S2P Require Import Prelude PyFloat NdArray Grid Weights Backend Variogram Kriging.
Import ListNotations.

Local Open Scope py_scope.

(** ** pandas' [Series.median] *)

Fixpoint insert_q (a : Q) (l : list Q) : list Q :=
  match l with
  | [] => [a]
  | b :: l' => if Qle_bool a b then a :: l else b :: insert_q a l'
  end.

Definition sort_q (l : list Q) : list Q := fold_right insert_q [] l.

(** NaN for an empty column; the middle value, or the mean of the two
    middle values, of the sorted column. *)
Definition pd_median (l : list Q) : pyfloat :=
  let s := sort_q l in
  let n := length s in
  match n with
  | O => NaN
  | _ => if Nat.odd n then Fin (nth (n / 2) s 0)
         else Fin ((nth (n / 2 - 1) s 0 + nth (n / 2) s 0) / 2)
  end.

(** ** A field indexed x first *)

(** The field [f[i][j] = phi(gx[i], gy[j])] of shape [(nx, ny)]: the layout
    of a structured field indexed x first. *)
Definition xmajor_field (gx gy : list Q) (phi : Q -> Q -> pyfloat) : ndarray pyfloat :=
  mk_nd [length gx; length gy] (flat_map (fun xv => map (fun yv => phi xv yv) gy) gx).

Lemma xmajor_field_get2 (gx gy : list Q) (phi : Q -> Q -> pyfloat) (i j : nat) :
  (i < length gx)%nat -> (j < length gy)%nat ->
  get2 NaN (xmajor_field gx gy phi) i j = phi (nth i gx 0) (nth j gy 0).
Proof.
  intros Hi Hj. unfold get2, xmajor_field. simpl.
  rewrite (nth_flat_map_block _ (length gy) gx i j NaN 0);
    [| intros; rewrite length_map; reflexivity | exact Hi | exact Hj].
  apply (nth_map_lt (fun yv => phi (nth i gx 0) yv) gy j NaN 0 Hj).
Qed.

Section Pipeline.
Context `{GS : GSTools}.
(** [transformer_fwd.transform(lon, lat)] and [transformer_inv.transform(x, y)]
    on one point, both answering in [always_xy] order. *)
Variable to_meters : Q -> Q -> Q * Q.
Variable to_lonlat : Q -> Q -> Q * Q.

Definition project_to_meters (lats lons : list Q) : list Q * list Q :=
  let pts := map (fun '(lo, la) => to_meters lo la) (combine lons lats) in
  (map fst pts, map snd pts).

(** Returns [(lats, lons)]. *)
Definition to_latlon (xs ys : list Q) : list Q * list Q :=
  let pts := map (fun '(xv, yv) => to_lonlat xv yv) (combine xs ys) in
  (map snd pts, map fst pts).

(** [main] from the projection to the heatmap data and the map centre. *)
Definition main_heatmap (lat lon rssi : list Q) (grid : Q)
  : res (list (Q * Q * pyfloat) * (pyfloat * pyfloat)) :=
  let '(x, y) := project_to_meters lat lon in
  let vals := rssi in
  res_bind (build_grid x y grid) (fun '(gx, gy, gridx, gridy) =>
  model <- fit_variogram x y vals None 20 ;;
  field <- krige_with_gstools model x y vals gx gy gridx gridy ;;
  let flat_x := flatten gridx in
  let flat_y := flatten gridy in
  let '(lats, lons) := to_latlon flat_x flat_y in
  let '(_, _, weights) := grid_to_heatmap_data field gridx gridy in
  let heatmap_data := heat_points lats lons weights in
  let lat_c := pd_median lat in
  let lon_c := pd_median lon in
  Ok (heatmap_data, (lat_c, lon_c))).

End Pipeline.

(** ** Pairing of grid points with field values *)

Lemma get2_flat {A} (d : A) (a : ndarray A) (r c i j : nat) :
  shape a = [r; c] -> get2 d a i j = nth (i * c + j) (flatten a) d.
Proof. intros Hs. unfold get2, flatten. rewrite Hs. reflexivity. Qed.

Lemma meshgrid_flat (gx gy : list Q) (i j : nat) :
  (i < length gy)%nat -> (j < length gx)%nat ->
  nth (i * length gx + j) (flatten (fst (meshgrid gx gy))) 0 = nth j gx 0 /\
  nth (i * length gx + j) (flatten (snd (meshgrid gx gy))) 0 = nth i gy 0.
Proof.
  intros Hi Hj. destruct (meshgrid_get2 gx gy i j Hi Hj) as [H1 H2].
  rewrite (get2_flat 0 _ (length gy) (length gx)) in H1 by reflexivity.
  rewrite (get2_flat 0 _ (length gy) (length gx)) in H2 by reflexivity.
  split; assumption.
Qed.

(** C13. When the backend's field is indexed x first, shape [(nx, ny)], on
    a grid that is not square, the shape repair transposes it and the flat
    index [i * nx + j] pairs the grid point [(gx[j], gy[i])] with the value
    predicted at that same point. *)
Theorem xmajor_field_paired (gx gy : list Q) (phi : Q -> Q -> pyfloat) :
  length gx <> length gy ->
  exists g, normalize_field (length gy) (length gx) (xmajor_field gx gy phi) = Ok g /\
  forall i j, (i < length gy)%nat -> (j < length gx)%nat ->
    nth (i * length gx + j) (flatten (fst (meshgrid gx gy))) 0 = nth j gx 0 /\
    nth (i * length gx + j) (flatten (snd (meshgrid gx gy))) 0 = nth i gy 0 /\
    nth (i * length gx + j) (flatten g) NaN = phi (nth j gx 0) (nth i gy 0).
Proof.
  intros Hne.
  destruct (normalize_field_cases (length gy) (length gx) (xmajor_field gx gy phi))
    as [[Hs _]|[[Hs _]|[[_ [_ ->]]|[_ [_ [Hs3 _]]]]]];
    [simpl in Hs; injection Hs; lia | simpl in Hs; discriminate | | simpl in Hs3; congruence].
  eexists; split; [reflexivity|]. intros i j Hi Hj.
  destruct (meshgrid_flat gx gy i j Hi Hj) as [H1 H2]. split; [exact H1|]. split; [exact H2|].
  rewrite <- (get2_flat NaN _ (length gy) (length gx)) by (rewrite shape_np_T; reflexivity).
  rewrite (get2_np_T NaN _ (length gx) (length gy)) by (reflexivity || assumption).
  apply xmajor_field_get2; assumption.
Qed.

(** C7. On a square grid the shape repair leaves an x-first field as it
    is: the flat index [i * n + j], which the [zip] of [main] gives to the
    grid point [(gx[j], gy[i])], carries the value predicted at
    [(gx[i], gy[j])], the point mirrored across the diagonal. *)
Theorem xmajor_field_square_mispaired (gx gy : list Q) (phi : Q -> Q -> pyfloat) :
  length gx = length gy ->
  normalize_field (length gy) (length gx) (xmajor_field gx gy phi)
    = Ok (xmajor_field gx gy phi) /\
  forall i j, (i < length gy)%nat -> (j < length gx)%nat ->
    nth (i * length gx + j) (flatten (fst (meshgrid gx gy))) 0 = nth j gx 0 /\
    nth (i * length gx + j) (flatten (snd (meshgrid gx gy))) 0 = nth i gy 0 /\
    nth (i * length gx + j) (flatten (xmajor_field gx gy phi)) NaN
      = phi (nth i gx 0) (nth j gy 0).
Proof.
  intros Heq. split.
  - rewrite Heq. apply normalize_field_square. unfold xmajor_field. simpl. rewrite Heq. reflexivity.
  - intros i j Hi Hj.
    destruct (meshgrid_flat gx gy i j Hi Hj) as [H1 H2]. split; [exact H1|]. split; [exact H2|].
    rewrite Heq.
    rewrite <- (get2_flat NaN _ (length gx) (length gy)) by reflexivity.
    apply xmajor_field_get2; lia.
Qed.

Section PipelineTheorems.
Context `{GS : GSTools}.
Variable to_meters : Q -> Q -> Q * Q.
Variable to_lonlat : Q -> Q -> Q * Q.

Lemma length_to_latlon (xs ys : list Q) :
  length (fst (to_latlon to_lonlat xs ys)) = Nat.min (length xs) (length ys).
Proof. unfold to_latlon. simpl. rewrite !length_map, length_combine. reflexivity. Qed.

End PipelineTheorems.

(** ** Witnesses *)

Lemma xmajor_field_paired_witness :
  exists g, normalize_field 2 3 (xmajor_field [0; 1; 2] [0; 1] (fun xv yv => Fin (xv + 10 * yv))) = Ok g
    /\ nth 5 (flatten g) NaN = Fin (2 + 10 * 1).
Proof.
  destruct (xmajor_field_paired [0; 1; 2] [0; 1] (fun xv yv => Fin (xv + 10 * yv))
              ltac:(simpl; lia)) as [g [H1 H2]].
  exists g. split; [exact H1|].
  destruct (H2 1%nat 2%nat ltac:(simpl; lia) ltac:(simpl; lia)) as [_ [_ H3]].
  exact H3.
Defined.

Lemma xmajor_field_square_mispaired_witness :
  nth 1 (flatten (fst (meshgrid [0; 1] [0; 1]))) 0 = 1 /\
  nth 1 (flatten (snd (meshgrid [0; 1] [0; 1]))) 0 = 0 /\
  nth 1 (flatten (xmajor_field [0; 1] [0; 1] (fun xv _ => Fin xv))) NaN = Fin 0.
Proof.
  destruct (xmajor_field_square_mispaired [0; 1] [0; 1] (fun xv _ => Fin xv) eq_refl) as [_ H].
  exact (H 0%nat 1%nat ltac:(simpl; lia) ltac:(simpl; lia)).
Defined.

