(* ===== verification/PyKrige.v ===== *)
(** * [heatmap-generator-3.py]: the pykrige pipeline

    The script (lines 14-80) loads the samples, projects them to Web
    Mercator metres (lines 24-29), builds an [OrdinaryKriging] model with
    the spherical variogram (lines 37-42), lays the grid
    [np.arange(np.min(v), np.max(v), 30)] on each axis (lines 48-53), asks
    the model for the grid predictions ([OK.execute("grid", ...)], line
    60), flattens the meshgrid and the predictions (lines 63-65), converts
    the grid back to latitude and longitude (lines 70-71) and shifts every
    prediction by 100 (lines 76-80).

    pykrige is a library: the fitted model is a variable of the section,
    [ok_fit], which may raise, and whose answer is the predictor at a
    point.  [OK.execute("grid", gx, gy)] answers the array of shape
    [(len gy, len gx)] whose row [j] holds the predictions along [gy[j]]
    ([ymajor_field]); this is the layout of [np.meshgrid], so the flat
    index pairs each grid point with its own prediction
    ([main_pykrige_paired]), unlike the x-first field of [heatmap_gstools.py]
    on a square grid ([Pipeline.xmajor_field_square_mispaired]).

    Coordinates are exact rationals: the NaN that the unguarded
    [astype(float)] of lines 16-18 gives a missing coordinate, and the
    error it later causes in [np.arange], are not modelled. *)

From Stdlib Require Import QArith Arith List Lia.
From S2P Require Import Prelude PyFloat NdArray Grid Weights Pipeline.
Import ListNotations.

Local Open Scope py_scope.

(** [z_pred] of [OK.execute("grid", grid_x, grid_y)] for the predictor [phi]. *)
Definition ymajor_field (gx gy : list Q) (phi : Q -> Q -> pyfloat) : ndarray pyfloat :=
  mk_nd [length gy; length gx] (flat_map (fun yv => map (fun xv => phi xv yv) gx) gy).

(** [grid_res = 30] metres. *)
Definition grid_res : Q := 30.

Section Main3.
Variable to_meters : Q -> Q -> Q * Q.
Variable to_lonlat : Q -> Q -> Q * Q.
(** [OrdinaryKriging(x, y, z, variogram_model="spherical")]: raises, or
    answers the model's prediction at a point. *)
Variable ok_fit : list Q -> list Q -> list Q -> res (Q -> Q -> pyfloat).

Definition main_pykrige (lat lon rssi : list Q) : res (list (Q * Q * pyfloat)) :=
  let '(x, y) := project_to_meters to_meters lat lon in
  let z := rssi in
  OK <- ok_fit x y z ;;
  grid_x <- grid3_axis x grid_res ;;
  grid_y <- grid3_axis y grid_res ;;
  let '(gridx, gridy) := meshgrid grid_x grid_y in
  let z_pred := ymajor_field grid_x grid_y OK in
  let flat_x := flatten gridx in
  let flat_y := flatten gridy in
  let flat_pred := flatten z_pred in
  let '(flat_lat, flat_lon) := to_latlon to_lonlat flat_x flat_y in
  Ok (shift_heat_data flat_lat flat_lon flat_pred).

End Main3.

(** ** Layout lemmas *)

Lemma ymajor_field_flat (gx gy : list Q) (phi : Q -> Q -> pyfloat) (j i : nat) :
  (j < length gy)%nat -> (i < length gx)%nat ->
  nth (j * length gx + i) (flatten (ymajor_field gx gy phi)) NaN = phi (nth i gx 0) (nth j gy 0).
Proof.
  intros Hj Hi. unfold flatten, ymajor_field. simpl.
  rewrite (nth_flat_map_block _ (length gx) gy j i NaN 0) by (try intros; rewrite ?length_map; auto).
  apply (nth_map_lt (fun xv => phi xv (nth j gy 0)) gx i NaN 0 Hi).
Qed.

Lemma length_flatten_ymajor (gx gy : list Q) (phi : Q -> Q -> pyfloat) :
  length (flatten (ymajor_field gx gy phi)) = (length gy * length gx)%nat.
Proof.
  unfold flatten, ymajor_field. simpl.
  apply length_flat_map_const. intros. apply length_map.
Qed.

Lemma length_flatten_meshgrid (gx gy : list Q) :
  length (flatten (fst (meshgrid gx gy))) = (length gy * length gx)%nat /\
  length (flatten (snd (meshgrid gx gy))) = (length gy * length gx)%nat.
Proof.
  unfold flatten, meshgrid. simpl.
  split; apply length_flat_map_const; intros; rewrite ?length_map; reflexivity.
Qed.

Lemma nth_to_latlon (f : Q -> Q -> Q * Q) (xs ys : list Q) (k : nat) :
  (k < length xs)%nat -> (k < length ys)%nat ->
  nth k (fst (to_latlon f xs ys)) 0 = snd (f (nth k xs 0) (nth k ys 0)) /\
  nth k (snd (to_latlon f xs ys)) 0 = fst (f (nth k xs 0) (nth k ys 0)).
Proof.
  intros H1 H2. unfold to_latlon. simpl.
  assert (Hl : (k < length (map (fun '(xv, yv) => f xv yv) (combine xs ys)))%nat)
    by (rewrite length_map, length_combine; lia).
  rewrite !(nth_map_lt _ _ k 0 (0, 0)) by exact Hl.
  rewrite !(nth_map_combine (fun '(xv, yv) => f xv yv) xs ys k 0 0) by assumption.
  split; reflexivity.
Qed.

Lemma length_project_to_meters (f : Q -> Q -> Q * Q) (lat lon : list Q) :
  length (fst (project_to_meters f lat lon)) = Nat.min (length lon) (length lat) /\
  length (snd (project_to_meters f lat lon)) = Nat.min (length lon) (length lat).
Proof. unfold project_to_meters. simpl. rewrite !length_map, length_combine. split; reflexivity. Qed.

Section Main3Theorems.
Variable to_meters : Q -> Q -> Q * Q.
Variable to_lonlat : Q -> Q -> Q * Q.
Variable ok_fit : list Q -> list Q -> list Q -> res (Q -> Q -> pyfloat).

(** C29. What [heatmap-generator-3.py] puts on the map: when it succeeds,
    the model is the fitted one, the axes are those of [grid3_axis], there
    is one heatmap point per grid cell, and the point of flat index
    [j * nx + i] is the grid point [(gx[i], gy[j])] converted back to
    latitude and longitude, weighted by the prediction at that same point
    plus 100. *)
Theorem main_pykrige_paired (lat lon rssi : list Q) (heat : list (Q * Q * pyfloat)) :
  main_pykrige to_meters to_lonlat ok_fit lat lon rssi = Ok heat ->
  let x := fst (project_to_meters to_meters lat lon) in
  let y := snd (project_to_meters to_meters lat lon) in
  exists OK gx gy,
    ok_fit x y rssi = Ok OK /\ grid3_axis x grid_res = Ok gx /\ grid3_axis y grid_res = Ok gy /\
    length heat = (length gy * length gx)%nat /\
    forall j i, (j < length gy)%nat -> (i < length gx)%nat ->
      nth (j * length gx + i) heat (0, 0, NaN)
      = (snd (to_lonlat (nth i gx 0) (nth j gy 0)), fst (to_lonlat (nth i gx 0) (nth j gy 0)),
         pf_add (OK (nth i gx 0) (nth j gy 0)) (Fin 100)).
Proof.
  intros H. cbv zeta. unfold main_pykrige in H.
  destruct (project_to_meters to_meters lat lon) as [x y]. cbn [fst snd].
  destruct (ok_fit x y rssi) as [OK|e]; cbn [res_bind] in H; [|discriminate].
  destruct (grid3_axis x grid_res) as [gx|e]; cbn [res_bind] in H; [|discriminate].
  destruct (grid3_axis y grid_res) as [gy|e]; cbn [res_bind] in H; [|discriminate].
  destruct (length_flatten_meshgrid gx gy) as [Lx Ly].
  pose proof (meshgrid_flat gx gy) as M.
  destruct (meshgrid gx gy) as [gridx gridy]. cbn [fst snd] in Lx, Ly, M.
  cbv beta iota zeta in H.
  pose proof (length_to_latlon to_lonlat (flatten gridx) (flatten gridy)) as Ll.
  assert (Ll' : length (snd (to_latlon to_lonlat (flatten gridx) (flatten gridy)))
                = (length gy * length gx)%nat)
    by (unfold to_latlon; cbn [snd]; rewrite !length_map, length_combine, Lx, Ly; lia).
  pose proof (nth_to_latlon to_lonlat (flatten gridx) (flatten gridy)) as N.
  destruct (to_latlon to_lonlat _ _) as [fla flo]. injection H as <-.
  cbn [fst snd] in Ll, Ll', N. rewrite Lx, Ly, Nat.min_l in Ll by lia.
  exists OK, gx, gy. split; [reflexivity|]. split; [reflexivity|]. split; [reflexivity|].
  unfold shift_heat_data.
  change (flat_map (fun yv => map (fun xv => OK xv yv) gx) gy) with (flatten (ymajor_field gx gy OK)).
  split.
  - rewrite length_map, length_zip3, length_flatten_ymajor, Ll, Ll'. lia.
  - intros j i Hj Hi.
    assert (Hk : (j * length gx + i < length gy * length gx)%nat) by nia.
    rewrite (nth_map_lt _ _ _ _ (0, 0, NaN))
      by (rewrite length_zip3, length_flatten_ymajor, Ll, Ll'; lia).
    rewrite nth_zip3 by (rewrite ?length_flatten_ymajor, ?Ll, ?Ll'; lia).
    destruct (N (j * length gx + i)%nat ltac:(lia) ltac:(lia)) as [E1 E2].
    destruct (M j i Hj Hi) as [M1 M2]. rewrite E1, E2, M1, M2.
    rewrite ymajor_field_flat by assumption. reflexivity.
Qed.

End Main3Theorems.

(** ** Witnesses *)

Lemma main_pykrige_paired_witness :
  exists heat,
    main_pykrige (fun lo la => (lo, la)) (fun xv yv => (xv, yv)) (fun _ _ _ => Ok (fun xv yv => Fin (xv + yv)))
      [0; 60] [0; 60] [-50; -70] = Ok heat /\
    nth (1 * 2 + 1)%nat heat (0, 0, NaN) = (30, 30, pf_add (Fin (30 + 30)) (Fin 100)).
Proof.
  destruct (main_pykrige (fun lo la => (lo, la)) (fun xv yv => (xv, yv))
              (fun _ _ _ => Ok (fun xv yv => Fin (xv + yv))) [0; 60] [0; 60] [-50; -70]) as [heat|e] eqn:E;
    [| vm_compute in E; discriminate E].
  exists heat. split; [reflexivity|].
  destruct (main_pykrige_paired _ _ _ _ _ _ heat E) as [OK [gx [gy [H1 [H2 [H3 [_ H5]]]]]]].
  vm_compute in H1, H2, H3. injection H1 as <-. injection H2 as <-. injection H3 as <-.
  exact (H5 1%nat 1%nat ltac:(simpl; lia) ltac:(simpl; lia)).
Defined.

