(* ===== verification/Radial.v ===== *)
(** * Radial slices: [angle_diff], the bearing range and the Savitzky-Golay window

    [signal-over-compass.py] cuts the samples into 72 slices of bearing
    around a base station (every 5 degrees, half-width 2.5), skips slices of
    fewer than 3 samples, sorts each by distance and smooths its RSSI with
    [scipy.signal.savgol_filter], whose window it computes (lines 100-104):

<<
        w = min(SAVGOL_WINDOW, len(rssi_raw) - (len(rssi_raw)+1)%2)
        w = max(w, 5)  # ensure >=5
        if w % 2 == 0:
            w += 1
        rssi_smoothed = savgol_filter(rssi_raw, w, SAVGOL_POLY)
>>
    [savgol_filter] (mode ["interp"]) raises [ValueError] when the window is
    longer than the data or not longer than the polynomial order.
    [signal-over-line.py] keeps one slice, [angle_diff(b, 180) <= 2].  The
    bearings and distances of the samples are inputs here (their
    trigonometry is not modelled); Python's float [%] is floor modulo. *)

From Stdlib Require Import QArith Qround Qabs Qminmax Lqa ZArith List Lia.
From Stdlib Require Import Morphisms Setoid.
From S2P Require Import Prelude.
Import ListNotations.

Local Open Scope py_scope.

(** Python's [a % b] on floats: [a - b * floor(a / b)]. *)
Definition py_fmod (a b : Q) : Q := a - b * inject_Z (Qfloor (a / b)).

(** Python's builtin [min(a, b)]: [a] unless [b < a]. *)
Definition py_min (a b : Q) : Q := if Qltb b a then b else a.

(** [angle_diff] (compass lines 48-50, line lines 66-68). *)
Definition angle_diff (a b : Q) : Q :=
  let d := py_fmod (Qabs (a - b)) 360 in
  py_min d (360 - d).

(** The last step of [bearing]: [(degrees(atan2(x, y)) + 360) % 360]. *)
Definition bearing_norm (deg : Q) : Q := py_fmod (deg + 360) 360.

(** ** The smoothing window *)

Definition SAVGOL_WINDOW : Z := 11.
Definition SAVGOL_POLY : Z := 3.

Definition savgol_window (n : Z) : Z :=
  let w := Z.min SAVGOL_WINDOW (n - (n + 1) mod 2)%Z in
  let w := Z.max w 5 in
  if (w mod 2 =? 0)%Z then (w + 1)%Z else w.

(** The argument checks of [savgol_filter(x, window_length, polyorder)]
    with the default [mode="interp"]. *)
Definition savgol_check (n w p : Z) : res unit :=
  if (w <=? p)%Z then Raise ValueError
  else if (n <? w)%Z then Raise ValueError
  else Ok tt.

(** One sample of the data frame: bearing, distance, RSSI. *)
Definition sample : Type := (Q * Q * Q)%type.

Definition ANGLE_STEP : Z := 5.
Definition SLICE_HALF_WIDTH : Q := 5 # 2.

(** [np.arange(0, 360, ANGLE_STEP)] *)
Definition angle_bins : list Q :=
  map (fun i => inject_Z (Z.of_nat i * ANGLE_STEP)%Z) (seq 0 72).

Definition slice_of (a : Q) (df : list sample) : list sample :=
  filter (fun '(b, _, _) => Qle_bool (angle_diff b a) SLICE_HALF_WIDTH) df.

(** The loop of lines 81-110 with [USE_SAVGOL] on: the slices that are
    plotted, each with its size and window, or the first [ValueError] of
    [savgol_filter].  (Sorting by distance does not change the size.) *)
Fixpoint compass_loop (bins : list Q) (df : list sample) : res (list (Q * nat * Z)) :=
  match bins with
  | [] => Ok []
  | a :: rest =>
      let sl := slice_of a df in
      let n := length sl in
      if Nat.ltb n 3 then compass_loop rest df
      else
        let w := savgol_window (Z.of_nat n) in
        _ <- savgol_check (Z.of_nat n) w SAVGOL_POLY ;;
        tl <- compass_loop rest df ;;
        Ok ((a, n, w) :: tl)
  end.

Definition compass_profiles (df : list sample) : res (list (Q * nat * Z)) :=
  compass_loop angle_bins df.

(** [signal-over-line.py] lines 70-71. *)
Definition TARGET_HEADING : Q := 180.
Definition HEADING_TOLERANCE : Q := 2.

Definition line_slice (df : list sample) : list sample :=
  filter (fun '(b, _, _) => Qle_bool (angle_diff b TARGET_HEADING) HEADING_TOLERANCE) df.

(** ** Lemmas *)

Lemma py_fmod_range (a b : Q) : 0 < b -> 0 <= py_fmod a b < b.
Proof.
  intros Hb. unfold py_fmod.
  pose proof (Qfloor_le (a / b)) as H1. pose proof (Qlt_floor (a / b)) as H2.
  rewrite inject_Z_plus in H2.
  assert (Hab : a / b * b == a) by (field; lra).
  set (f := inject_Z (Qfloor (a / b))) in *.
  assert (f * b <= a / b * b) by (apply Qmult_le_r; lra).
  assert (a / b * b < (f + inject_Z 1) * b) by (apply Qmult_lt_r; lra).
  assert (inject_Z 1 == 1) as E1 by reflexivity.
  split; nra.
Qed.

Lemma py_min_cases (a b : Q) : (py_min a b == a /\ a <= b) \/ (py_min a b == b /\ b < a).
Proof.
  unfold py_min. destruct (Qltb b a) eqn:E.
  - right. apply Qltb_iff in E. split; [reflexivity | exact E].
  - left. apply Qltb_false in E. split; [reflexivity | exact E].
Qed.

#[export] Instance py_min_proper : Proper (Qeq ==> Qeq ==> Qeq) py_min.
Proof.
  intros a a' Ha b b' Hb. unfold py_min. rewrite (Qltb_compat b b' a a' Hb Ha).
  destruct (Qltb b' a'); assumption.
Qed.

#[export] Instance py_fmod_proper : Proper (Qeq ==> Qeq ==> Qeq) py_fmod.
Proof.
  intros a a' Ha b b' Hb. unfold py_fmod.
  rewrite (Qfloor_comp (a / b) (a' / b')) by (rewrite Ha, Hb; reflexivity).
  rewrite Ha, Hb. reflexivity.
Qed.

(** The angular distance of [angle_diff] lies in [[0, 180]] and is
    symmetric, for every pair of finite bearings (negative or above 360
    included). *)
Theorem angle_diff_range (a b : Q) :
  0 <= angle_diff a b <= 180 /\ angle_diff a b == angle_diff b a.
Proof.
  unfold angle_diff.
  assert (Hs : Qabs (a - b) == Qabs (b - a)).
  { rewrite <- Qabs_opp. apply Qabs_wd. ring. }
  split.
  - destruct (py_fmod_range (Qabs (a - b)) 360 ltac:(reflexivity)) as [H1 H2].
    destruct (py_min_cases (py_fmod (Qabs (a - b)) 360) (360 - py_fmod (Qabs (a - b)) 360))
      as [[E H]|[E H]]; rewrite E; lra.
  - rewrite Hs. reflexivity.
Qed.

(** [bearing] always lands in [[0, 360)], and for the range
    [(-180, 180]] of [atan2] in degrees it is the bearing itself when
    non-negative and the bearing plus 360 otherwise. *)
Theorem bearing_norm_range (t : Q) :
  0 <= bearing_norm t < 360 /\
  (0 <= t < 360 -> bearing_norm t == t) /\
  (-360 <= t < 0 -> bearing_norm t == t + 360).
Proof.
  split; [apply py_fmod_range; reflexivity|].
  assert (Hfl : forall k : Z, forall u : Q,
            inject_Z k <= u < inject_Z k + 1 -> Qfloor u = k).
  { intros k u [H1 H2]. apply Z.le_antisymm.
    - assert (inject_Z (Qfloor u) < inject_Z (k + 1)).
      { eapply Qle_lt_trans; [apply Qfloor_le|]. rewrite inject_Z_plus. exact H2. }
      rewrite <- Zlt_Qlt in H. lia.
    - apply Qfloor_resp_le in H1. rewrite Qfloor_Z in H1. exact H1. }
  unfold bearing_norm, py_fmod. split; intros Ht.
  - rewrite (Hfl 1%Z); [simpl; ring|].
    split; (apply Qle_shift_div_l || apply Qlt_shift_div_r); try reflexivity; unfold inject_Z; lra.
  - rewrite (Hfl 0%Z); [simpl; ring|].
    split; (apply Qle_shift_div_l || apply Qlt_shift_div_r); try reflexivity; unfold inject_Z; lra.
Qed.

Lemma savgol_window_small (n : Z) : (n < 5)%Z -> savgol_window n = 5%Z.
Proof.
  intros Hn. unfold savgol_window, SAVGOL_WINDOW.
  pose proof (Z.mod_pos_bound (n + 1) 2 ltac:(lia)).
  rewrite Z.min_r by lia. rewrite Z.max_r by lia. reflexivity.
Qed.

Lemma savgol_window_large (n : Z) : (12 <= n)%Z -> savgol_window n = 11%Z.
Proof.
  intros Hn. unfold savgol_window, SAVGOL_WINDOW.
  pose proof (Z.mod_pos_bound (n + 1) 2 ltac:(lia)).
  rewrite Z.min_l by lia. reflexivity.
Qed.

Lemma savgol_window_facts (n : Z) :
  (5 <= savgol_window n <= 11)%Z /\ (savgol_window n mod 2 = 1)%Z /\
  ((5 <= n)%Z -> (savgol_window n <= n)%Z) /\
  ((n < 5)%Z -> savgol_window n = 5%Z).
Proof.
  destruct (Z.lt_ge_cases n 5) as [H5|H5].
  - rewrite (savgol_window_small n H5). repeat split; try reflexivity; lia.
  - destruct (Z.lt_ge_cases n 12) as [H12|H12].
    + assert (n = 5 \/ n = 6 \/ n = 7 \/ n = 8 \/ n = 9 \/ n = 10 \/ n = 11)%Z as Hn by lia.
      repeat destruct Hn as [->|Hn]; [..| subst n]; vm_compute;
        repeat split; try discriminate; try lia.
    + rewrite (savgol_window_large n H12). repeat split; try reflexivity; lia.
Qed.

Lemma savgol_check_window (n : Z) :
  (3 <= n)%Z ->
  savgol_check n (savgol_window n) SAVGOL_POLY = (if (n <? 5)%Z then Raise ValueError else Ok tt).
Proof.
  intros Hn. destruct (savgol_window_facts n) as [[H1 H2] [_ [H4 H5]]].
  unfold savgol_check, SAVGOL_POLY.
  destruct (Z.leb_spec (savgol_window n) 3); [lia|].
  destruct (Z.ltb_spec n 5) as [Hl|Hl].
  - rewrite (H5 Hl). destruct (Z.ltb_spec n 5); [reflexivity | lia].
  - destruct (Z.ltb_spec n (savgol_window n)); [specialize (H4 Hl); lia | reflexivity].
Qed.

Lemma compass_loop_raise (bins : list Q) (df : list sample) :
  (forall e, compass_loop bins df = Raise e -> e = ValueError) /\
  ((exists e, compass_loop bins df = Raise e) <->
   exists a, In a bins /\ (length (slice_of a df) = 3 \/ length (slice_of a df) = 4)%nat).
Proof.
  induction bins as [|a rest [IH1 IH2]]; simpl.
  - split; [intros e H; discriminate|]. split; [intros [e H]; discriminate | intros [a [[] _]]].
  - destruct (Nat.ltb_spec (length (slice_of a df)) 3) as [Hlt|Hge].
    + split; [exact IH1|]. rewrite IH2. split.
      * intros [b [Hb Hn]]. exists b. auto.
      * intros [b [[<-|Hb] Hn]]; [lia | eauto].
    + rewrite savgol_check_window by lia.
      destruct (Z.ltb_spec (Z.of_nat (length (slice_of a df))) 5) as [H5|H5]; simpl.
      * split; [intros e H; injection H; auto|].
        split; [intros _; exists a; split; [left; reflexivity | lia] | intros _; eauto].
      * destruct (compass_loop rest df) as [tl|e] eqn:E; simpl.
        -- split; [intros e H; discriminate|]. split; [intros [e H]; discriminate|].
           intros [b [[<-|Hb] Hn]]; [lia|].
           destruct (proj2 IH2 (ex_intro _ b (conj Hb Hn))) as [e He]. discriminate.
        -- split; [intros e' H; injection H as <-; exact (IH1 e eq_refl)|].
           split; [|intros _; eauto].
           intros _. destruct (proj1 IH2 (ex_intro _ e eq_refl)) as [b [Hb Hn]].
           exists b. split; [right; exact Hb | exact Hn].
Qed.

(** C15. The window [signal-over-compass.py] computes is odd and between
    5 and 11 for every slice size, and fits in the slice (as
    [savgol_filter] requires) exactly when the slice has at least 5
    samples; below that it is 5. *)
Theorem savgol_window_spec (n : Z) :
  (5 <= savgol_window n <= 11)%Z /\ (savgol_window n mod 2 = 1)%Z /\
  ((5 <= n)%Z -> (savgol_window n <= n)%Z) /\
  ((n < 5)%Z -> savgol_window n = 5%Z).
Proof. apply savgol_window_facts. Qed.

(** C8. [signal-over-compass.py] crashes with [ValueError] from
    [savgol_filter] exactly when one of its 72 bearing slices holds 3 or 4
    samples: such a slice passes the [len(slice_df) < 3] guard and gets the
    window 5, longer than itself.  No other exception comes out of the
    loop. *)
Theorem compass_profiles_raise (df : list sample) :
  (forall e, compass_profiles df = Raise e -> e = ValueError) /\
  ((exists e, compass_profiles df = Raise e) <->
   exists a, In a angle_bins /\
     (length (slice_of a df) = 3 \/ length (slice_of a df) = 4)%nat).
Proof. apply compass_loop_raise. Qed.

(** ** Witnesses *)

Lemma savgol_window_spec_witness : (savgol_window 8 <= 8)%Z /\ savgol_window 4 = 5%Z.
Proof.
  destruct (savgol_window_spec 8) as [_ [_ [H _]]].
  destruct (savgol_window_spec 4) as [_ [_ [_ H']]].
  split; [apply H; lia | apply H'; lia].
Defined.

Lemma bearing_norm_range_witness : bearing_norm (-90) == 270.
Proof.
  destruct (bearing_norm_range (-90)) as [_ [_ H]].
  rewrite H; [reflexivity | split; apply Qle_bool_iff || apply Qltb_iff; reflexivity].
Defined.

Lemma compass_profiles_raise_witness :
  exists e, compass_profiles [(0, 1, -60); (1, 2, -61); (359, 3, -62)] = Raise e.
Proof.
  destruct (compass_profiles_raise [(0, 1, -60); (1, 2, -61); (359, 3, -62)]) as [_ [_ H]].
  apply H. exists (inject_Z (Z.of_nat 0 * ANGLE_STEP)). split; [left; reflexivity | left; vm_compute; reflexivity].
Defined.
