(* ===== verification/Loader.v ===== *)
(** * [load_csv] of [heatmap_gstools.py]

    [load_csv] (lines 36-50) reads a headerless CSV with pandas, refuses a
    table of fewer than three columns, keeps the first five, names them
    [rssi, lat, lon, alt, heading], drops the rows where [rssi], [lat] or
    [lon] is missing, and converts those three columns to float.

    The table is given as pandas hands it over: a number of columns and rows
    of cells.  A cell is a value pandas parsed ([CVal v], NaN for an empty
    field) or a text it could not parse as a number ([CStr s]), which makes
    its column an [object] column; [astype(float)] then calls Python's
    [float] on it, which raises [ValueError] (the text is assumed to be
    rejected by [float] as well).  The tokenizer of [read_csv] is not
    modelled. *)

From Stdlib Require Import QArith Arith String List Lia.
From S2P Require Import Prelude PyFloat.
Import ListNotations.

Local Open Scope py_scope.

Inductive cell : Type :=
| CVal (v : pyfloat)
| CStr (s : string).

Record frame : Type := mk_frame {
  ncols : nat;
  rows : list (list cell)
}.

(** One loaded sample: [rssi], [lat], [lon] and the remaining columns. *)
Record loaded_row : Type := mk_loaded {
  rssi : pyfloat;
  lat : pyfloat;
  lon : pyfloat;
  extra : list cell
}.

Definition cell_isna (c : cell) : bool :=
  match c with CVal NaN => true | _ => false end.

(** [Series.astype(float)] on one cell. *)
Definition astype_float (c : cell) : res pyfloat :=
  match c with CVal v => Ok v | CStr _ => Raise ValueError end.

(** [df.dropna(subset=["rssi", "lat", "lon"])] on one row. *)
Definition row_complete (r : list cell) : bool :=
  negb (existsb cell_isna (firstn 3 r)).

Definition convert_row (r : list cell) : res loaded_row :=
  match r with
  | c0 :: c1 :: c2 :: rest =>
      la <- astype_float c1 ;; lo <- astype_float c2 ;; rs <- astype_float c0 ;;
      Ok (mk_loaded rs la lo rest)
  | _ => Raise IndexError
  end.

Fixpoint convert_rows (rs : list (list cell)) : res (list loaded_row) :=
  match rs with
  | [] => Ok []
  | r :: rest => x <- convert_row r ;; xs <- convert_rows rest ;; Ok (x :: xs)
  end.

Definition load_csv (df : frame) : res (list loaded_row) :=
  if Nat.leb 3 (ncols df) then
    let rs := map (firstn 5) (rows df) in
    let rs := filter row_complete rs in
    convert_rows rs
  else Raise ValueError.

(** Every row has the frame's number of cells (pandas pads short rows with
    NaN). *)
Definition frame_wf (df : frame) : Prop :=
  Forall (fun r => length r = ncols df) (rows df).

(** Text in one of the three converted columns of a kept row. *)
Definition has_text (r : list cell) : bool :=
  existsb (fun c => match c with CStr _ => true | _ => false end) (firstn 3 r).

(** ** Lemmas *)

Lemma astype_float_cases (c : cell) :
  (exists v, c = CVal v /\ astype_float c = Ok v) \/
  (exists s, c = CStr s /\ astype_float c = Raise ValueError).
Proof. destruct c; [left | right]; eauto. Qed.

(** A row of at least three cells converts unless it has text in one of
    its first three; a converted complete row has no NaN in them. *)
Lemma convert_row_spec (r : list cell) :
  (3 <= length r)%nat ->
  (convert_row r = Raise ValueError <-> has_text r = true) /\
  (forall e, convert_row r = Raise e -> e = ValueError) /\
  (forall x, convert_row r = Ok x -> row_complete r = true ->
     rssi x <> NaN /\ lat x <> NaN /\ lon x <> NaN).
Proof.
  destruct r as [|c0 [|c1 [|c2 rest]]]; simpl; intros Hl; try lia.
  unfold has_text, row_complete. simpl.
  destruct c0 as [v0|s0], c1 as [v1|s1], c2 as [v2|s2]; simpl;
    (split; [split; intros H; try discriminate; try reflexivity|]);
    (split; [intros e H; inversion H; subst; reflexivity|]);
    intros x Hx Hc; try discriminate; injection Hx as <-; simpl.
  destruct v0, v1, v2; simpl in Hc; try discriminate; repeat split; discriminate.
Qed.

Lemma convert_rows_spec (rs : list (list cell)) :
  Forall (fun r => 3 <= length r)%nat rs ->
  Forall (fun r => row_complete r = true) rs ->
  (forall e, convert_rows rs = Raise e -> e = ValueError) /\
  (convert_rows rs = Raise ValueError <-> exists r, In r rs /\ has_text r = true) /\
  (forall out, convert_rows rs = Ok out ->
     length out = length rs /\
     Forall (fun x => rssi x <> NaN /\ lat x <> NaN /\ lon x <> NaN) out).
Proof.
  induction rs as [|r rs IH]; intros Hl Hc; simpl.
  - split; [intros e H; discriminate|]. split; [split; [discriminate | intros [r [[] _]]]|].
    intros out H. injection H as <-. split; [reflexivity | constructor].
  - inversion Hl as [|? ? Hr Hrs]; subst. inversion Hc as [|? ? Hcr Hcrs]; subst.
    destruct (IH Hrs Hcrs) as [IH1 [IH2 IH3]].
    destruct (convert_row_spec r Hr) as [R1 [R2 R3]].
    destruct (convert_row r) as [x|e] eqn:Er; simpl.
    + destruct (convert_rows rs) as [xs|e] eqn:Ers; simpl.
      * split; [intros e H; discriminate|]. split.
        -- split; [discriminate|]. intros [r' [[<-|Hin] Ht]].
           ++ apply R1 in Ht. discriminate.
           ++ discriminate (proj2 IH2 (ex_intro _ r' (conj Hin Ht))).
        -- intros out H. injection H as <-. destruct (IH3 xs eq_refl) as [L F].
           split; [simpl; rewrite L; reflexivity | constructor; [apply R3; auto | exact F]].
      * split; [exact IH1|]. split; [|intros out H; discriminate].
        split; [intros H; destruct (proj1 IH2 H) as [r' [Hin Ht]]; eauto|].
        intros _. rewrite (IH1 e eq_refl). reflexivity.
    + assert (e = ValueError) by (apply (R2 e); reflexivity). subst e.
      split; [intros e' H; injection H as <-; reflexivity|].
      split; [|intros out H; discriminate].
      split; [intros _; exists r; split; [left; reflexivity | apply R1; reflexivity] | reflexivity].
Qed.

(** C9. [load_csv] on a table of fewer than three columns raises
    [ValueError]; otherwise it raises [ValueError] exactly when a row that
    survives [dropna] has text in [rssi], [lat] or [lon] (such a row is not
    dropped silently), never another exception; on success it returns one
    sample per row whose three columns are all present, and none of the
    loaded [rssi], [lat], [lon] values is NaN. *)
Theorem load_csv_spec (df : frame) :
  frame_wf df ->
  ((ncols df < 3)%nat -> load_csv df = Raise ValueError) /\
  ((3 <= ncols df)%nat ->
   let kept := filter row_complete (map (firstn 5) (rows df)) in
   (forall e, load_csv df = Raise e -> e = ValueError) /\
   (load_csv df = Raise ValueError <-> exists r, In r kept /\ has_text r = true) /\
   (forall out, load_csv df = Ok out ->
      length out = length kept /\
      Forall (fun x => rssi x <> NaN /\ lat x <> NaN /\ lon x <> NaN) out)).
Proof.
  intros Hwf. unfold load_csv. split.
  - intros H. destruct (Nat.leb_spec 3 (ncols df)); [lia | reflexivity].
  - intros H. cbv zeta. destruct (Nat.leb_spec 3 (ncols df)); [|lia].
    apply convert_rows_spec.
    + apply Forall_forall. intros r Hr.
      apply filter_In in Hr as [Hr _]. apply in_map_iff in Hr as [r0 [<- Hr0]].
      unfold frame_wf in Hwf. rewrite Forall_forall in Hwf. rewrite length_firstn, (Hwf r0 Hr0). lia.
    + apply Forall_forall. intros r Hr. apply filter_In in Hr as [_ Hr]. exact Hr.
Qed.

(** ** Witness *)

Lemma load_csv_spec_witness :
  load_csv (mk_frame 3 [[CVal (Fin (-60)); CVal (Fin 53); CVal NaN];
                        [CVal (Fin (-70)); CVal (Fin 53); CStr "x"%string]]) = Raise ValueError.
Proof.
  destruct (load_csv_spec (mk_frame 3 [[CVal (Fin (-60)); CVal (Fin 53); CVal NaN];
                                       [CVal (Fin (-70)); CVal (Fin 53); CStr "x"%string]])
              ltac:(repeat constructor)) as [_ H].
  destruct (H ltac:(simpl; lia)) as [_ [H2 _]].
  apply H2. exists [CVal (Fin (-70)); CVal (Fin 53); CStr "x"%string].
  split; [simpl; auto | reflexivity].
Defined.
