(* ===== verification/Binning.v ===== *)
(** * Grid-cell averaging of [heatmap_generator-2.py]

    The script projects the samples to Web Mercator metres (lines 23-24),
    assigns each one to a square cell of [cell_size_m] metres counted from
    the smallest coordinate (lines 29-37), groups the samples by cell with
    [df.groupby(["gx", "gy"])] and aggregates the mean RSSI, the number of
    samples and the mean position of each cell (lines 42-47), drops the
    cells with fewer than two samples (line 50), converts the cell centres
    back to latitude and longitude (lines 55-58) and weighs each cell with
    [mean_rssi + 100] (lines 64-69).

    The projections are Section variables, as in [Pipeline].  Coordinates are
    finite (a NaN coordinate makes [astype(int)] raise, which is not
    modelled); the RSSI is a float with numpy's NaN and infinities, and
    pandas' [mean] skips its NaNs.  [groupby] is an insertion into an
    association list kept sorted by key, which is how pandas orders the
    groups ([sort=True]); its lemmas show that every group holds the
    samples of one key, in the order of the samples. *)

From Stdlib Require Import QArith Qround Qminmax Lqa ZArith List Lia Sorting.
From S2P Require Import Prelude PyFloat Grid.
Import ListNotations.

(** One projected sample: its RSSI and its Web Mercator coordinates. *)
Record brow : Type := mk_brow {
  b_rssi : pyfloat;
  b_x : Q;
  b_y : Q
}.

(** One row of [agg] after [reset_index()]. *)
Record agg_row : Type := mk_agg {
  gx : Z;
  gy : Z;
  mean_rssi : pyfloat;
  count : nat;
  x_center : Q;
  y_center : Q
}.

(** Line 29. *)
Definition cell_size_m : Q := 5.

(** [((v - mn) // c).astype(int)]: the floor division of floats; the
    quotient is a whole number already, so [astype(int)] keeps it. *)
Definition cell_index (mn c v : Q) : Z := Qfloor ((v - mn) / c).

(** [df["x"].min()] of a column that has a value; on an empty frame no row
    uses it. *)
Definition col_min (l : list Q) : Q :=
  match l with [] => 0 | a :: rest => fold_left Qmin rest a end.

(** Lines 30-37: the cell of every sample, in the order of the samples. *)
Definition assign_cells (c : Q) (rows : list brow) : list ((Z * Z) * brow) :=
  let min_x := col_min (map b_x rows) in
  let min_y := col_min (map b_y rows) in
  map (fun r => ((cell_index min_x c (b_x r), cell_index min_y c (b_y r)), r)) rows.

(** ** [groupby] on the key [(gx, gy)] *)

Definition key := (Z * Z)%type.

Definition key_eqb (a b : key) : bool := Z.eqb (fst a) (fst b) && Z.eqb (snd a) (snd b).

(** The lexicographic order pandas sorts the groups by. *)
Definition key_ltb (a b : key) : bool :=
  Z.ltb (fst a) (fst b) || (Z.eqb (fst a) (fst b) && Z.ltb (snd a) (snd b)).

Definition key_lt (a b : key) : Prop := key_ltb a b = true.

Fixpoint group_add (k : key) (r : brow) (g : list (key * list brow))
  : list (key * list brow) :=
  match g with
  | [] => [(k, [r])]
  | (k', rs) :: g' =>
      if key_eqb k k' then (k', rs ++ [r]) :: g'
      else if key_ltb k k' then (k, [r]) :: g
      else (k', rs) :: group_add k r g'
  end.

Definition groupby (kr : list (key * brow)) : list (key * list brow) :=
  fold_left (fun g '(k, r) => group_add k r g) kr [].

(** The rows of one group, none when the key has no group. *)
Fixpoint group_rows (k : key) (g : list (key * list brow)) : list brow :=
  match g with
  | [] => []
  | (k', rs) :: g' => if key_eqb k k' then rs else group_rows k g'
  end.

(** ** Aggregation, lines 42-50 and 64 *)

(** [Series.mean()]: the sum of the values that are not NaN over their
    number, NaN when there is none. *)
Definition pd_mean (l : list pyfloat) : pyfloat :=
  match not_nan l with
  | [] => NaN
  | xs => pf_div (fold_left pf_add xs (Fin 0)) (Fin (inject_Z (Z.of_nat (length xs))))
  end.

(** The mean of a non-empty column of finite coordinates. *)
Definition Qmean (l : list Q) : Q := Qsum l / inject_Z (Z.of_nat (length l)).

Definition agg_of (k : key) (rs : list brow) : agg_row :=
  mk_agg (fst k) (snd k) (pd_mean (map b_rssi rs)) (length rs)
    (Qmean (map b_x rs)) (Qmean (map b_y rs)).

Definition bin_points (c : Q) (rows : list brow) : list agg_row :=
  map (fun '(k, rs) => agg_of k rs) (groupby (assign_cells c rows)).

(** [agg[agg["count"] >= 2]] *)
Definition keep_dense (a : list agg_row) : list agg_row :=
  filter (fun r => Nat.leb 2 (count r)) a.

(** [agg["mean_rssi"] + 100] *)
Definition cell_weight (r : agg_row) : pyfloat := pf_add (mean_rssi r) (Fin 100).

Section Generator2.
(** [transformer_fwd.transform(lon, lat)] and [transformer_inv.transform(x, y)]
    on one point, in [always_xy] order. *)
Variable to_meters : Q -> Q -> Q * Q.
Variable to_lonlat : Q -> Q -> Q * Q.

(** The script from the loaded columns [(rssi, lat, lon)] to [heat_data],
    rows [[lat, lon, weight]]. *)
Definition averaged_heat_data (samples : list (pyfloat * Q * Q)) : list (Q * Q * pyfloat) :=
  let rows := map (fun '(rs, la, lo) => let '(xv, yv) := to_meters lo la in mk_brow rs xv yv)
                  samples in
  let agg := keep_dense (bin_points cell_size_m rows) in
  map (fun r => let '(lo, la) := to_lonlat (x_center r) (y_center r) in (la, lo, cell_weight r))
      agg.

End Generator2.

(** ** Keys *)

Lemma key_eqb_reflect (a b : key) : reflect (a = b) (key_eqb a b).
Proof.
  destruct a as [a1 a2], b as [b1 b2]. unfold key_eqb. simpl.
  destruct (Z.eqb_spec a1 b1), (Z.eqb_spec a2 b2); simpl; constructor; congruence.
Qed.

Lemma key_lt_irrefl (a : key) : ~ key_lt a a.
Proof. unfold key_lt, key_ltb. rewrite !Z.ltb_irrefl, Z.eqb_refl. simpl. intros H; discriminate H. Qed.

Lemma key_lt_iff (a b : key) :
  key_lt a b <-> (fst a < fst b)%Z \/ (fst a = fst b /\ (snd a < snd b)%Z).
Proof.
  unfold key_lt, key_ltb. rewrite Bool.orb_true_iff, Bool.andb_true_iff, Z.ltb_lt, Z.eqb_eq,
    Z.ltb_lt. reflexivity.
Qed.

Lemma key_lt_trans (a b c : key) : key_lt a b -> key_lt b c -> key_lt a c.
Proof. rewrite !key_lt_iff. lia. Qed.

Lemma key_lt_total (a b : key) : key_eqb a b = false -> key_ltb a b = false -> key_lt b a.
Proof.
  intros E L. destruct (key_eqb_reflect a b) as [|Hne]; [discriminate|].
  assert (~ key_lt a b) as Hn by (unfold key_lt; rewrite L; discriminate).
  rewrite key_lt_iff in Hn |- *. destruct a as [a1 a2], b as [b1 b2]; simpl in *.
  assert ((a1, a2) <> (b1, b2)) by exact Hne.
  destruct (Z.eq_dec a1 b1); [subst; assert (a2 <> b2) by congruence|]; lia.
Qed.

(** ** [group_add] keeps the groups sorted by key, and appends to the group
    of its key *)

Lemma group_rows_absent (k : key) (g : list (key * list brow)) :
  ~ In k (map fst g) -> group_rows k g = [].
Proof.
  induction g as [|[k' rs] g IH]; simpl; intros Hn; [reflexivity|].
  destruct (key_eqb_reflect k k'); [subst; tauto|]. apply IH. tauto.
Qed.

Lemma group_add_keys (k : key) (r : brow) (g : list (key * list brow)) (x : key) :
  In x (map fst (group_add k r g)) -> x = k \/ In x (map fst g).
Proof.
  induction g as [|[k' rs] g IH]; simpl; [intuition|].
  destruct (key_eqb k k'), (key_ltb k k'); simpl; intuition.
Qed.

Lemma group_add_sorted (k : key) (r : brow) (g : list (key * list brow)) :
  StronglySorted key_lt (map fst g) -> StronglySorted key_lt (map fst (group_add k r g)).
Proof.
  induction g as [|[k' rs] g IH]; simpl; intros Hs.
  - repeat constructor.
  - inversion Hs as [|? ? Hs' Hf]; subst.
    destruct (key_eqb_reflect k k') as [<-|Hne]; simpl; [constructor; assumption|].
    destruct (key_ltb k k') eqn:L; simpl.
    + constructor; [exact Hs|]. constructor; [exact L|].
      eapply Forall_impl; [|exact Hf]. intros x Hx. eapply key_lt_trans; [exact L | exact Hx].
    + constructor; [apply IH, Hs'|]. apply Forall_forall. intros x Hx.
      destruct (group_add_keys k r g x Hx) as [->|Hin].
      * apply key_lt_total; [destruct (key_eqb_reflect k k'); congruence | exact L].
      * rewrite Forall_forall in Hf. apply Hf, Hin.
Qed.

Lemma group_add_rows (k k0 : key) (r : brow) (g : list (key * list brow)) :
  StronglySorted key_lt (map fst g) ->
  group_rows k0 (group_add k r g) =
  if key_eqb k0 k then group_rows k0 g ++ [r] else group_rows k0 g.
Proof.
  induction g as [|[k' rs] g IH]; simpl; intros Hs.
  - destruct (key_eqb k0 k); reflexivity.
  - inversion Hs as [|? ? Hs' Hf]; subst.
    destruct (key_eqb_reflect k k') as [<-|Hne]; simpl;
      [destruct (key_eqb k0 k); reflexivity|].
    destruct (key_ltb k k') eqn:L; simpl.
    + destruct (key_eqb_reflect k0 k) as [->|Hne0]; [|reflexivity].
      destruct (key_eqb_reflect k k'); [congruence|].
      rewrite group_rows_absent; [reflexivity|]. intros Hin.
      rewrite Forall_forall in Hf. apply (key_lt_irrefl k).
      eapply key_lt_trans; [exact L | apply Hf, Hin].
    + rewrite (IH Hs'). destruct (key_eqb_reflect k0 k') as [->|]; [|reflexivity].
      destruct (key_eqb_reflect k' k); [congruence | reflexivity].
Qed.

Lemma group_add_nonempty (k : key) (r : brow) (g : list (key * list brow)) :
  Forall (fun p => snd p <> []) g -> Forall (fun p => snd p <> []) (group_add k r g).
Proof.
  induction g as [|[k' rs] g IH]; simpl; intros Hn.
  - repeat constructor. discriminate.
  - inversion Hn; subst. destruct (key_eqb k k'), (key_ltb k k');
      repeat constructor; simpl; auto; try discriminate.
    all: destruct rs; simpl; discriminate.
Qed.

Lemma groupby_fold (kr : list (key * brow)) (g : list (key * list brow)) :
  StronglySorted key_lt (map fst g) -> Forall (fun p => snd p <> []) g ->
  let g' := fold_left (fun g '(k, r) => group_add k r g) kr g in
  StronglySorted key_lt (map fst g') /\ Forall (fun p => snd p <> []) g' /\
  forall k, group_rows k g' = group_rows k g ++ map snd (filter (fun p => key_eqb k (fst p)) kr).
Proof.
  revert g; induction kr as [|[k r] kr IH]; intros g Hs Hn; simpl.
  - split; [exact Hs|]. split; [exact Hn|]. intros k. rewrite app_nil_r. reflexivity.
  - destruct (IH (group_add k r g) (group_add_sorted k r g Hs) (group_add_nonempty k r g Hn))
      as [S1 [S2 S3]].
    split; [exact S1|]. split; [exact S2|]. intros k0. rewrite S3, (group_add_rows k k0 r g Hs).
    destruct (key_eqb k0 k); simpl; [rewrite <- app_assoc|]; reflexivity.
Qed.

(** ** Cells *)

(** A coordinate at or above the minimum lies in the cell its index names,
    a half-open interval of width [c]. *)
Lemma cell_index_spec (mn c v : Q) :
  0 < c -> mn <= v ->
  (0 <= cell_index mn c v)%Z /\
  mn + inject_Z (cell_index mn c v) * c <= v < mn + (inject_Z (cell_index mn c v) + 1) * c.
Proof.
  intros Hc Hv. unfold cell_index.
  set (q := (v - mn) / c). set (f := Qfloor q).
  assert (Hq : q * c == v - mn) by (unfold q; field; lra).
  pose proof (Qfloor_le q) as Hlo. pose proof (Qlt_floor q) as Hhi. fold f in Hlo, Hhi.
  rewrite inject_Z_plus in Hhi.
  assert (H0 : 0 <= q) by (unfold q; apply Qle_shift_div_l; lra).
  split; [|split].
  - destruct (Z_lt_le_dec f 0) as [Hf|Hf]; [|exact Hf].
    exfalso. assert (inject_Z f + inject_Z 1 <= 0); [|lra].
    rewrite <- inject_Z_plus. change 0 with (inject_Z 0). rewrite <- Zle_Qle. lia.
  - assert (inject_Z f * c <= q * c) by (apply Qmult_le_compat_r; lra). lra.
  - assert (q * c < (inject_Z f + 1) * c) by (apply Qmult_lt_compat_r; [exact Hc | exact Hhi]).
    lra.
Qed.

Lemma col_min_le (l : list Q) (v : Q) : In v l -> col_min l <= v.
Proof.
  destruct l as [|a rest]; simpl; [tauto|]. pose proof (fold_left_Qmin_le rest a) as [H1 H2].
  intros [<-|Hin]; [exact H1 | apply H2, Hin].
Qed.

Lemma assign_cells_in (c : Q) (rows : list brow) (k : key) (r : brow) :
  In (k, r) (assign_cells c rows) ->
  In r rows /\
  k = (cell_index (col_min (map b_x rows)) c (b_x r),
       cell_index (col_min (map b_y rows)) c (b_y r)).
Proof.
  unfold assign_cells. intros Hin. apply in_map_iff in Hin as [r' [E Hr']].
  injection E as <- <-. split; [exact Hr' | reflexivity].
Qed.

(** A group of [groupby] is the group of its key, and holds samples of that
    key only. *)
Lemma groupby_member (kr : list (key * brow)) (k : key) (rs : list brow) :
  In (k, rs) (groupby kr) -> rs <> [] /\ forall r, In r rs -> In (k, r) kr.
Proof.
  intros Hin. destruct (groupby_fold kr [] ltac:(constructor) ltac:(constructor)) as [S1 [S2 S3]].
  fold (groupby kr) in S1, S2, S3.
  rewrite Forall_forall in S2. split; [exact (S2 _ Hin)|].
  assert (E : group_rows k (groupby kr) = rs).
  { revert S1 Hin. generalize (groupby kr) as g.
    induction g as [|[k' rs'] g IH]; simpl; intros Hs Hg; [destruct Hg|].
    inversion Hs as [|? ? Hs' Hf]; subst. rewrite Forall_forall in Hf.
    destruct Hg as [E|Hg].
    - injection E as -> ->. destruct (key_eqb_reflect k k); [reflexivity | congruence].
    - destruct (key_eqb_reflect k k') as [->|]; [|apply IH; assumption].
      exfalso. apply (key_lt_irrefl k'), Hf, in_map_iff. exists (k', rs). auto. }
  intros r Hr. rewrite <- E, S3 in Hr. simpl in Hr.
  apply in_map_iff in Hr as [[k' r'] [<- Hp]]. apply filter_In in Hp as [Hp Hk]. simpl in *.
  destruct (key_eqb_reflect k k') as [<-|]; [exact Hp | discriminate].
Qed.

(** ** Means *)

Lemma inject_Z_of_nat_S (n : nat) : inject_Z (Z.of_nat (S n)) == inject_Z (Z.of_nat n) + 1.
Proof. rewrite Nat2Z.inj_succ, <- Z.add_1_r, inject_Z_plus. reflexivity. Qed.

Lemma inject_Z_of_nat_pos (n : nat) : (0 < n)%nat -> 0 < inject_Z (Z.of_nat n).
Proof. intros H. change 0 with (inject_Z 0). rewrite <- Zlt_Qlt. lia. Qed.

Lemma Qsum_lower (l : list Q) (lo : Q) :
  (forall x, In x l -> lo <= x) -> inject_Z (Z.of_nat (length l)) * lo <= Qsum l.
Proof.
  induction l as [|a l IH]; intros H; unfold Qsum in *; cbn [length fold_right] in *;
    [unfold Qle; simpl; lia|].
  rewrite inject_Z_of_nat_S.
  assert (lo <= a) by (apply H; simpl; auto). assert (inject_Z (Z.of_nat (length l)) * lo <= fold_right Qplus 0 l)
    by (apply IH; intros x Hx; apply H; simpl; auto).
  setoid_replace ((inject_Z (Z.of_nat (length l)) + 1) * lo)
    with (inject_Z (Z.of_nat (length l)) * lo + lo) by ring. lra.
Qed.

Lemma Qsum_upper (l : list Q) (hi : Q) :
  l <> [] -> (forall x, In x l -> x < hi) -> Qsum l < inject_Z (Z.of_nat (length l)) * hi.
Proof.
  induction l as [|a l IH]; intros Hne H; [congruence|]. unfold Qsum in *; cbn [length fold_right] in *.
  rewrite inject_Z_of_nat_S. assert (a < hi) by (apply H; simpl; auto).
  destruct l as [|b l']; [cbn [length fold_right]; change (inject_Z (Z.of_nat 0)) with 0; lra|].
  assert (fold_right Qplus 0 (b :: l') < inject_Z (Z.of_nat (length (b :: l'))) * hi)
    by (apply IH; [discriminate | intros x Hx; apply H; simpl; auto]).
  setoid_replace ((inject_Z (Z.of_nat (length (b :: l'))) + 1) * hi)
    with (inject_Z (Z.of_nat (length (b :: l'))) * hi + hi) by ring. lra.
Qed.

(** The mean of a non-empty list of values in [[lo, hi)] lies in
    [[lo, hi)]. *)
Lemma Qmean_in (l : list Q) (lo hi : Q) :
  l <> [] -> (forall x, In x l -> lo <= x < hi) -> lo <= Qmean l < hi.
Proof.
  intros Hne H. unfold Qmean.
  assert (Hn : 0 < inject_Z (Z.of_nat (length l)))
    by (apply inject_Z_of_nat_pos; destruct l; [congruence | simpl; lia]).
  pose proof (Qsum_lower l lo (fun x Hx => proj1 (H x Hx))).
  pose proof (Qsum_upper l hi Hne (fun x Hx => proj2 (H x Hx))).
  split; [apply Qle_shift_div_l | apply Qlt_shift_div_r]; auto; lra.
Qed.

Lemma map_nonempty {A B} (f : A -> B) (l : list A) : l <> [] -> map f l <> [].
Proof. destruct l; simpl; congruence. Qed.

(** The mean position of samples that share a cell lies in that cell. *)
Lemma group_in_cell (f : brow -> Q) (mn c : Q) (i : Z) (rs : list brow) :
  0 < c -> rs <> [] -> (forall r, In r rs -> mn <= f r /\ cell_index mn c (f r) = i) ->
  (0 <= i)%Z /\ mn + inject_Z i * c <= Qmean (map f rs) < mn + (inject_Z i + 1) * c.
Proof.
  intros Hc Hne H. split.
  - destruct rs as [|r0 rs]; [congruence|]. destruct (H r0 (or_introl eq_refl)) as [Hle <-].
    apply (cell_index_spec mn c (f r0) Hc Hle).
  - apply Qmean_in; [apply map_nonempty, Hne|]. intros x Hx.
    apply in_map_iff in Hx as [r [<- Hr]]. destruct (H r Hr) as [Hle <-].
    apply (cell_index_spec mn c (f r) Hc Hle).
Qed.

(** [group_add] adds one sample to one group. *)
Lemma group_add_sizes (k : key) (r : brow) (g : list (key * list brow)) :
  list_sum (map (fun p => length (snd p)) (group_add k r g)) =
  S (list_sum (map (fun p => length (snd p)) g)).
Proof.
  induction g as [|[k' rs] g IH]; simpl; [reflexivity|].
  destruct (key_eqb k k'), (key_ltb k k'); simpl;
    rewrite ?length_app, ?IH; simpl; lia.
Qed.

Lemma groupby_sizes (kr : list (key * brow)) (g : list (key * list brow)) :
  list_sum (map (fun p => length (snd p)) (fold_left (fun g '(k, r) => group_add k r g) kr g))
  = (list_sum (map (fun p => length (snd p)) g) + length kr)%nat.
Proof.
  revert g; induction kr as [|[k r] kr IH]; intros g; simpl; [lia|].
  rewrite IH, group_add_sizes. lia.
Qed.

(** C20. Every cell [agg] reports holds at least one sample, has
    non-negative indices, and its centre (the mean position of its samples)
    lies inside the cell: [min_x + gx * c <= x_center < min_x + (gx + 1) * c],
    and the same for [y]; so [gx] and [gy] are the cell of the centre the
    map draws. *)
Theorem bin_points_center_in_cell (c : Q) (rows : list brow) (a : agg_row) :
  0 < c -> In a (bin_points c rows) ->
  let min_x := col_min (map b_x rows) in
  let min_y := col_min (map b_y rows) in
  (1 <= count a)%nat /\ (0 <= gx a)%Z /\ (0 <= gy a)%Z /\
  min_x + inject_Z (gx a) * c <= x_center a < min_x + (inject_Z (gx a) + 1) * c /\
  min_y + inject_Z (gy a) * c <= y_center a < min_y + (inject_Z (gy a) + 1) * c.
Proof.
  intros Hc Hin mx my. unfold bin_points in Hin. apply in_map_iff in Hin as [[k rs] [<- Hk]].
  destruct (groupby_member _ _ _ Hk) as [Hne Hmem].
  assert (Hcell : forall r, In r rs ->
            (mx <= b_x r /\ cell_index mx c (b_x r) = fst k) /\
            (my <= b_y r /\ cell_index my c (b_y r) = snd k)).
  { intros r Hr. destruct (assign_cells_in c rows k r (Hmem r Hr)) as [Hrow ->]. simpl.
    split; (split; [apply col_min_le, in_map, Hrow | reflexivity]). }
  destruct (group_in_cell b_x mx c (fst k) rs Hc Hne (fun r Hr => proj1 (Hcell r Hr)))
    as [Gx Cx].
  destruct (group_in_cell b_y my c (snd k) rs Hc Hne (fun r Hr => proj2 (Hcell r Hr)))
    as [Gy Cy].
  unfold agg_of; cbn [gx gy count x_center y_center].
  split; [destruct rs; [congruence | simpl; lia]|]. auto.
Qed.

Lemma bin_points_counts (c : Q) (rows : list brow) :
  list_sum (map count (bin_points c rows)) = length rows.
Proof.
  unfold bin_points, groupby. rewrite map_map.
  replace (map (fun x => count (let '(k, rs) := x in agg_of k rs)) _)
    with (map (fun p : key * list brow => length (snd p))
            (fold_left (fun g '(k, r) => group_add k r g) (assign_cells c rows) []))
    by (apply map_ext; intros [k rs]; reflexivity).
  rewrite groupby_sizes. unfold assign_cells. rewrite length_map. reflexivity.
Qed.

(** ** The mean RSSI of a cell *)

Lemma fold_pf_add_fin (qs : list Q) (s : Q) :
  fold_left pf_add (map Fin qs) (Fin s) = Fin (fold_left Qplus qs s).
Proof. revert s; induction qs as [|q qs IH]; intros s; simpl; [reflexivity | apply IH]. Qed.

Lemma fold_Qplus_Qsum (qs : list Q) (s : Q) : fold_left Qplus qs s == s + Qsum qs.
Proof.
  revert s; induction qs as [|q qs IH]; intros s; unfold Qsum in *; simpl; [ring|].
  rewrite IH. ring.
Qed.

Lemma not_nan_fin (qs : list Q) : not_nan (map Fin qs) = map Fin qs.
Proof. induction qs as [|q qs IH]; simpl; [reflexivity | rewrite IH; reflexivity]. Qed.

Lemma Qsum_upper_le (l : list Q) (hi : Q) :
  (forall x, In x l -> x <= hi) -> Qsum l <= inject_Z (Z.of_nat (length l)) * hi.
Proof.
  induction l as [|a l IH]; intros H; unfold Qsum in *; cbn [length fold_right] in *;
    [unfold Qle; simpl; lia|].
  rewrite inject_Z_of_nat_S.
  assert (a <= hi) by (apply H; simpl; auto).
  assert (fold_right Qplus 0 l <= inject_Z (Z.of_nat (length l)) * hi)
    by (apply IH; intros x Hx; apply H; simpl; auto).
  setoid_replace ((inject_Z (Z.of_nat (length l)) + 1) * hi)
    with (inject_Z (Z.of_nat (length l)) * hi + hi) by ring. lra.
Qed.

Lemma fin_list (l : list pyfloat) (P : Q -> Prop) :
  (forall v, In v l -> exists q, v = Fin q /\ P q) -> exists qs, l = map Fin qs /\ Forall P qs.
Proof.
  induction l as [|v l IH]; intros H; [exists []; split; [reflexivity | constructor]|].
  destruct (H v (or_introl eq_refl)) as [q [-> Hq]].
  destruct IH as [qs [-> Hqs]]; [intros w Hw; apply H; right; exact Hw|].
  exists (q :: qs). split; [reflexivity | constructor; assumption].
Qed.

Lemma pd_mean_nonempty (l : list pyfloat) :
  not_nan l <> [] ->
  pd_mean l = pf_div (fold_left pf_add (not_nan l) (Fin 0))
                     (Fin (inject_Z (Z.of_nat (length (not_nan l))))).
Proof. unfold pd_mean. destruct (not_nan l); [congruence | reflexivity]. Qed.

(** pandas' mean of non-empty finite values in [[lo, hi]] is a finite
    value in [[lo, hi]]. *)
Lemma pd_mean_bounds (l : list pyfloat) (lo hi : Q) :
  l <> [] -> (forall v, In v l -> exists q, v = Fin q /\ lo <= q <= hi) ->
  exists m, pd_mean l = Fin m /\ lo <= m <= hi.
Proof.
  intros Hne H. destruct (fin_list l _ H) as [qs [-> Hqs]].
  assert (Hq : qs <> []) by (destruct qs; simpl in *; congruence).
  rewrite Forall_forall in Hqs.
  assert (Hn : 0 < inject_Z (Z.of_nat (length qs)))
    by (apply inject_Z_of_nat_pos; destruct qs; [congruence | simpl; lia]).
  rewrite pd_mean_nonempty by (rewrite not_nan_fin; apply map_nonempty, Hq).
  rewrite not_nan_fin, fold_pf_add_fin. cbn [pf_div].
  assert (Qeq_bool (inject_Z (Z.of_nat (length (map Fin qs)))) 0 = false) as ->.
  { rewrite length_map. apply Bool.not_true_iff_false. rewrite Qeq_bool_iff. lra. }
  rewrite length_map. eexists. split; [reflexivity|].
  pose proof (Qsum_lower qs lo (fun x Hx => proj1 (Hqs x Hx))).
  pose proof (Qsum_upper_le qs hi (fun x Hx => proj2 (Hqs x Hx))).
  rewrite fold_Qplus_Qsum.
  split; [apply Qle_shift_div_l | apply Qle_shift_div_r]; auto; lra.
Qed.

(** A cell of [bin_points] is the aggregate of a non-empty group of the
    samples. *)
Lemma bin_points_member (c : Q) (rows : list brow) (a : agg_row) :
  In a (bin_points c rows) ->
  exists k rs, a = agg_of k rs /\ rs <> [] /\ forall r, In r rs -> In r rows.
Proof.
  unfold bin_points. intros Hin. apply in_map_iff in Hin as [[k rs] [<- Hk]].
  destruct (groupby_member _ _ _ Hk) as [Hne Hmem].
  exists k, rs. split; [reflexivity|]. split; [exact Hne|].
  intros r Hr. exact (proj1 (assign_cells_in c rows k r (Hmem r Hr))).
Qed.

Lemma keep_dense_length (a : list agg_row) :
  (2 * length (keep_dense a) <= list_sum (map count a))%nat.
Proof.
  unfold keep_dense; induction a as [|r a IH]; [simpl; lia|]. cbn [filter].
  destruct (Nat.leb_spec 2 (count r)); unfold list_sum in *; cbn [length map fold_right] in *; lia.
Qed.

(** C21. Binning loses no sample: the counts of the cells add up to the
    number of samples; so at most half as many cells as samples survive the
    [count >= 2] filter. *)
Theorem bin_points_count_total (c : Q) (rows : list brow) :
  (list_sum (map count (bin_points c rows)) = length rows)%nat /\
  (2 * length (keep_dense (bin_points c rows)) <= length rows)%nat.
Proof.
  rewrite <- (bin_points_counts c rows) at 2. split; [apply bin_points_counts|].
  apply keep_dense_length.
Qed.

Section Generator2Theorems.
Variable to_meters : Q -> Q -> Q * Q.
Variable to_lonlat : Q -> Q -> Q * Q.

(** C22. The averaged heatmap weighs each cell that holds at least two
    samples with its mean RSSI plus 100: when every RSSI lies in
    [[lo, hi]], every weight is a finite number in [[lo + 100, hi + 100]]
    (so a cell averaging below -100 dBm gets a negative weight, which the
    script keeps), and there are at most half as many points as samples. *)
Theorem averaged_heat_data_weights (samples : list (pyfloat * Q * Q)) (lo hi : Q) :
  (forall rs la lon, In (rs, la, lon) samples -> exists q, rs = Fin q /\ lo <= q <= hi) ->
  (2 * length (averaged_heat_data to_meters to_lonlat samples) <= length samples)%nat /\
  forall la lon w, In (la, lon, w) (averaged_heat_data to_meters to_lonlat samples) ->
    exists q, w = Fin q /\ lo + 100 <= q <= hi + 100.
Proof.
  intros Hs. unfold averaged_heat_data. cbv zeta.
  set (rows := map _ samples). split.
  - rewrite length_map. pose proof (keep_dense_length (bin_points cell_size_m rows)).
    rewrite bin_points_counts in H. unfold rows in H. rewrite length_map in H. exact H.
  - intros la lon w Hin. apply in_map_iff in Hin as [a [Ea Ha]].
    destruct (to_lonlat (x_center a) (y_center a)) as [lo' la']. injection Ea as _ _ <-.
    apply filter_In in Ha as [Ha _].
    destruct (bin_points_member _ _ _ Ha) as [k [rs [-> [Hne Hmem]]]].
    destruct (pd_mean_bounds (map b_rssi rs) lo hi) as [m [Em Hm]].
    + apply map_nonempty, Hne.
    + intros v Hv. apply in_map_iff in Hv as [r [<- Hr]].
      apply Hmem in Hr. unfold rows in Hr. apply in_map_iff in Hr as [[[rs0 la0] lo0] [Er Hin]].
      destruct (to_meters lo0 la0) as [xv yv]. rewrite <- Er. exact (Hs _ _ _ Hin).
    + unfold cell_weight, agg_of. cbn [mean_rssi]. rewrite Em. simpl.
      eexists. split; [reflexivity | lra].
Qed.

End Generator2Theorems.

(** ** Witnesses *)

Lemma bin_points_center_in_cell_witness :
  let rows := [mk_brow (Fin (-60)) 0 0; mk_brow (Fin (-70)) 3 1; mk_brow (Fin (-80)) 12 2] in
  let a := hd (mk_agg 0 0 NaN 0 0 0) (bin_points 5 rows) in
  In a (bin_points 5 rows) /\ count a = 2%nat /\
  col_min (map b_x rows) + inject_Z (gx a) * 5 <= x_center a
    < col_min (map b_x rows) + (inject_Z (gx a) + 1) * 5.
Proof.
  intros rows a. assert (Hin : In a (bin_points 5 rows)) by (unfold a, rows; vm_compute; left; reflexivity).
  split; [exact Hin|]. split; [unfold a, rows; vm_compute; reflexivity|].
  exact (proj1 (proj2 (proj2 (proj2 (bin_points_center_in_cell 5 rows a ltac:(reflexivity) Hin))))).
Defined.

Lemma averaged_heat_data_weights_witness :
  let out := averaged_heat_data (fun lo la => (lo, la)) (fun xv yv => (xv, yv))
               [(Fin (-60), 53, 0); (Fin (-70), 53, 0); (Fin (-110), 53, 1)] in
  length out = 1%nat /\
  forall la lon w, In (la, lon, w) out -> exists q, w = Fin q /\ -120 + 100 <= q <= -20 + 100.
Proof.
  intros out. split; [unfold out; vm_compute; reflexivity|].
  apply (proj2 (averaged_heat_data_weights (fun lo la => (lo, la)) (fun xv yv => (xv, yv))
    [(Fin (-60), 53, 0); (Fin (-70), 53, 0); (Fin (-110), 53, 1)] (-120) (-20)
    ltac:(intros rs la lon [E|[E|[E|[]]]]; injection E as <- _ _; eexists;
          (split; [reflexivity | split; apply Qle_bool_iff; reflexivity])))).
Defined.
