(* ===== verification/Digits.v ===== *)
(** * Positional digits in base [b]

    Python prints integers digit by digit: [f"{x:.7f}"] in [fix-csv.py]
    prints decimal digits, [f"{r:02x}"] in the [map_generator] scripts
    hexadecimal ones.  This file holds the digit lists both printers are
    built on, for any base [b >= 2]: the digits of an integer without
    leading zeros ([int_digit_list], with a fuel that [int_fuel_enough]
    shows sufficient), the last [d] digits zero-padded ([frac_digit_list]),
    and their value read back ([digits_val]); the lemmas are the
    encode/decode round trips. *)

From Stdlib Require Import ZArith List Lia.
Import ListNotations.

Local Open Scope Z_scope.

(** The value of the digits [l] read after [acc]. *)
Definition digits_val (b : Z) (l : list Z) (acc : Z) : Z := fold_left (fun a k => a * b + k) l acc.

(** The digits of [n >= 0] without leading zeros, most significant first;
    [fuel] bounds their number. *)
Fixpoint int_digit_list (b : Z) (fuel : nat) (n : Z) : list Z :=
  match fuel with
  | O => []
  | S f => if n <? b then [n] else int_digit_list b f (n / b) ++ [n mod b]
  end.

(** As many digits as bits: enough in every base [b >= 2], since
    [n < 2 ^ (log2 n + 1) <= b ^ (log2 n + 1)]. *)
Definition int_fuel (n : Z) : nat := S (Z.to_nat (Z.log2 n)).

(** The last [d] digits of [n], zero-padded. *)
Fixpoint frac_digit_list (b : Z) (d : nat) (n : Z) : list Z :=
  match d with
  | O => []
  | S d' => ((n / b ^ Z.of_nat d') mod b) :: frac_digit_list b d' n
  end.

Definition is_digit (b k : Z) : Prop := 0 <= k < b.

Section Base.
Context (b : Z) (Hb : 2 <= b).

Lemma digits_val_app (l l' : list Z) (acc : Z) :
  digits_val b (l ++ l') acc = digits_val b l' (digits_val b l acc).
Proof. unfold digits_val. apply fold_left_app. Qed.

Lemma int_digit_list_spec (fuel : nat) (n : Z) :
  (1 <= fuel)%nat -> 0 <= n < b ^ Z.of_nat fuel ->
  int_digit_list b fuel n <> [] /\ Forall (is_digit b) (int_digit_list b fuel n) /\
  forall acc, digits_val b (int_digit_list b fuel n) acc
              = acc * b ^ Z.of_nat (length (int_digit_list b fuel n)) + n.
Proof.
  revert n; induction fuel as [|f IH]; intros n Hf Hn; [lia|].
  cbn [int_digit_list]. destruct (Z.ltb_spec n b).
  - split; [discriminate|]. split; [repeat constructor; unfold is_digit; lia|].
    intros acc. simpl. lia.
  - rewrite Nat2Z.inj_succ, Z.pow_succ_r in Hn by lia.
    assert (Hf' : (1 <= f)%nat) by (destruct f; [simpl in Hn; lia | lia]).
    destruct (IH (n / b) Hf') as [_ [F V]];
      [split; [apply Z.div_pos | apply Z.div_lt_upper_bound]; lia|].
    split; [destruct (int_digit_list b f (n / b)); discriminate|].
    split; [apply Forall_app; split; [exact F | repeat constructor; unfold is_digit;
      pose proof (Z.mod_pos_bound n b); lia]|].
    intros acc. rewrite digits_val_app, V. simpl.
    rewrite length_app, Nat.add_1_r, Nat2Z.inj_succ, Z.pow_succ_r by lia.
    pose proof (Z.div_mod n b). lia.
Qed.

Lemma int_fuel_enough (n : Z) : 0 <= n -> n < b ^ Z.of_nat (int_fuel n).
Proof.
  intros Hn. unfold int_fuel. rewrite Nat2Z.inj_succ, Z2Nat.id by apply Z.log2_nonneg.
  destruct (Z.eq_dec n 0) as [->|Hn0]; [apply Z.pow_pos_nonneg; [lia | pose proof (Z.log2_nonneg 0); lia]|].
  destruct (Z.log2_spec n) as [_ H2]; [lia|].
  eapply Z.lt_le_trans; [exact H2|]. rewrite <- Z.add_1_r.
  apply Z.pow_le_mono_l. split; [lia | lia].
Qed.

Lemma frac_digit_list_spec (d : nat) (n : Z) :
  0 <= n ->
  Forall (is_digit b) (frac_digit_list b d n) /\ length (frac_digit_list b d n) = d /\
  forall acc, digits_val b (frac_digit_list b d n) acc = acc * b ^ Z.of_nat d + n mod b ^ Z.of_nat d.
Proof.
  intros Hn. induction d as [|d IH];
    [split; [constructor | split; [reflexivity | intros; simpl; rewrite Z.mod_1_r; lia]]|].
  destruct IH as [F [L V]]. cbn [frac_digit_list]. split; [|split].
  - constructor; [unfold is_digit; apply Z.mod_pos_bound; lia | exact F].
  - simpl. rewrite L. reflexivity.
  - intros acc. unfold digits_val in *. cbn [fold_left]. rewrite V.
    rewrite Nat2Z.inj_succ, Z.pow_succ_r by lia.
    rewrite (Z.mul_comm b (b ^ Z.of_nat d)), Z.rem_mul_r; [ring | |];
      [apply Z.pow_nonzero; lia | lia].
Qed.

(** The integer part printed in full: the digits of [n] read back give [n]. *)
Lemma int_digits_roundtrip (n : Z) :
  0 <= n ->
  int_digit_list b (int_fuel n) n <> [] /\ Forall (is_digit b) (int_digit_list b (int_fuel n) n) /\
  digits_val b (int_digit_list b (int_fuel n) n) 0 = n.
Proof.
  intros Hn. destruct (int_digit_list_spec (int_fuel n) n ltac:(unfold int_fuel; lia)
                        (conj Hn (int_fuel_enough n Hn))) as [N [F V]].
  split; [exact N|]. split; [exact F|]. rewrite V. lia.
Qed.

(** One digit below the base, two below its square. *)
Lemma int_digit_list_one (fuel : nat) (n : Z) :
  (1 <= fuel)%nat -> 0 <= n < b -> int_digit_list b fuel n = [n].
Proof.
  intros Hf Hn. destruct fuel as [|f]; [lia|]. cbn [int_digit_list].
  destruct (Z.ltb_spec n b); [reflexivity | lia].
Qed.

Lemma int_digit_list_two (fuel : nat) (n : Z) :
  (2 <= fuel)%nat -> b <= n < b * b -> int_digit_list b fuel n = [n / b; n mod b].
Proof.
  intros Hf Hn. destruct fuel as [|f]; [lia|]. cbn [int_digit_list].
  destruct (Z.ltb_spec n b); [lia|]. rewrite int_digit_list_one; [reflexivity | lia|].
  split; [apply Z.div_pos; lia | apply Z.div_lt_upper_bound; lia].
Qed.

(** Any two fuels that bound the number of digits give the same digits. *)
Lemma int_digit_list_fuel_indep (f g : nat) (n : Z) :
  (1 <= f)%nat -> (1 <= g)%nat -> 0 <= n < b ^ Z.of_nat f -> n < b ^ Z.of_nat g ->
  int_digit_list b f n = int_digit_list b g n.
Proof.
  revert g n; induction f as [|f IH]; intros g n Hf Hg Hn Hn'; [lia|].
  destruct g as [|g]; [lia|]. cbn [int_digit_list].
  destruct (Z.ltb_spec n b); [reflexivity|].
  rewrite Nat2Z.inj_succ, Z.pow_succ_r in Hn, Hn' by lia.
  assert (Hf' : (1 <= f)%nat) by (destruct f; [simpl in Hn; lia | lia]).
  assert (Hg' : (1 <= g)%nat) by (destruct g; [simpl in Hn'; lia | lia]).
  f_equal. apply IH; try assumption;
    [split; [apply Z.div_pos | apply Z.div_lt_upper_bound] | apply Z.div_lt_upper_bound]; lia.
Qed.

Lemma pow_fuel_mono (f g : nat) : (f <= g)%nat -> b ^ Z.of_nat f <= b ^ Z.of_nat g.
Proof. intros H. apply Z.pow_le_mono_r; lia. Qed.

End Base.

(** The digit loop of the integer printer terminates within the
    fuel [int_fuel n]: every fuel at least [int_fuel n] gives the same
    digits, which are digits of base [b] and read back as [n]; the fuel
    only bounds a loop that always stops. *)
Lemma int_digit_list_terminates (b n : Z) (fuel : nat) :
  2 <= b -> 0 <= n -> (int_fuel n <= fuel)%nat ->
  int_digit_list b fuel n = int_digit_list b (int_fuel n) n /\
  Forall (is_digit b) (int_digit_list b fuel n) /\
  digits_val b (int_digit_list b fuel n) 0 = n.
Proof.
  intros Hb Hn Hf. pose proof (int_fuel_enough b Hb n Hn) as He.
  assert (E : int_digit_list b fuel n = int_digit_list b (int_fuel n) n).
  { apply int_digit_list_fuel_indep; [exact Hb | unfold int_fuel in *; lia | unfold int_fuel; lia | | exact He].
    split; [exact Hn|]. eapply Z.lt_le_trans; [exact He | apply pow_fuel_mono; assumption]. }
  destruct (int_digits_roundtrip b Hb n Hn) as [_ [F V]].
  rewrite E. split; [reflexivity|]. split; assumption.
Qed.

Lemma int_digit_list_terminates_witness :
  int_digit_list 10 40 2026 = int_digit_list 10 (int_fuel 2026) 2026 /\
  Forall (is_digit 10) (int_digit_list 10 40 2026) /\
  digits_val 10 (int_digit_list 10 40 2026) 0 = 2026.
Proof. apply int_digit_list_terminates; [lia | lia | vm_compute; lia]. Defined.
