(* ===== verification/FixCsv.v ===== *)
(** * Unit correction of [fix-csv.py]

    The script reads the raw capture row by row with [csv.reader], skips the
    empty rows, parses the five fields with [float] (lines 18-22), divides
    latitude and longitude by [10_000_000] and altitude by [1000] (lines
    26-28) and writes [rssi], the two coordinates with seven decimals, the
    altitude with three and the heading with two (lines 32-38).

    [format_fixed d q] is Python's [f"{q:.{d}f}"] on an exact value: the
    value times [10^d] rounded half to even, the sign of [q] kept (Python
    prints [-0.0000000] for a small negative value), the integer part
    without leading zeros, then [d] digits.  [parse_decimal] reads such a
    decimal string back; [py_float] is Python's [float] on plain decimal
    strings (an optional sign, digits, an optional point): the other forms
    [float] accepts (exponents, surrounding blanks, [inf], [nan],
    underscores) are outside the model and are read as [ValueError].
    [str(rssi)] is kept as the value it prints ([OFloat]).  The digit
    lists are those of [Digits] in base 10. *)

From Stdlib Require Import QArith Qround Qabs Lqa ZArith String Ascii List Lia.
From S2P Require Import Prelude Digits.
Import ListNotations.

Local Open Scope py_scope.

(** ** Decimal digits *)

Definition digit_char (k : Z) : ascii := ascii_of_nat (48 + Z.to_nat k)%nat.

Definition char_digit (c : ascii) : option Z :=
  let n := nat_of_ascii c in
  if Nat.leb 48 n && Nat.leb n 57 then Some (Z.of_nat (n - 48)%nat) else None.

Definition digits_str (l : list Z) : string :=
  fold_right (fun k s => String (digit_char k) s) EmptyString l.

(** ** [f"{q:.{d}f}"] *)

(** Round half to even, as Python's formatting rounds an exact tie. *)
Definition round_half_even (x : Q) : Z :=
  let f := Qfloor x in
  let r := x - inject_Z f in
  if Qltb r (1 # 2) then f
  else if Qltb (1 # 2) r then (f + 1)%Z
  else if Z.even f then f else (f + 1)%Z.

Definition pow10 (d : nat) : Z := (10 ^ Z.of_nat d)%Z.

Definition format_fixed (d : nat) (q : Q) : string :=
  let m := round_half_even (q * inject_Z (pow10 d)) in
  let a := Z.abs m in
  let ip := (a / pow10 d)%Z in
  (if Qltb q 0 then "-" else "") ++
  digits_str (int_digit_list 10 (int_fuel ip) ip) ++
  (match d with O => "" | _ => String "." (digits_str (frac_digit_list 10 d a)) end).

(** ** Reading a decimal string *)

Fixpoint parse_frac (s : string) (acc : Z) (k : nat) : option (Z * nat) :=
  match s with
  | EmptyString => Some (acc, k)
  | String c s' =>
      match char_digit c with
      | Some v => parse_frac s' (acc * 10 + v)%Z (S k)
      | None => None
      end
  end.

Fixpoint parse_int (s : string) (acc : Z) : option (Z * nat) :=
  match s with
  | EmptyString => Some (acc, O)
  | String c s' =>
      if ascii_dec c "." then parse_frac s' acc O
      else match char_digit c with
           | Some v => parse_int s' (acc * 10 + v)%Z
           | None => None
           end
  end.

(** An optional sign, digits, an optional point and digits; the value is
    the digits read as one integer over [10 ^ (digits after the point)]. *)
Definition parse_decimal (s : string) : option Q :=
  let '(neg, body) :=
    match s with
    | String c s' =>
        if ascii_dec c "-" then (true, s') else if ascii_dec c "+" then (false, s') else (false, s)
    | EmptyString => (false, s)
    end in
  match parse_int body 0%Z with
  | Some (m, k) =>
      let v := inject_Z m / inject_Z (pow10 k) in
      Some (if neg then - v else v)
  | None => None
  end.

Fixpoint has_digit (s : string) : bool :=
  match s with
  | EmptyString => false
  | String c s' => match char_digit c with Some _ => true | None => has_digit s' end
  end.

(** [float(s)] on a plain decimal string: [ValueError] without a digit or
    with a character outside the grammar. *)
Definition py_float (s : string) : res Q :=
  match parse_decimal s with
  | Some q => if has_digit s then Ok q else Raise ValueError
  | None => Raise ValueError
  end.

(** ** The script *)

(** One written field: [str(rssi)] kept as the value it prints, or a text. *)
Inductive out_cell : Type :=
| OFloat (v : Q)
| OStr (s : string).

(** [row[i]]: [IndexError] past the end. *)
Definition py_index (row : list string) (i : nat) : res string :=
  match nth_error row i with Some s => Ok s | None => Raise IndexError end.

(** Lines 18-38 on one non-empty row; the fields are read and parsed in
    order, so the first missing or malformed one raises. *)
Definition fix_row (row : list string) : res (list out_cell) :=
  s0 <- py_index row 0 ;; rssi <- py_float s0 ;;
  s1 <- py_index row 1 ;; lat_raw <- py_float s1 ;;
  s2 <- py_index row 2 ;; lon_raw <- py_float s2 ;;
  s3 <- py_index row 3 ;; alt_raw <- py_float s3 ;;
  s4 <- py_index row 4 ;; heading <- py_float s4 ;;
  let lat_corrected := lat_raw / 10000000 in
  let lon_corrected := lon_raw / 10000000 in
  let alt_corrected := alt_raw / 1000 in
  Ok [OFloat rssi; OStr (format_fixed 7 lat_corrected); OStr (format_fixed 7 lon_corrected);
      OStr (format_fixed 3 alt_corrected); OStr (format_fixed 2 heading)].

(** Lines 9-38: [writer.writerow] writes each row as soon as it is
    converted, so an exception leaves the rows written before it in the
    output file.  The result is the rows written and the exception that
    stopped the loop, if any. *)
Fixpoint fix_csv (rows : list (list string)) : list (list out_cell) * option exn :=
  match rows with
  | [] => ([], None)
  | [] :: rest => fix_csv rest
  | row :: rest =>
      match fix_row row with
      | Ok out => let '(w, e) := fix_csv rest in (out :: w, e)
      | Raise e => ([], Some e)
      end
  end.

(** ** Digits *)


Lemma digit_char_props (k : Z) :
  is_digit 10 k ->
  char_digit (digit_char k) = Some k /\ digit_char k <> "."%char /\
  digit_char k <> "-"%char /\ digit_char k <> "+"%char.
Proof.
  unfold is_digit. intros Hk.
  assert (k = 0 \/ k = 1 \/ k = 2 \/ k = 3 \/ k = 4 \/ k = 5 \/ k = 6 \/ k = 7 \/ k = 8 \/ k = 9)%Z
    as Hc by lia.
  repeat destruct Hc as [->|Hc]; [..|subst]; vm_compute; repeat split; discriminate.
Qed.

Lemma parse_int_digits (l : list Z) (rest : string) (acc : Z) :
  Forall (is_digit 10) l -> parse_int (digits_str l ++ rest) acc = parse_int rest (digits_val 10 l acc).
Proof.
  revert acc; induction l as [|k l IH]; intros acc Hl; [reflexivity|].
  inversion Hl as [|? ? Hk Hl']; subst. destruct (digit_char_props k Hk) as [E [Nd _]].
  cbn [digits_str fold_right String.append parse_int].
  destruct (ascii_dec (digit_char k) "."); [contradiction|]. rewrite E. apply IH, Hl'.
Qed.

Lemma parse_frac_digits (l : list Z) (acc : Z) (k : nat) :
  Forall (is_digit 10) l -> parse_frac (digits_str l) acc k = Some (digits_val 10 l acc, (k + length l)%nat).
Proof.
  revert acc k; induction l as [|x l IH]; intros acc k Hl;
    cbn [digits_str fold_right parse_frac length digits_val fold_left];
    [rewrite Nat.add_0_r; reflexivity|].
  inversion Hl as [|? ? Hx Hl']; subst. rewrite (proj1 (digit_char_props x Hx)).
  rewrite IH by exact Hl'. do 2 f_equal. lia.
Qed.


(** ** Rounding *)

Lemma round_half_even_bounds (x : Q) :
  x - (1 # 2) <= inject_Z (round_half_even x) <= x + (1 # 2).
Proof.
  unfold round_half_even. cbv zeta.
  pose proof (Qfloor_le x) as Hlo. pose proof (Qlt_floor x) as Hhi.
  rewrite inject_Z_plus in Hhi. change (inject_Z 1) with 1 in Hhi.
  destruct (Qltb (x - inject_Z (Qfloor x)) (1 # 2)) eqn:E1; [apply Qltb_iff in E1; lra|].
  apply Qltb_false in E1.
  destruct (Qltb (1 # 2) (x - inject_Z (Qfloor x))) eqn:E2.
  - apply Qltb_iff in E2. rewrite inject_Z_plus. change (inject_Z 1) with 1. lra.
  - apply Qltb_false in E2. destruct (Z.even (Qfloor x)); [lra|].
    rewrite inject_Z_plus. change (inject_Z 1) with 1. lra.
Qed.

#[export] Instance round_half_even_proper : Proper (Qeq ==> eq) round_half_even.
Proof.
  intros x y H. unfold round_half_even. cbv zeta. rewrite (Qfloor_comp x y H).
  assert (E : x - inject_Z (Qfloor y) == y - inject_Z (Qfloor y)) by (rewrite H; reflexivity).
  rewrite (Qltb_compat _ _ _ _ E (Qeq_refl _)), (Qltb_compat _ _ _ _ (Qeq_refl _) E).
  reflexivity.
Qed.

Lemma round_half_even_Z (n : Z) : round_half_even (inject_Z n) = n.
Proof.
  unfold round_half_even. cbv zeta. rewrite Qfloor_Z.
  assert (Qltb (inject_Z n - inject_Z n) (1 # 2) = true) as -> by (apply Qltb_iff; lra).
  reflexivity.
Qed.

Lemma round_half_even_sign (x : Q) :
  (0 <= x -> (0 <= round_half_even x)%Z) /\ (x < 0 -> (round_half_even x <= 0)%Z).
Proof.
  pose proof (round_half_even_bounds x) as [Hlo Hhi]. split; intros Hx.
  - destruct (Z_lt_le_dec (round_half_even x) 0) as [Hn|]; [|assumption]. exfalso.
    assert (inject_Z (round_half_even x) <= -1); [|lra].
    change (-1) with (inject_Z (-1)). rewrite <- Zle_Qle. lia.
  - destruct (Z_le_gt_dec (round_half_even x) 0) as [|Hp]; [assumption|]. exfalso.
    assert (1 <= inject_Z (round_half_even x)); [|lra].
    change 1 with (inject_Z 1). rewrite <- Zle_Qle. lia.
Qed.

(** The printed value is within half a unit of the last place. *)
Lemma rounded_error (x p : Q) :
  0 < p -> Qabs (inject_Z (round_half_even (x * p)) / p - x) <= 1 / (2 * p).
Proof.
  intros Hp. pose proof (round_half_even_bounds (x * p)) as [Hlo Hhi].
  set (m := inject_Z (round_half_even (x * p))) in *.
  setoid_replace (m / p - x) with ((m - x * p) * / p) by (field; lra).
  setoid_replace (1 / (2 * p)) with ((1 # 2) * / p) by (field; lra).
  rewrite Qabs_Qmult. rewrite (Qabs_pos (/ p)) by (apply Qlt_le_weak, Qinv_lt_0_compat, Hp).
  apply Qmult_le_compat_r; [|apply Qlt_le_weak, Qinv_lt_0_compat, Hp].
  apply Qabs_Qle_condition. lra.
Qed.

Lemma pow10_pos (d : nat) : (0 < pow10 d)%Z.
Proof. unfold pow10. apply Z.pow_pos_nonneg; lia. Qed.

Lemma inject_pow10_pos (d : nat) : 0 < inject_Z (pow10 d).
Proof. change 0 with (inject_Z 0). rewrite <- Zlt_Qlt. apply pow10_pos. Qed.

(** ** Reading back what [format_fixed] prints *)

(** The unsigned part: the integer digits of [a / 10^d], a point and the
    [d] last digits of [a] read back as [a] with [d] decimals. *)
Lemma parse_unsigned (d : nat) (a : Z) :
  (0 <= a)%Z ->
  parse_int (digits_str (int_digit_list 10 (int_fuel (a / pow10 d)) (a / pow10 d)) ++
             match d with O => "" | _ => String "." (digits_str (frac_digit_list 10 d a)) end) 0
  = Some (a, d).
Proof.
  intros Ha. pose proof (pow10_pos d) as Hp.
  assert (Hip : (0 <= a / pow10 d)%Z) by (apply Z.div_pos; lia).
  destruct (int_digits_roundtrip 10 ltac:(lia) (a / pow10 d) Hip) as [_ [F V]].
  rewrite parse_int_digits by exact F. rewrite V.
  destruct d as [|d'].
  - cbn [parse_int]. unfold pow10. simpl. rewrite Z.div_1_r. reflexivity.
  - cbn [parse_int]. destruct (ascii_dec "." "."); [|congruence].
    destruct (frac_digit_list_spec 10 ltac:(lia) (S d') a Ha) as [F2 [L2 V2]].
    rewrite parse_frac_digits by exact F2. rewrite V2, L2.
    pose proof (Z.div_mod a (pow10 (S d')) ltac:(lia)). unfold pow10 in *. f_equal. f_equal. lia.
Qed.

(** A string that starts with a digit is read without a sign. *)
Lemma parse_decimal_digit (k : Z) (s : string) :
  is_digit 10 k ->
  parse_decimal (String (digit_char k) s) =
  match parse_int (String (digit_char k) s) 0 with
  | Some (m, n) => Some (inject_Z m / inject_Z (pow10 n))
  | None => None
  end.
Proof.
  intros Hk. destruct (digit_char_props k Hk) as [_ [_ [Nm Np]]]. unfold parse_decimal.
  destruct (ascii_dec (digit_char k) "-"); [contradiction|].
  destruct (ascii_dec (digit_char k) "+"); [contradiction|]. reflexivity.
Qed.

(** [f"{q:.{d}f}"] reads back as [round(q * 10^d) / 10^d]. *)
Lemma format_fixed_reads_back (d : nat) (q : Q) :
  exists v, parse_decimal (format_fixed d q) = Some v /\
    v == inject_Z (round_half_even (q * inject_Z (pow10 d))) / inject_Z (pow10 d).
Proof.
  pose proof (inject_pow10_pos d) as HP.
  set (m := round_half_even (q * inject_Z (pow10 d))).
  unfold format_fixed. fold m.
  pose proof (parse_unsigned d (Z.abs m) (Z.abs_nonneg m)) as Hu.
  destruct (Qltb q 0) eqn:Eq.
  - apply Qltb_iff in Eq.
    assert (Hm : (m <= 0)%Z).
    { apply round_half_even_sign. apply Qlt_le_trans with (0 * inject_Z (pow10 d));
        [apply Qmult_lt_compat_r; assumption | rewrite Qmult_0_l; apply Qle_refl]. }
    eexists. split.
    + cbn [String.append]. unfold parse_decimal.
      destruct (ascii_dec "-" "-"); [|congruence]. rewrite Hu. reflexivity.
    + rewrite Z.abs_neq by exact Hm. rewrite inject_Z_opp. field. lra.
  - apply Qltb_false in Eq.
    assert (Hm : (0 <= m)%Z) by (apply round_half_even_sign; apply Qmult_le_0_compat; lra).
    cbn [String.append]. revert Hu.
    assert (Hip : (0 <= Z.abs m / pow10 d)%Z)
      by (apply Z.div_pos; [lia | pose proof (pow10_pos d); lia]).
    destruct (int_digits_roundtrip 10 ltac:(lia) _ Hip) as [Hne [F _]].
    destruct (int_digit_list 10 (int_fuel (Z.abs m / pow10 d)) (Z.abs m / pow10 d)) as [|k l];
      [congruence|].
    inversion F as [|? ? Hk _]; subst. cbn [digits_str fold_right String.append].
    intros Hu. rewrite (parse_decimal_digit k _ Hk). cbn [digits_str fold_right String.append] in Hu.
    rewrite Hu. eexists. split; [reflexivity|]. rewrite Z.abs_eq by exact Hm. reflexivity.
Qed.

(** ** Rows *)

Lemma py_index_raise (row : list string) (i : nat) (e : exn) :
  py_index row i = Raise e -> e = IndexError /\ (length row <= i)%nat.
Proof.
  unfold py_index. destruct (nth_error row i) eqn:E; intros H; [discriminate|].
  injection H as <-. split; [reflexivity | apply nth_error_None, E].
Qed.

Lemma py_float_raise (s : string) (e : exn) : py_float s = Raise e -> e = ValueError.
Proof.
  unfold py_float. destruct (parse_decimal s); [destruct (has_digit s)|]; intros H;
    [discriminate | injection H as <-; reflexivity..].
Qed.

(** A row fails with [IndexError], when it has fewer than five fields, or
    with [ValueError]. *)
Lemma fix_row_raise (row : list string) (e : exn) :
  fix_row row = Raise e -> (e = IndexError /\ (length row < 5)%nat) \/ e = ValueError.
Proof.
  unfold fix_row. intros H.
  repeat (apply res_bind_raise in H as [H|[? [_ H]]];
          [first [apply py_index_raise in H as [-> Hl]; left; split; [reflexivity | lia]
                 | right; apply (py_float_raise _ _ H)]|]).
  discriminate H.
Qed.

(** A row of five or more fields that all parse converts. *)
Lemma fix_row_ok (s0 s1 s2 s3 s4 : string) (rest : list string) (r la lo al h : Q) :
  py_float s0 = Ok r -> py_float s1 = Ok la -> py_float s2 = Ok lo ->
  py_float s3 = Ok al -> py_float s4 = Ok h ->
  fix_row (s0 :: s1 :: s2 :: s3 :: s4 :: rest) =
  Ok [OFloat r; OStr (format_fixed 7 (la / 10000000)); OStr (format_fixed 7 (lo / 10000000));
      OStr (format_fixed 3 (al / 1000)); OStr (format_fixed 2 h)].
Proof.
  intros E0 E1 E2 E3 E4. unfold fix_row, py_index. cbn [nth_error res_bind].
  rewrite E0, E1, E2, E3, E4. reflexivity.
Qed.

(** An integer count of [10^-d] units is printed exactly at [d] decimals. *)
Lemma format_fixed_exact (d : nat) (n : Z) :
  exists v, parse_decimal (format_fixed d (inject_Z n / inject_Z (pow10 d))) = Some v /\
    v == inject_Z n / inject_Z (pow10 d).
Proof.
  destruct (format_fixed_reads_back d (inject_Z n / inject_Z (pow10 d))) as [v [Hp Hv]].
  exists v. split; [exact Hp|]. rewrite Hv.
  pose proof (inject_pow10_pos d).
  assert (E : inject_Z n / inject_Z (pow10 d) * inject_Z (pow10 d) == inject_Z n) by (field; lra).
  rewrite E, round_half_even_Z. reflexivity.
Qed.

(** C23. For a row of five numeric fields whose latitude, longitude and
    altitude are whole numbers (the receiver's units of [1e-7] degree and
    millimetre), the written latitude, longitude and altitude read back as
    exactly [lat / 1e7], [lon / 1e7] and [alt / 1000]: the correction loses
    nothing; the heading reads back within 0.005; [rssi] is written as
    read. *)
Theorem fix_row_lossless (s0 s1 s2 s3 s4 : string) (rest : list string) (r h : Q) (la lo al : Z) :
  py_float s0 = Ok r -> py_float s1 = Ok (inject_Z la) -> py_float s2 = Ok (inject_Z lo) ->
  py_float s3 = Ok (inject_Z al) -> py_float s4 = Ok h ->
  exists t1 t2 t3 t4 v1 v2 v3 v4,
    fix_row (s0 :: s1 :: s2 :: s3 :: s4 :: rest) = Ok [OFloat r; OStr t1; OStr t2; OStr t3; OStr t4] /\
    parse_decimal t1 = Some v1 /\ v1 == inject_Z la / 10000000 /\
    parse_decimal t2 = Some v2 /\ v2 == inject_Z lo / 10000000 /\
    parse_decimal t3 = Some v3 /\ v3 == inject_Z al / 1000 /\
    parse_decimal t4 = Some v4 /\ Qabs (v4 - h) <= 1 # 200.
Proof.
  intros E0 E1 E2 E3 E4. rewrite (fix_row_ok _ _ _ _ _ _ _ _ _ _ _ E0 E1 E2 E3 E4).
  destruct (format_fixed_exact 7 la) as [v1 [P1 V1]].
  destruct (format_fixed_exact 7 lo) as [v2 [P2 V2]].
  destruct (format_fixed_exact 3 al) as [v3 [P3 V3]].
  destruct (format_fixed_reads_back 2 h) as [v4 [P4 V4]].
  do 8 eexists. split; [reflexivity|].
  split; [exact P1|]. split; [exact V1|]. split; [exact P2|]. split; [exact V2|].
  split; [exact P3|]. split; [exact V3|]. split; [exact P4|].
  rewrite V4. apply (rounded_error h (inject_Z (pow10 2))). apply inject_pow10_pos.
Qed.

(** C24. When [fix-csv.py] stops on an exception, the output file holds
    exactly what the rows before the failing one produce: the input splits
    into a prefix that converts without error, a non-empty row whose
    conversion raises, and an unread rest; the exception is an
    [IndexError] of a row with fewer than five fields or a [ValueError] of
    a malformed field.  The partial file is left behind. *)
Theorem fix_csv_partial (rows : list (list string)) (w : list (list out_cell)) (e : exn) :
  fix_csv rows = (w, Some e) ->
  exists pre row post, rows = pre ++ row :: post /\ row <> [] /\ fix_row row = Raise e /\
    fix_csv pre = (w, None) /\ ((e = IndexError /\ (length row < 5)%nat) \/ e = ValueError).
Proof.
  revert w; induction rows as [|row rest IH]; intros w H; [discriminate|].
  destruct row as [|s r]; cbn [fix_csv] in H.
  - destruct (IH w H) as [pre [row [post [-> Hrow]]]].
    exists ([] :: pre), row, post. split; [reflexivity | exact Hrow].
  - destruct (fix_row (s :: r)) as [out|e'] eqn:Er.
    + destruct (fix_csv rest) as [w' e''] eqn:Ers. injection H as <- ->.
      destruct (IH w' eq_refl) as [pre [row [post [-> [Hne [Hraise [Hpre He]]]]]]].
      exists ((s :: r) :: pre), row, post. split; [reflexivity|]. split; [exact Hne|].
      split; [exact Hraise|]. split; [|exact He]. cbn [fix_csv]. rewrite Er, Hpre. reflexivity.
    + injection H as <- ->. exists [], (s :: r), rest. split; [reflexivity|].
      split; [discriminate|]. split; [exact Er|]. split; [reflexivity|].
      apply fix_row_raise, Er.
Qed.

(** ** Witnesses *)

Lemma fix_row_lossless_witness :
  exists t1 t2 t3 t4 v1 v2 v3 v4,
    fix_row ["-60"; "532683398"; "-5298533"; "12345"; "90.5"]%string =
      Ok [OFloat (-60); OStr t1; OStr t2; OStr t3; OStr t4] /\
    parse_decimal t1 = Some v1 /\ v1 == inject_Z 532683398 / 10000000 /\
    parse_decimal t2 = Some v2 /\ v2 == inject_Z (-5298533) / 10000000 /\
    parse_decimal t3 = Some v3 /\ v3 == inject_Z 12345 / 1000 /\
    parse_decimal t4 = Some v4 /\ Qabs (v4 - (905 # 10)) <= 1 # 200.
Proof.
  apply (fix_row_lossless "-60" "532683398" "-5298533" "12345" "90.5" [] (-60) (905 # 10)
           532683398 (-5298533) 12345); vm_compute; reflexivity.
Defined.

Lemma fix_csv_partial_witness :
  exists pre row post,
    [["-60"; "532683398"; "-5298533"; "12345"; "90"]; []; ["-61"; "532683399"]]%string
      = pre ++ row :: post /\ row <> [] /\ fix_row row = Raise IndexError /\
    fix_csv pre = (fst (fix_csv [["-60"; "532683398"; "-5298533"; "12345"; "90"]; [];
                                 ["-61"; "532683399"]]%string), None) /\
    ((IndexError = IndexError /\ (length row < 5)%nat) \/ IndexError = ValueError).
Proof.
  apply fix_csv_partial. vm_compute. reflexivity.
Defined.
