(* ===== verification/FixRun.v ===== *)
(** * [fix-csv.py] as a state machine: the [with] block, the row loop and the exit

    [FixCsv.fix_csv] gives the rows [fix-csv.py] writes and the exception
    it stops on.  This file runs the script as it executes: the two files
    are opened by the [with] statement (line 9), the [for] loop takes the
    rows one at a time, skipping an empty one (lines 13-15) and writing the
    converted one (lines 18-38), an exception leaves the [with] block and
    closes the output file on its way out, and a normal end closes it and
    prints the final message (line 40).

    The state is the rows still to read, the rows written, whether the
    output file is open, what was printed and the phase of the script;
    [step] is the one-step relation, [run] its reflexive-transitive
    closure.  The theorems: [run] keeps the invariant that relates the
    state to [fix_csv] (rule induction), and every run ends: no run is
    infinite, and the final state, reached from the start, has the output
    file closed, the rows of [fix_csv] written, and the message printed
    exactly when no row raised. *)

From Stdlib Require Import QArith String List Lia Wellfounded Wf_nat.
From S2P Require Import Prelude FixCsv.
Import ListNotations.


(** Where the script is: in the loop, leaving the [with] block by an
    exception, after the [with] block, or stopped. *)
Inductive phase : Type :=
| Loop
| Unwinding (e : exn)
| AfterWith
| Finished
| Crashed (e : exn).

Record state : Type := mk_state {
  pending : list (list string);
  written : list (list out_cell);
  out_open : bool;
  stdout : list string;
  ph : phase
}.

Definition output_file : string := "go2-initial-walk.csv"%string.

(** [print("Finished! Corrected file written to", output_file)] *)
Definition finished_msg : string := ("Finished! Corrected file written to " ++ output_file)%string.

(** Line 9: both files open, nothing written. *)
Definition init (rows : list (list string)) : state := mk_state rows [] true [] Loop.

Inductive step : state -> state -> Prop :=
| step_skip rest w o p :
    step (mk_state ([] :: rest) w o p Loop) (mk_state rest w o p Loop)
| step_write row rest w o p out :
    row <> [] -> fix_row row = Ok out ->
    step (mk_state (row :: rest) w o p Loop) (mk_state rest (w ++ [out]) o p Loop)
| step_raise row rest w o p e :
    row <> [] -> fix_row row = Raise e ->
    step (mk_state (row :: rest) w o p Loop) (mk_state rest w o p (Unwinding e))
| step_close_err rs w o p e :
    step (mk_state rs w o p (Unwinding e)) (mk_state rs w false p (Crashed e))
| step_close_ok w o p :
    step (mk_state [] w o p Loop) (mk_state [] w false p AfterWith)
| step_print rs w o p :
    step (mk_state rs w o p AfterWith) (mk_state rs w o (p ++ [finished_msg]) Finished).

Inductive run : state -> state -> Prop :=
| run_refl s : run s s
| run_cons s1 s2 s3 : step s1 s2 -> run s2 s3 -> run s1 s3.

Definition final (s : state) : Prop :=
  match ph s with Finished | Crashed _ => True | _ => False end.

(** ** The invariant *)

(** The state against [fix_csv] of the input: in the loop, the rows
    written followed by what the rest gives; after an exception, the rows
    written and the exception; the output file is open exactly inside the
    [with] block, and the message is printed only at the end. *)
Definition inv (rows : list (list string)) (s : state) : Prop :=
  match ph s with
  | Loop => out_open s = true /\ stdout s = [] /\
            fix_csv rows = (written s ++ fst (fix_csv (pending s)), snd (fix_csv (pending s)))
  | Unwinding e => out_open s = true /\ stdout s = [] /\ fix_csv rows = (written s, Some e)
  | AfterWith => out_open s = false /\ stdout s = [] /\ fix_csv rows = (written s, None)
  | Finished => out_open s = false /\ stdout s = [finished_msg] /\ fix_csv rows = (written s, None)
  | Crashed e => out_open s = false /\ stdout s = [] /\ fix_csv rows = (written s, Some e)
  end.

Lemma inv_init (rows : list (list string)) : inv rows (init rows).
Proof. cbn. split; [reflexivity|]. split; [reflexivity|]. destruct (fix_csv rows); reflexivity. Qed.

Lemma fix_csv_cons_ok (row : list string) (rest : list (list string)) out :
  row <> [] -> fix_row row = Ok out ->
  fix_csv (row :: rest) = (out :: fst (fix_csv rest), snd (fix_csv rest)).
Proof.
  intros Hr Hf. destruct row as [|c r]; [congruence|]. cbn [fix_csv]. rewrite Hf.
  destruct (fix_csv rest); reflexivity.
Qed.

Lemma fix_csv_cons_raise (row : list string) (rest : list (list string)) e :
  row <> [] -> fix_row row = Raise e -> fix_csv (row :: rest) = ([], Some e).
Proof. intros Hr Hf. destruct row as [|c r]; [congruence|]. cbn [fix_csv]. rewrite Hf. reflexivity. Qed.

Lemma inv_step (rows : list (list string)) (s s' : state) : step s s' -> inv rows s -> inv rows s'.
Proof.
  intros Hs; destruct Hs; unfold inv; cbn [ph pending written out_open stdout];
    intros [Ho [Hp Hf]]; (split; [assumption || reflexivity|]).
  - split; [exact Hp|]. exact Hf.
  - split; [exact Hp|]. rewrite Hf, (fix_csv_cons_ok row rest out), <- app_assoc by assumption. reflexivity.
  - split; [exact Hp|]. rewrite Hf, (fix_csv_cons_raise row rest e) by assumption. rewrite app_nil_r. reflexivity.
  - split; [exact Hp | exact Hf].
  - split; [exact Hp|]. rewrite Hf. cbn. rewrite app_nil_r. reflexivity.
  - split; [rewrite Hp; reflexivity | exact Hf].
Qed.

Lemma inv_run (rows : list (list string)) (s s' : state) : run s s' -> inv rows s -> inv rows s'.
Proof. induction 1 as [s|s1 s2 s3 Hs _ IH]; intros Hi; [exact Hi | apply IH, (inv_step rows s1 s2); assumption]. Qed.

(** ** Every run ends *)

Definition phase_rank (p : phase) : nat :=
  match p with Loop => 2 | Unwinding _ | AfterWith => 1 | Finished | Crashed _ => 0 end.

(** The variant: three per row still to read, plus the rank of the phase. *)
Definition measure (s : state) : nat := 3 * length (pending s) + phase_rank (ph s).

Lemma step_measure (s s' : state) : step s s' -> (measure s' < measure s)%nat.
Proof. destruct 1; unfold measure; cbn; lia. Qed.

Lemma step_acc (s : state) : Acc (fun s' s => step s s') s.
Proof.
  induction s as [s IH] using (well_founded_induction (well_founded_ltof _ measure)).
  constructor. intros s' Hs. apply IH. unfold ltof. apply step_measure, Hs.
Qed.

(** A state that is not final has a next state. *)
Lemma step_progress (s : state) : ~ final s -> exists s', step s s'.
Proof.
  destruct s as [rs w o p [| e | | | e]]; unfold final; cbn; intros Hf; try contradiction.
  - destruct rs as [|row rest]; [eexists; apply step_close_ok|].
    destruct row as [|c r]; [eexists; apply step_skip|].
    destruct (fix_row (c :: r)) as [out|e] eqn:E;
      eexists; [apply step_write | apply step_raise]; (discriminate || exact E).
  - eexists; apply step_close_err.
  - eexists; apply step_print.
Qed.

Lemma final_dec (s : state) : final s \/ ~ final s.
Proof. unfold final. destruct (ph s); tauto. Qed.

Lemma reach_final (s : state) : exists s', run s s' /\ final s'.
Proof.
  induction s as [s IH] using (well_founded_induction (well_founded_ltof _ measure)).
  destruct (final_dec s) as [Hf|Hf]; [exists s; split; [constructor | exact Hf]|].
  destruct (step_progress s Hf) as [s1 Hs].
  destruct (IH s1 (step_measure _ _ Hs)) as [s2 [Hr Hf2]].
  exists s2. split; [eapply run_cons; eassumption | exact Hf2].
Qed.

(** C27. [fix-csv.py] always comes to an end: no run of the script is
    infinite, a final state is reached from the start, and in every final
    state reached the output file has been closed, the rows written are
    those of [fix_csv], and the final message has been printed exactly when
    no row raised (nothing is printed otherwise). *)
Theorem fix_run_live (rows : list (list string)) :
  Acc (fun s' s => step s s') (init rows) /\
  (exists s, run (init rows) s /\ final s) /\
  (forall s, run (init rows) s -> final s ->
     out_open s = false /\ written s = fst (fix_csv rows) /\
     (snd (fix_csv rows) = None -> stdout s = [finished_msg]) /\
     (snd (fix_csv rows) <> None -> stdout s = [])).
Proof.
  split; [apply step_acc|]. split; [apply reach_final|].
  intros s Hr Hf. pose proof (inv_run rows _ _ Hr (inv_init rows)) as Hi.
  unfold final, inv in *. destruct (ph s); try contradiction;
    destruct Hi as [Ho [Hp Hc]]; rewrite Hc; cbn [fst snd];
    (split; [exact Ho|]); (split; [reflexivity|]); split; intros H; congruence.
Qed.

Lemma fix_run_live_witness :
  exists s, run (init [[]; ["-60"; "532683398"; "-5298533"; "12000"; "90"]%string]) s /\ final s.
Proof. exact (proj1 (proj2 (fix_run_live _))). Defined.
