(* ===== verification/Colour.v ===== *)
(** * The RSSI colour scale of [map_generator.py] and [map_generator-2.py]

    Both scripts colour one circle marker per sample on a red-to-green
    scale ([map_generator.py] lines 43-59, [map_generator-2.py] lines
    16-32): [rssi_min] and [rssi_max] are pandas' [min] and [max] of the
    column (NaN skipped), then for every row

<<
    norm_rssi = (row["rssi"] - rssi_min) / (rssi_max - rssi_min)
    r = int(255 * (1 - norm_rssi))
    g = int(255 * norm_rssi)
    color = f"#{r:02x}{g:02x}00"
>>
    The columns are numeric, so [row["rssi"]] is a numpy [float64]: a
    division by zero gives NaN or an infinity (with a warning), and [int]
    raises [ValueError] on NaN and [OverflowError] on an infinity.  [int]
    truncates toward zero.  [f"{r:02x}"] prints the hexadecimal digits of
    [|r|] in lower case after a [-] for a negative [r], padded with zeros
    to two characters.  The coordinates of a marker are inputs here (the
    ECEF conversion of [map_generator.py] needs the reals and is not
    modelled); the marker's radius, opacity and popup text are constants or
    output only. *)

From Stdlib Require Import QArith Qround Qabs Lqa ZArith String Ascii List Lia.
From S2P Require Import Prelude PyFloat Digits.
Import ListNotations.

Local Open Scope py_scope.

(** ** pandas and Python primitives *)

(** [Series.min()] and [Series.max()]: NaN skipped, NaN for no value. *)
Definition series_min (l : list pyfloat) : pyfloat :=
  match not_nan l with [] => NaN | x :: r => fold_left np_minimum r x end.

Definition series_max (l : list pyfloat) : pyfloat :=
  match not_nan l with [] => NaN | x :: r => fold_left np_maximum r x end.

(** [int(x)] of a float: truncation toward zero. *)
Definition py_int (v : pyfloat) : res Z :=
  match v with
  | Fin q => Ok (Z.quot (Qnum q) (Zpos (Qden q)))
  | NaN => Raise ValueError
  | PInf | NInf => Raise OverflowError
  end.

Definition hex_char (k : Z) : ascii :=
  if Z.ltb k 10 then ascii_of_nat (48 + Z.to_nat k)%nat else ascii_of_nat (87 + Z.to_nat k)%nat.

Definition hex_str (l : list Z) : string :=
  fold_right (fun k s => String (hex_char k) s) EmptyString l.

Fixpoint zeros (n : nat) : string :=
  match n with O => EmptyString | S n' => String "0" (zeros n') end.

(** [f"{r:02x}"] *)
Definition format_02x (r : Z) : string :=
  let ds := int_digit_list 16 (int_fuel (Z.abs r)) (Z.abs r) in
  let sign := if Z.ltb r 0 then "-"%string else EmptyString in
  sign ++ zeros (2 - String.length sign - length ds) ++ hex_str ds.

(** ** The colour of one row, lines 46-50 *)

Definition rssi_color (rssi_min rssi_max v : pyfloat) : res string :=
  let norm_rssi := pf_div (pf_sub v rssi_min) (pf_sub rssi_max rssi_min) in
  r <- py_int (pf_mul (Fin 255) (pf_sub (Fin 1) norm_rssi)) ;;
  g <- py_int (pf_mul (Fin 255) norm_rssi) ;;
  Ok ("#" ++ format_02x r ++ format_02x g ++ "00")%string.

(** The marker loop, lines 43-59: one [(lat, lon, color)] per row, in
    order; the first row whose colour raises stops the script. *)
Fixpoint marker_loop {C : Type} (rssi_min rssi_max : pyfloat) (rows : list (pyfloat * C * C))
  : res (list (C * C * string)) :=
  match rows with
  | [] => Ok []
  | (v, la, lo) :: rest =>
      c <- rssi_color rssi_min rssi_max v ;;
      ms <- marker_loop rssi_min rssi_max rest ;;
      Ok ((la, lo, c) :: ms)
  end.

Definition color_markers {C : Type} (rows : list (pyfloat * C * C)) : res (list (C * C * string)) :=
  let rssi := map (fun '(v, _, _) => v) rows in
  marker_loop (series_min rssi) (series_max rssi) rows.

(** ** Reading a colour back *)

Definition hex_val (c : ascii) : option Z :=
  let n := nat_of_ascii c in
  if Nat.leb 48 n && Nat.leb n 57 then Some (Z.of_nat (n - 48)%nat)
  else if Nat.leb 97 n && Nat.leb n 102 then Some (Z.of_nat (n - 87)%nat)
  else None.

Fixpoint parse_hex (s : string) (acc : Z) : option Z :=
  match s with
  | EmptyString => Some acc
  | String c s' => match hex_val c with Some k => parse_hex s' (acc * 16 + k)%Z | None => None end
  end.

(** ** Two hexadecimal digits *)

Lemma hex_char_val (k : Z) : (0 <= k < 16)%Z -> hex_val (hex_char k) = Some k.
Proof.
  intros Hk.
  assert (k = 0 \/ k = 1 \/ k = 2 \/ k = 3 \/ k = 4 \/ k = 5 \/ k = 6 \/ k = 7 \/ k = 8 \/ k = 9 \/
          k = 10 \/ k = 11 \/ k = 12 \/ k = 13 \/ k = 14 \/ k = 15)%Z as Hc by lia.
  repeat destruct Hc as [->|Hc]; [..|subst]; reflexivity.
Qed.

(** A byte is printed as exactly two digits, the high one first. *)
Lemma format_02x_byte (r : Z) :
  (0 <= r < 256)%Z ->
  format_02x r = String (hex_char (r / 16)) (String (hex_char (r mod 16)) EmptyString).
Proof.
  intros Hr. unfold format_02x. rewrite Z.abs_eq by lia.
  destruct (Z.ltb_spec r 0) as [|_]; [lia|].
  destruct (Z.lt_ge_cases r 16) as [H16|H16].
  - rewrite int_digit_list_one by (unfold int_fuel; lia).
    rewrite Z.div_small, Z.mod_small by lia. reflexivity.
  - rewrite int_digit_list_two; [reflexivity | lia | |lia].
    unfold int_fuel. assert (4 <= Z.log2 r)%Z by (change 4%Z with (Z.log2 16); apply Z.log2_le_mono; lia).
    lia.
Qed.

Lemma format_02x_parse (r : Z) :
  (0 <= r < 256)%Z -> String.length (format_02x r) = 2%nat /\ parse_hex (format_02x r) 0 = Some r.
Proof.
  intros Hr. rewrite format_02x_byte by exact Hr. split; [reflexivity|].
  assert (H1 : (0 <= r / 16 < 16)%Z)
    by (split; [apply Z.div_pos | apply Z.div_lt_upper_bound]; lia).
  pose proof (Z.mod_pos_bound r 16 ltac:(lia)) as H2.
  cbn [parse_hex]. rewrite (hex_char_val _ H1), (hex_char_val _ H2). f_equal. pose proof (Z.div_mod r 16). lia.
Qed.

(** ** The colour of one row *)

(** [int] of a non-negative float is its floor. *)
Lemma py_int_nonneg (q : Q) : 0 <= q -> py_int (Fin q) = Ok (Qfloor q).
Proof.
  destruct q as [n d]. unfold Qle. simpl. intros H. f_equal.
  apply Z.quot_div_nonneg; lia.
Qed.

(** The two channels of a value at fraction [a / 255] of the range: both in
    [0, 255], and they add up to 254 or 255. *)
Lemma channel_bounds (a : Q) :
  0 <= a <= 255 ->
  (0 <= Qfloor (255 - a) <= 255)%Z /\ (0 <= Qfloor a <= 255)%Z /\
  (254 <= Qfloor (255 - a) + Qfloor a <= 255)%Z.
Proof.
  intros Ha.
  pose proof (Qfloor_le a). pose proof (Qlt_floor a).
  pose proof (Qfloor_le (255 - a)). pose proof (Qlt_floor (255 - a)).
  rewrite inject_Z_plus in *. change (inject_Z 1) with 1 in *.
  assert (Z1 : forall z : Z, -1 < inject_Z z -> (0 <= z)%Z)
    by (intros z Hz; change (-1) with (inject_Z (-1)) in Hz; rewrite <- Zlt_Qlt in Hz; lia).
  assert (Z2 : forall z : Z, inject_Z z < 256 -> (z <= 255)%Z)
    by (intros z Hz; change 256 with (inject_Z 256) in Hz; rewrite <- Zlt_Qlt in Hz; lia).
  assert (S1 : inject_Z (Qfloor (255 - a) + Qfloor a) < 256) by (rewrite inject_Z_plus; lra).
  assert (S2 : 253 < inject_Z (Qfloor (255 - a) + Qfloor a)) by (rewrite inject_Z_plus; lra).
  change 256 with (inject_Z 256) in S1. change 253 with (inject_Z 253) in S2.
  rewrite <- Zlt_Qlt in S1, S2.
  split; [split; [apply Z1 | apply Z2]; lra|]. split; [split; [apply Z1 | apply Z2]; lra|]. lia.
Qed.

(** A finite value inside a proper range [[a, b]] gets a colour: the red
    channel is [int(255 * (1 - n))] and the green one [int(255 * n)] for the
    fraction [n] of the range below the value. *)
Lemma rssi_color_fin (a b x : Q) :
  a < b -> a <= x <= b ->
  let n := (x + - a) / (b + - a) in
  rssi_color (Fin a) (Fin b) (Fin x) =
  Ok ("#" ++ format_02x (Qfloor (255 * (1 + - n))) ++ format_02x (Qfloor (255 * n)) ++ "00")%string /\
  0 <= n <= 1.
Proof.
  intros Hab Hx n.
  assert (Hn : 0 <= n <= 1) by (unfold n; split;
    [apply Qle_shift_div_l | apply Qle_shift_div_r]; lra).
  split; [|exact Hn].
  unfold rssi_color. cbn [pf_sub pf_add pf_neg].
  assert (Qeq_bool (b + - a) 0 = false) as E
    by (apply Bool.not_true_iff_false; rewrite Qeq_bool_iff; lra).
  cbn [pf_div]. rewrite E. cbn [pf_sub pf_add pf_neg pf_mul res_bind]. fold n.
  rewrite py_int_nonneg by nra. cbn [res_bind]. rewrite py_int_nonneg by nra. reflexivity.
Qed.

Lemma rssi_color_nan (mn mx : pyfloat) : rssi_color mn mx NaN = Raise ValueError.
Proof. destruct mn, mx; reflexivity. Qed.

(** On a range of one value the fraction is [0 / 0], NaN, and [int]
    raises. *)
Lemma rssi_color_flat (a b x : Q) : b == a -> x == a -> rssi_color (Fin a) (Fin b) (Fin x) = Raise ValueError.
Proof.
  intros Hb Hx. unfold rssi_color. cbn [pf_sub pf_add pf_neg pf_div].
  assert (Qeq_bool (b + - a) 0 = true) as -> by (apply Qeq_bool_iff; lra).
  unfold div_by_zero.
  assert (Qltb 0 (x + - a) = false) as -> by (apply Qltb_false; lra).
  assert (Qltb (x + - a) 0 = false) as -> by (apply Qltb_false; lra).
  reflexivity.
Qed.

(** C25. A finite RSSI inside a range of distinct values gets a
    well-formed colour [#rrgg00]: seven characters whose two hexadecimal
    pairs read back as the red and green channels; both channels lie in
    [0, 255] and add up to 254 or 255 (red for the weakest signal, green
    for the strongest), and the green channel is [int(255 * n)] for the
    fraction [n] of the range below the value. *)
Theorem rssi_color_spec (a b x : Q) :
  a < b -> a <= x <= b ->
  exists r g c, rssi_color (Fin a) (Fin b) (Fin x) = Ok c /\
    String.length c = 7%nat /\
    parse_hex (substring 1 2 c) 0 = Some r /\ parse_hex (substring 3 2 c) 0 = Some g /\
    substring 5 2 c = "00"%string /\
    (0 <= r <= 255)%Z /\ (0 <= g <= 255)%Z /\ (254 <= r + g <= 255)%Z /\
    g = Qfloor (255 * ((x - a) / (b - a))).
Proof.
  intros Hab Hx. destruct (rssi_color_fin a b x Hab Hx) as [E Hn].
  set (n := (x + - a) / (b + - a)) in *.
  destruct (channel_bounds (255 * n) ltac:(lra)) as [Hr [Hg Hs]].
  rewrite (Qfloor_comp (255 - 255 * n) (255 * (1 + - n))) in Hr, Hs by ring.
  set (r := Qfloor (255 * (1 + - n))) in *. set (g := Qfloor (255 * n)) in *.
  exists r, g. eexists. split; [exact E|].
  rewrite (format_02x_byte r), (format_02x_byte g) by lia.
  cbn [String.append String.length substring].
  rewrite <- (format_02x_byte r), <- (format_02x_byte g) by lia.
  split; [reflexivity|].
  split; [apply format_02x_parse; lia|]. split; [apply format_02x_parse; lia|].
  split; [reflexivity|]. split; [lia|]. split; [lia|]. split; [lia | reflexivity].
Qed.

(** ** The marker loop *)

Lemma not_nan_finite (l : list pyfloat) :
  (forall v, In v l -> v <> PInf /\ v <> NInf) ->
  exists qs, not_nan l = map Fin qs /\ (forall x, In x qs <-> In (Fin x) l) /\
    (forall v, In v l -> v = NaN \/ exists x, v = Fin x).
Proof.
  induction l as [|v l IH]; intros H; [exists []; simpl; split; [reflexivity | split; tauto]|].
  destruct IH as [qs [E [I F]]]; [intros w Hw; apply H; right; exact Hw|].
  destruct (H v (or_introl eq_refl)) as [N1 N2].
  destruct v as [x| | |]; try congruence; cbn [not_nan filter isnan negb].
  - exists (x :: qs). fold (not_nan l). rewrite E. split; [reflexivity|].
    split; [intros y; simpl; rewrite I; split; intros [Hy|Hy]; auto; [left; congruence | left; congruence]|].
    intros w [<-|Hw]; [eauto | apply F, Hw].
  - exists qs. fold (not_nan l). split; [exact E|].
    split; [intros y; rewrite I; simpl; split; [auto | intros [Hy|Hy]; [discriminate | exact Hy]]|].
    intros w [<-|Hw]; [auto | apply F, Hw].
Qed.

Lemma fold_np_minimum_fin (l : list Q) (x : Q) :
  exists m, fold_left np_minimum (map Fin l) (Fin x) = Fin m /\ m <= x /\
    (forall p, In p l -> m <= p) /\ (m = x \/ In m l).
Proof.
  revert x; induction l as [|p l IH]; intros x; simpl.
  - exists x. split; [reflexivity|]. split; [lra|]. split; [tauto | left; reflexivity].
  - destruct (Qltb p x) eqn:E; [apply Qltb_iff in E | apply Qltb_false in E].
    + destruct (IH p) as [m [Hm [H1 [H2 H3]]]]. exists m. split; [exact Hm|].
      split; [lra|]. split; [intros q [<-|Hq]; [lra | auto]|]. destruct H3; auto.
    + destruct (IH x) as [m [Hm [H1 [H2 H3]]]]. exists m. split; [exact Hm|].
      split; [lra|]. split; [intros q [<-|Hq]; [lra | auto]|]. destruct H3; auto.
Qed.

Lemma fold_np_maximum_fin (l : list Q) (x : Q) :
  exists m, fold_left np_maximum (map Fin l) (Fin x) = Fin m /\ x <= m /\
    (forall p, In p l -> p <= m) /\ (m = x \/ In m l).
Proof.
  revert x; induction l as [|p l IH]; intros x; simpl.
  - exists x. split; [reflexivity|]. split; [lra|]. split; [tauto | left; reflexivity].
  - destruct (Qltb x p) eqn:E; [apply Qltb_iff in E | apply Qltb_false in E].
    + destruct (IH p) as [m [Hm [H1 [H2 H3]]]]. exists m. split; [exact Hm|].
      split; [lra|]. split; [intros q [<-|Hq]; [lra | auto]|]. destruct H3; auto.
    + destruct (IH x) as [m [Hm [H1 [H2 H3]]]]. exists m. split; [exact Hm|].
      split; [lra|]. split; [intros q [<-|Hq]; [lra | auto]|]. destruct H3; auto.
Qed.

(** The range of a column of finite values and NaNs: NaN for no finite
    value, otherwise two of its values that bound all the others. *)
Lemma series_range (l : list pyfloat) (qs : list Q) :
  not_nan l = map Fin qs ->
  (qs = [] -> series_min l = NaN /\ series_max l = NaN) /\
  (qs <> [] -> exists a b, series_min l = Fin a /\ series_max l = Fin b /\
     In a qs /\ In b qs /\ forall x, In x qs -> a <= x <= b).
Proof.
  intros E. unfold series_min, series_max. rewrite E. split; [intros ->; split; reflexivity|].
  destruct qs as [|q qs]; [congruence|]. intros _. cbn [map].
  destruct (fold_np_minimum_fin qs q) as [a [Ha [A1 [A2 A3]]]].
  destruct (fold_np_maximum_fin qs q) as [b [Hb [B1 [B2 B3]]]].
  exists a, b. split; [exact Ha|]. split; [exact Hb|].
  split; [destruct A3 as [->|]; [left | right]; auto|].
  split; [destruct B3 as [->|]; [left | right]; auto|].
  intros x [<-|Hx]; split; auto; lra || (apply A2 || apply B2; exact Hx).
Qed.

(** A row of the column raises exactly when its value is NaN or the range
    is a single value; otherwise it gets a colour. *)
Lemma rssi_color_range (a b : Q) (v : pyfloat) :
  a <= b -> (v = NaN \/ exists x, v = Fin x /\ a <= x <= b) ->
  (rssi_color (Fin a) (Fin b) v = Raise ValueError <-> v = NaN \/ a == b) /\
  (rssi_color (Fin a) (Fin b) v = Raise ValueError \/ exists c, rssi_color (Fin a) (Fin b) v = Ok c).
Proof.
  intros Hab [->|[x [-> Hx]]]; [rewrite rssi_color_nan; split; [tauto | left; reflexivity]|].
  destruct (Qlt_le_dec a b) as [Hlt|Hge].
  - destruct (rssi_color_fin a b x Hlt Hx) as [E _]. rewrite E.
    split; [split; [discriminate | intros [H|H]; [discriminate | lra]] | right; eauto].
  - rewrite rssi_color_flat by lra. split; [split; [intros _; right; lra | reflexivity] | left; reflexivity].
Qed.

Lemma marker_loop_spec {C : Type} (mn mx : pyfloat) (rows : list (pyfloat * C * C)) :
  (forall v la lo, In (v, la, lo) rows ->
     rssi_color mn mx v = Raise ValueError \/ exists c, rssi_color mn mx v = Ok c) ->
  (forall e, marker_loop mn mx rows = Raise e -> e = ValueError) /\
  (marker_loop mn mx rows = Raise ValueError <->
     exists v la lo, In (v, la, lo) rows /\ rssi_color mn mx v = Raise ValueError) /\
  (forall ms, marker_loop mn mx rows = Ok ms -> length ms = length rows).
Proof.
  induction rows as [|[[v la] lo] rest IH]; intros H; cbn [marker_loop].
  - split; [intros e E; discriminate|]. split; [|intros ms E; injection E as <-; reflexivity].
    split; [discriminate | intros [v [la [lo [[] _]]]]].
  - destruct IH as [I1 [I2 I3]]; [intros v' la' lo' Hin; apply (H v' la' lo'); right; exact Hin|].
    destruct (H v la lo (or_introl eq_refl)) as [Ev|[c Ev]]; rewrite Ev; cbn [res_bind].
    + split; [intros e E; injection E as <-; reflexivity|].
      split; [split; [intros _; exists v, la, lo; split; [left; reflexivity | exact Ev]
                     | intros _; reflexivity]|].
      intros ms E; discriminate.
    + destruct (marker_loop mn mx rest) as [ms|e] eqn:Er; cbn [res_bind].
      * split; [intros e E; discriminate|]. split; [|intros ms' E; injection E as <-; simpl; f_equal; apply I3; reflexivity].
        split; [discriminate|]. intros [v' [la' [lo' [[E|Hin] Hr]]]].
        -- injection E as -> -> ->. congruence.
        -- discriminate (proj2 I2 (ex_intro _ v' (ex_intro _ la' (ex_intro _ lo' (conj Hin Hr))))).
      * split; [exact I1|]. split; [|intros ms E; discriminate].
        split; [intros E; destruct (proj1 I2 E) as [v' [la' [lo' [Hin Hr]]]];
                exists v', la', lo'; split; [right; exact Hin | exact Hr]|].
        intros _. rewrite (I1 e eq_refl). reflexivity.
Qed.

(** A successful loop puts one marker per row, in order, at the row's
    coordinates and in the row's colour. *)
Lemma marker_loop_ok {C : Type} (mn mx : pyfloat) (rows : list (pyfloat * C * C)) ms :
  marker_loop mn mx rows = Ok ms ->
  Forall2 (fun r m => fst m = (snd (fst r), snd r) /\ rssi_color mn mx (fst (fst r)) = Ok (snd m)) rows ms.
Proof.
  revert ms; induction rows as [|[[v la] lo] rest IH]; intros ms H; cbn [marker_loop] in H.
  - injection H as <-. constructor.
  - destruct (rssi_color mn mx v) as [c|e] eqn:Ec; cbn [res_bind] in H; [|discriminate].
    destruct (marker_loop mn mx rest) as [ms'|e] eqn:Er; cbn [res_bind] in H; [|discriminate].
    injection H as <-. constructor; [split; [reflexivity | exact Ec] | apply IH; reflexivity].
Qed.


(** ** Witnesses *)

Lemma rssi_color_spec_witness :
  exists r g c, rssi_color (Fin (-70)) (Fin (-60)) (Fin (-65)) = Ok c /\
    String.length c = 7%nat /\ (254 <= r + g <= 255)%Z.
Proof.
  destruct (rssi_color_spec (-70) (-60) (-65) ltac:(apply Qltb_iff; reflexivity)
              ltac:(split; apply Qle_bool_iff; reflexivity))
    as [r [g [c [E [L [_ [_ [_ [_ [_ [S _]]]]]]]]]]].
  exists r, g, c. split; [exact E|]. split; [exact L | exact S].
Defined.

