(* ===== verification/Geo.v ===== *)
(** * Geodesy over the reals: haversine and bearing

    The trigonometric code of the repository, over Rocq's real numbers:

    - [haversine] of [signal-over-distance.py] (lines 20-27; the same
      function is in [signal-over-line.py] and [signal-over-compass.py]),
      with Python's [math.sqrt], which raises [ValueError] on a negative
      argument, and [math.atan2];
    - [bearing] of [signal-over-compass.py] (lines 41-46; the same in
      [signal-over-line.py]), with Python's float [%].

    Rounding is not modelled: the theorems hold of the exact values.  The
    definitions use real-number decisions, so they are not executable; the
    witnesses instantiate the theorems at points where their hypotheses are
    proved by [lra]. *)

From Stdlib Require Import Reals Lra Lia.
From S2P Require Import Prelude.

Local Open Scope R_scope.
Local Open Scope py_scope.

(** ** Python's [math] functions *)

Definition radians (x : R) : R := x * PI / 180.
Definition degrees (x : R) : R := x * 180 / PI.

(** [math.atan2(y, x)], for non-zero or positive zero arguments. *)
Definition atan2 (y x : R) : R :=
  if Rlt_dec 0 x then atan (y / x)
  else if Rlt_dec x 0 then (if Rle_dec 0 y then atan (y / x) + PI else atan (y / x) - PI)
  else if Rlt_dec 0 y then PI / 2
  else if Rlt_dec y 0 then - (PI / 2)
  else 0.

(** [math.sqrt] *)
Definition py_sqrt (x : R) : res R := if Rlt_dec x 0 then Raise ValueError else Ok (sqrt x).

(** [math.floor] of a float: [up x] is the least integer above [x]. *)
Definition Rfloor (x : R) : Z := (up x - 1)%Z.

(** The float [%] of Python: the result has the sign of the divisor. *)
Definition py_fmod_R (a b : R) : R := a - b * IZR (Rfloor (a / b)).

(** ** [haversine] and [bearing] *)

Definition EARTH_R : R := 6371000.

Definition haversine (lat1 lon1 lat2 lon2 : R) : res R :=
  let phi1 := radians lat1 in
  let phi2 := radians lat2 in
  let dphi := radians (lat2 - lat1) in
  let dlambda := radians (lon2 - lon1) in
  let a := (sin (dphi / 2))² + cos phi1 * cos phi2 * (sin (dlambda / 2))² in
  sa <- py_sqrt a ;; sb <- py_sqrt (1 - a) ;; Ok (2 * EARTH_R * atan2 sa sb).

Definition bearing (lat1 lon1 lat2 lon2 : R) : R :=
  let phi1 := radians lat1 in
  let phi2 := radians lat2 in
  let dlon := radians (lon2 - lon1) in
  let x := sin dlon * cos phi2 in
  let y := cos phi1 * sin phi2 - sin phi1 * cos phi2 * cos dlon in
  py_fmod_R (degrees (atan2 x y) + 360) 360.

(** ** The haversine never raises *)

Lemma atan2_first_quadrant (y x : R) : 0 <= y -> 0 <= x -> 0 <= atan2 y x <= PI / 2.
Proof.
  intros Hy Hx. pose proof PI_RGT_0. unfold atan2.
  destruct (Rlt_dec 0 x) as [Hp|Hp].
  - pose proof (atan_bound (y / x)) as [_ A2]. split; [|lra].
    destruct (Req_dec y 0) as [->|Hy0]; [unfold Rdiv; rewrite Rmult_0_l, atan_0; lra|].
    rewrite <- atan_0. left. apply atan_increasing. apply Rdiv_lt_0_compat; lra.
  - destruct (Rlt_dec x 0); [lra|]. destruct (Rlt_dec 0 y); [lra|].
    destruct (Rlt_dec y 0); lra.
Qed.

Lemma atan2_pos_x (y x : R) : 0 < x -> atan2 y x = atan (y / x).
Proof. intros H. unfold atan2. destruct (Rlt_dec 0 x); [reflexivity | lra]. Qed.

Lemma atan2_opp_y (y x : R) : 0 < x -> atan2 (- y) x = - atan2 y x.
Proof.
  intros H. rewrite !atan2_pos_x by exact H.
  replace (- y / x) with (- (y / x)) by (field; lra). apply atan_opp.
Qed.

Lemma atan_sign (q : R) : (q <= 0 -> atan q <= 0) /\ (0 < q -> 0 < atan q).
Proof.
  split; intros H.
  - destruct (Rle_lt_or_eq_dec _ _ H) as [Hq| ->];
      [left; rewrite <- atan_0; apply atan_increasing, Hq | rewrite atan_0; right; reflexivity].
  - rewrite <- atan_0 at 1. apply atan_increasing, H.
Qed.

(** [math.atan2] answers in [(-pi, pi]]. *)
Lemma atan2_range (y x : R) : - PI < atan2 y x <= PI.
Proof.
  pose proof PI_RGT_0. pose proof (atan_bound (y / x)) as [A1 A2]. unfold atan2.
  destruct (Rlt_dec 0 x); [lra|]. destruct (Rlt_dec x 0) as [Hx|Hx].
  - assert (Hq : y / x * x = y) by (field; lra).
    destruct (Rle_dec 0 y).
    + assert (atan (y / x) <= 0) by (apply atan_sign; nra). lra.
    + assert (0 < atan (y / x)) by (apply atan_sign; nra). lra.
  - destruct (Rlt_dec 0 y); [lra|]. destruct (Rlt_dec y 0); lra.
Qed.

Lemma degrees_lt (s t : R) : s < t -> degrees s < degrees t.
Proof.
  intros H. unfold degrees, Rdiv. apply Rmult_lt_compat_r; [apply Rinv_0_lt_compat, PI_RGT_0 | lra].
Qed.

Lemma degrees_le (s t : R) : s <= t -> degrees s <= degrees t.
Proof. intros [H| ->]; [left; apply degrees_lt, H | right; reflexivity]. Qed.

Lemma degrees_opp (t : R) : degrees (- t) = - degrees t.
Proof. unfold degrees. field. apply PI_neq0. Qed.

Lemma degrees_PI : degrees PI = 180 /\ degrees (PI / 2) = 90 /\ degrees 0 = 0.
Proof. unfold degrees. pose proof PI_neq0. repeat split; field; assumption. Qed.

Lemma degrees_atan_bound (q : R) : -90 < degrees (atan q) < 90.
Proof.
  destruct degrees_PI as [_ [D2 _]]. pose proof (atan_bound q) as [A1 A2].
  apply degrees_lt in A2. rewrite D2 in A2. split; [|exact A2].
  assert (A1' : - (PI / 2) < atan q) by lra. apply degrees_lt in A1'.
  rewrite degrees_opp, D2 in A1'. exact A1'.
Qed.

Lemma degrees_atan2_range (y x : R) : -180 < degrees (atan2 y x) <= 180.
Proof.
  destruct degrees_PI as [D1 _]. pose proof (atan2_range y x) as [B1 B2].
  apply degrees_lt in B1. apply degrees_le in B2. rewrite degrees_opp, D1 in B1. rewrite D1 in B2.
  split; assumption.
Qed.

Lemma py_sqrt_ok (x : R) : 0 <= x -> py_sqrt x = Ok (sqrt x).
Proof. intros Hx. unfold py_sqrt. destruct (Rlt_dec x 0); [lra | reflexivity]. Qed.

Lemma sin_half_sqr (x : R) : (sin (x / 2))² = (1 - cos x) / 2.
Proof.
  pose proof (cos_2a_sin (x / 2)) as H. replace (2 * (x / 2)) with x in H by field.
  unfold Rsqr. lra.
Qed.

(** The haversine argument lies in [[0, 1]] for latitudes in
    [[-90, 90]]. *)
Lemma haversine_arg_bounds (lat1 lon1 lat2 lon2 : R) :
  -90 <= lat1 <= 90 -> -90 <= lat2 <= 90 ->
  let a := (sin (radians (lat2 - lat1) / 2))² +
           cos (radians lat1) * cos (radians lat2) * (sin (radians (lon2 - lon1) / 2))² in
  0 <= a <= 1.
Proof.
  intros H1 H2 a. pose proof PI_RGT_0.
  assert (Hc : forall l, -90 <= l <= 90 -> 0 <= cos (radians l)).
  { intros l Hl. apply cos_ge_0; unfold radians.
    - assert (-90 * PI <= l * PI) by (apply Rmult_le_compat_r; lra). lra.
    - assert (l * PI <= 90 * PI) by (apply Rmult_le_compat_r; lra). lra. }
  pose proof (Hc _ H1) as C1. pose proof (Hc _ H2) as C2.
  assert (S0 : 0 <= (sin (radians (lon2 - lon1) / 2))² <= 1).
  { split; [apply Rle_0_sqr|]. rewrite sin_half_sqr. pose proof (COS_bound (radians (lon2 - lon1))). lra. }
  assert (P : 0 <= cos (radians lat1) * cos (radians lat2)) by (apply Rmult_le_pos; assumption).
  unfold a. split.
  - apply Rplus_le_le_0_compat; [apply Rle_0_sqr | apply Rmult_le_pos; lra].
  - rewrite sin_half_sqr.
    replace (radians (lat2 - lat1)) with (radians lat2 - radians lat1) by (unfold radians; field).
    rewrite cos_minus. pose proof (cos_plus (radians lat1) (radians lat2)) as Cp.
    pose proof (COS_bound (radians lat1 + radians lat2)).
    assert (cos (radians lat1) * cos (radians lat2) * (sin (radians (lon2 - lon1) / 2))²
            <= cos (radians lat1) * cos (radians lat2))
      by (rewrite <- (Rmult_1_r (cos (radians lat1) * cos (radians lat2))) at 2;
          apply Rmult_le_compat_l; lra).
    lra.
Qed.

Lemma haversine_ok_bounds (lat1 lon1 lat2 lon2 : R) :
  -90 <= lat1 <= 90 -> -90 <= lat2 <= 90 ->
  exists d, haversine lat1 lon1 lat2 lon2 = Ok d /\ 0 <= d <= PI * EARTH_R.
Proof.
  intros H1 H2. pose proof (haversine_arg_bounds lat1 lon1 lat2 lon2 H1 H2) as Ha.
  unfold haversine. cbv zeta.
  set (a := (sin (radians (lat2 - lat1) / 2))² +
            cos (radians lat1) * cos (radians lat2) * (sin (radians (lon2 - lon1) / 2))²) in *.
  rewrite (py_sqrt_ok a), (py_sqrt_ok (1 - a)) by lra. cbn [res_bind].
  eexists. split; [reflexivity|].
  pose proof (atan2_first_quadrant (sqrt a) (sqrt (1 - a)) (sqrt_pos _) (sqrt_pos _)).
  unfold EARTH_R in *. lra.
Qed.

(** C28. [haversine] never raises for latitudes in [[-90, 90]]: both
    square roots have non-negative arguments.  Its value lies between 0 and
    half the circumference of the Earth sphere, [pi * 6371000] m. *)
Theorem haversine_safe (lat1 lon1 lat2 lon2 : R) :
  -90 <= lat1 <= 90 -> -90 <= lat2 <= 90 ->
  exists d, haversine lat1 lon1 lat2 lon2 = Ok d /\ 0 <= d <= PI * EARTH_R.
Proof. apply haversine_ok_bounds. Qed.

(** The distance of a point to itself is 0, and the distance does not
    depend on the order of the two points (errors included). *)
Theorem haversine_zero_sym (lat1 lon1 lat2 lon2 : R) :
  haversine lat1 lon1 lat1 lon1 = Ok 0 /\
  haversine lat1 lon1 lat2 lon2 = haversine lat2 lon2 lat1 lon1.
Proof.
  split.
  - unfold haversine. cbv zeta. rewrite !Rminus_diag.
    assert (Z : radians 0 / 2 = 0) by (unfold radians; field; apply PI_neq0).
    rewrite Z, sin_0.
    replace (0² + cos (radians lat1) * cos (radians lat1) * 0²) with 0 by (unfold Rsqr; ring).
    rewrite (py_sqrt_ok 0) by lra. rewrite Rminus_0_r, (py_sqrt_ok 1) by lra.
    cbn [res_bind]. rewrite sqrt_0, sqrt_1. unfold atan2.
    destruct (Rlt_dec 0 1); [|lra]. unfold Rdiv. rewrite Rmult_0_l, atan_0. f_equal. ring.
  - unfold haversine. cbv zeta.
    replace (radians (lat1 - lat2) / 2) with (- (radians (lat2 - lat1) / 2)) by (unfold radians; field).
    replace (radians (lon1 - lon2) / 2) with (- (radians (lon2 - lon1) / 2)) by (unfold radians; field).
    rewrite !sin_neg, <- !Rsqr_neg, (Rmult_comm (cos (radians lat2)) (cos (radians lat1))).
    reflexivity.
Qed.

Lemma Rfloor_spec (x : R) : IZR (Rfloor x) <= x < IZR (Rfloor x) + 1.
Proof.
  unfold Rfloor. rewrite minus_IZR. destruct (archimed x) as [H1 H2]. simpl. lra.
Qed.

Lemma py_fmod_R_range (a b : R) : 0 < b -> 0 <= py_fmod_R a b < b.
Proof.
  intros Hb. unfold py_fmod_R. destruct (Rfloor_spec (a / b)) as [F1 F2].
  assert (E : b * (a / b) = a) by (field; lra).
  assert (b * IZR (Rfloor (a / b)) <= b * (a / b)) by (apply Rmult_le_compat_l; lra).
  assert (b * (a / b) < b * (IZR (Rfloor (a / b)) + 1)) by (apply Rmult_lt_compat_l; lra).
  lra.
Qed.

Lemma Rfloor_small (x : R) : 0 <= x < 1 -> Rfloor x = 0%Z.
Proof.
  intros Hx. destruct (Rfloor_spec x) as [F1 F2].
  assert (A : (Rfloor x < 1)%Z) by (apply lt_IZR; lra).
  assert (B : (-1 < Rfloor x)%Z) by (apply lt_IZR; simpl; lra).
  lia.
Qed.

(** The float [%] leaves a value of [[0, b)] as it is. *)
Lemma py_fmod_R_id (a b : R) : 0 < b -> 0 <= a < b -> py_fmod_R a b = a.
Proof.
  intros Hb Ha. unfold py_fmod_R. rewrite Rfloor_small; [simpl; ring|].
  split; [unfold Rdiv; apply Rmult_le_pos; [lra | left; apply Rinv_0_lt_compat; lra]|]. apply (Rmult_lt_reg_r b); [lra|]. field_simplify; lra.
Qed.

(** [bearing] is a compass heading: it lies in [[0, 360)] for every
    pair of points, which the 5-degree slices of [signal-over-compass.py]
    rely on. *)
Theorem bearing_range (lat1 lon1 lat2 lon2 : R) : 0 <= bearing lat1 lon1 lat2 lon2 < 360.
Proof. unfold bearing. apply py_fmod_R_range. lra. Qed.

Lemma haversine_safe_witness :
  exists d, haversine 53 (-1 / 2) (-53) (1 / 2) = Ok d /\ 0 <= d <= PI * EARTH_R.
Proof. apply haversine_safe; lra. Defined.
