(* ===== verification/Ecef.v ===== *)
(** * [map_generator.py]: ECEF to latitude, longitude and altitude

    [map_generator.py] reads Earth-centred Earth-fixed coordinates and
    converts each row with [ecef_to_lla] (lines 5-22): the closed form of
    Bowring for the WGS84 ellipsoid, with [numpy]'s [sqrt], [arctan2],
    [sin], [cos] and [degrees], then appends the three results to three
    lists (lines 28-33), which become the columns [lat], [lon] and [alt]
    (lines 35-37).  The model is over the reals, with [atan2], [degrees]
    and the like of [Geo]; rounding is not modelled.  Every [np.sqrt]
    argument here is non-negative, so the numpy NaN of a negative
    argument never arises; a division by [cos lat = 0] is Rocq's [x / 0 = 0]
    where numpy gives an infinity, which the theorems avoid by assuming
    the point farther from the axis than [e_sq * a] (about 42.7 km), true of
    every point near the surface.

    The theorems: away from the axis the latitude lies strictly between
    the poles, and the longitude always lies in [(-180, 180]]; on the
    equatorial plane the latitude is 0 and the altitude the distance to
    the axis less [a]; mirroring a point across the equatorial plane
    mirrors its latitude; and the script draws one marker per row, in order, at the converted position and in
    the colour of the row's RSSI. *)

From Stdlib Require Import QArith Reals Lra List String.
From S2P Require Import Prelude PyFloat Colour Geo.
Import ListNotations.

Local Open Scope R_scope.

(** WGS84: [a = 6378137.0], [e_sq = 6.69437999014e-3]. *)
Definition a : R := 6378137.
Definition e_sq : R := 669437999014 / 100000000000000.

Definition ecef_to_lla (x y z : R) : R * R * R :=
  let b := sqrt (a ^ 2 * (1 - e_sq)) in
  let ep := sqrt ((a ^ 2 - b ^ 2) / b ^ 2) in
  let p := sqrt (x ^ 2 + y ^ 2) in
  let th := atan2 (a * z) (b * p) in
  let lon := atan2 y x in
  let lat := atan2 (z + ep ^ 2 * b * sin th ^ 3) (p - e_sq * a * cos th ^ 3) in
  let N := a / sqrt (1 - e_sq * sin lat ^ 2) in
  let alt := p / cos lat - N in
  (degrees lat, degrees lon, alt).

(** Lines 28-33: three lists, one [append] each per row. *)
Fixpoint ecef_loop (rows : list (R * R * R)) (latitudes longitudes altitudes : list R)
  : list R * list R * list R :=
  match rows with
  | [] => (latitudes, longitudes, altitudes)
  | (x, y, z) :: rest =>
      let '(lat, lon, alt) := ecef_to_lla x y z in
      ecef_loop rest (latitudes ++ [lat]) (longitudes ++ [lon]) (altitudes ++ [alt])
  end.

Definition convert_ecef (rows : list (R * R * R)) : list R * list R * list R :=
  ecef_loop rows [] [] [].

(** A row of [20251113.csv]: [rssi, x, y, z]; [heading] is only printed. *)
Definition ecef_rssi (r : pyfloat * R * R * R) : pyfloat := let '(v, _, _, _) := r in v.
Definition ecef_xyz (r : pyfloat * R * R * R) : R * R * R := let '(_, x, y, z) := r in (x, y, z).

(** The script after loading: the columns [lat], [lon], [alt] (lines
    28-37), then one marker per row coloured by its RSSI (lines 43-59,
    [Colour.color_markers]). *)
Definition map_generator (rows : list (pyfloat * R * R * R)) : res (list (R * R * string)) :=
  let '(latitudes, longitudes, altitudes) := convert_ecef (map ecef_xyz rows) in
  color_markers (zip3 (map ecef_rssi rows) latitudes longitudes).

(** ** The conversion loop *)

Definition row_lla (r : R * R * R) : R * R * R := let '(x, y, z) := r in ecef_to_lla x y z.

Lemma ecef_loop_spec (rows : list (R * R * R)) (l1 l2 l3 : list R) :
  ecef_loop rows l1 l2 l3
  = (l1 ++ map (fun r => fst (fst (row_lla r))) rows,
     l2 ++ map (fun r => snd (fst (row_lla r))) rows,
     l3 ++ map (fun r => snd (row_lla r)) rows).
Proof.
  revert l1 l2 l3; induction rows as [|[[x y] z] rows IH]; intros l1 l2 l3; cbn [ecef_loop map].
  - rewrite !app_nil_r. reflexivity.
  - change (row_lla (x, y, z)) with (ecef_to_lla x y z). destruct (ecef_to_lla x y z) as [[la lo] al].
    rewrite IH, <- !app_assoc. reflexivity.
Qed.

(** ** Constants *)

Lemma e_sq_bounds : 0 < e_sq < 1.
Proof. unfold e_sq. lra. Qed.

Lemma a_pos : 0 < a.
Proof. unfold a. lra. Qed.

Lemma semi_minor_pos : 0 < sqrt (a ^ 2 * (1 - e_sq)).
Proof.
  apply sqrt_lt_R0. pose proof a_pos. pose proof e_sq_bounds.
  apply Rmult_lt_0_compat; [apply pow_lt|]; lra.
Qed.

Lemma cube_le_1 (c : R) : -1 <= c <= 1 -> c ^ 3 <= 1.
Proof. intros H. replace (c ^ 3) with (c * c * c) by ring. nra. Qed.

(** Away from the axis the denominator of the latitude is positive. *)
Lemma lat_denominator_pos (p th : R) : e_sq * a < p -> 0 < p - e_sq * a * cos th ^ 3.
Proof.
  intros Hp. pose proof (cube_le_1 (cos th) (COS_bound th)).
  pose proof e_sq_bounds. pose proof a_pos.
  assert (e_sq * a * cos th ^ 3 <= e_sq * a * 1)
    by (apply Rmult_le_compat_l; [nra | exact H]). lra.
Qed.

Lemma ecef_axis_pos (x y : R) : e_sq * a < sqrt (x ^ 2 + y ^ 2) ->
  0 < sqrt (x ^ 2 + y ^ 2) /\ 0 < sqrt (a ^ 2 * (1 - e_sq)) * sqrt (x ^ 2 + y ^ 2).
Proof.
  intros Hp. pose proof e_sq_bounds. pose proof a_pos. pose proof semi_minor_pos.
  assert (0 < sqrt (x ^ 2 + y ^ 2)) by nra. split; [assumption | nra].
Qed.

(** C30. Away from the polar axis ([e_sq * a] is about 42.7 km) the
    latitude [ecef_to_lla] computes lies strictly between -90 and 90
    degrees; its longitude always lies in [(-180, 180]]. *)
Theorem ecef_to_lla_bounds (x y z : R) :
  e_sq * a < sqrt (x ^ 2 + y ^ 2) ->
  -90 < fst (fst (ecef_to_lla x y z)) < 90 /\ -180 < snd (fst (ecef_to_lla x y z)) <= 180.
Proof.
  intros Hp. unfold ecef_to_lla. cbv zeta. cbn [fst snd].
  rewrite atan2_pos_x by (apply lat_denominator_pos, Hp).
  split; [apply degrees_atan_bound | apply degrees_atan2_range].
Qed.

(** A point of the equatorial plane, away from the axis, is at
    latitude 0, at the longitude of its direction in the plane, and at the
    altitude of its distance to the axis less the equatorial radius [a]. *)
Theorem ecef_to_lla_equator (x y : R) :
  e_sq * a < sqrt (x ^ 2 + y ^ 2) ->
  ecef_to_lla x y 0 = (0, degrees (atan2 y x), sqrt (x ^ 2 + y ^ 2) - a).
Proof.
  intros Hp. destruct (ecef_axis_pos x y Hp) as [_ Hbp].
  unfold ecef_to_lla. cbv zeta.
  set (b := sqrt (a ^ 2 * (1 - e_sq))) in *. set (p := sqrt (x ^ 2 + y ^ 2)) in *.
  rewrite Rmult_0_r, (atan2_pos_x 0 (b * p)) by exact Hbp.
  replace (0 / (b * p)) with 0 by (unfold Rdiv; ring). rewrite atan_0, sin_0, cos_0.
  assert (D : 0 < p - e_sq * a * 1 ^ 3) by (rewrite <- cos_0; apply lat_denominator_pos, Hp).
  rewrite atan2_pos_x by exact D.
  replace ((0 + sqrt ((a ^ 2 - b ^ 2) / b ^ 2) ^ 2 * b * 0 ^ 3) / (p - e_sq * a * 1 ^ 3)) with 0
    by (field; lra).
  rewrite atan_0, sin_0, cos_0. destruct degrees_PI as [_ [_ ->]].
  replace (1 - e_sq * 0 ^ 2) with 1 by ring. rewrite sqrt_1. f_equal. field.
Qed.

(** Mirroring a point across the equatorial plane mirrors its latitude
    and keeps its longitude and altitude. *)
Theorem ecef_to_lla_mirror (x y z : R) :
  e_sq * a < sqrt (x ^ 2 + y ^ 2) ->
  ecef_to_lla x y (- z)
  = (- fst (fst (ecef_to_lla x y z)), snd (fst (ecef_to_lla x y z)), snd (ecef_to_lla x y z)).
Proof.
  intros Hp. destruct (ecef_axis_pos x y Hp) as [_ Hbp].
  unfold ecef_to_lla. cbv zeta. cbn [fst snd].
  set (b := sqrt (a ^ 2 * (1 - e_sq))) in *. set (p := sqrt (x ^ 2 + y ^ 2)) in *.
  set (ep := sqrt ((a ^ 2 - b ^ 2) / b ^ 2)).
  replace (a * - z) with (- (a * z)) by ring. rewrite atan2_opp_y by exact Hbp.
  set (th := atan2 (a * z) (b * p)). rewrite sin_neg, cos_neg.
  replace (- z + ep ^ 2 * b * (- sin th) ^ 3) with (- (z + ep ^ 2 * b * sin th ^ 3)) by ring.
  rewrite atan2_opp_y by (apply lat_denominator_pos, Hp).
  set (lat := atan2 (z + ep ^ 2 * b * sin th ^ 3) (p - e_sq * a * cos th ^ 3)).
  rewrite sin_neg, cos_neg, degrees_opp. replace ((- sin lat) ^ 2) with (sin lat ^ 2) by ring.
  reflexivity.
Qed.

(** C31. What [map_generator.py] draws: when it succeeds, one marker per
    row, in the rows' order, placed at the latitude and longitude
    [ecef_to_lla] computes from that row's [x, y, z], in the colour of that
    row's RSSI on the scale of the whole column. *)
Theorem map_generator_markers (rows : list (pyfloat * R * R * R)) (ms : list (R * R * string)) :
  map_generator rows = Ok ms ->
  Forall2 (fun r m =>
    fst m = (fst (fst (row_lla (ecef_xyz r))), snd (fst (row_lla (ecef_xyz r)))) /\
    rssi_color (series_min (map ecef_rssi rows)) (series_max (map ecef_rssi rows)) (ecef_rssi r)
      = Ok (snd m)) rows ms.
Proof.
  unfold map_generator, convert_ecef. rewrite ecef_loop_spec. cbn [app]. rewrite !map_map.
  rewrite zip3_map_same. unfold color_markers. rewrite map_map. intros H.
  apply marker_loop_ok, Forall2_map_l in H. exact H.
Qed.

(** ** Witnesses *)

(** The point of the equator on the prime meridian, at sea level. *)
Lemma equator_point_off_axis : e_sq * a < sqrt (a ^ 2 + 0 ^ 2).
Proof.
  replace (a ^ 2 + 0 ^ 2) with (a ^ 2) by ring. rewrite sqrt_pow2 by (left; apply a_pos).
  unfold e_sq, a. lra.
Qed.

Lemma ecef_to_lla_bounds_witness :
  -90 < fst (fst (ecef_to_lla a 0 1000)) < 90 /\ -180 < snd (fst (ecef_to_lla a 0 1000)) <= 180.
Proof. apply ecef_to_lla_bounds, equator_point_off_axis. Defined.

Lemma ecef_to_lla_equator_witness : ecef_to_lla a 0 0 = (0, 0, 0).
Proof.
  rewrite (ecef_to_lla_equator a 0 equator_point_off_axis).
  rewrite atan2_pos_x by apply a_pos. replace (0 / a) with 0 by (unfold Rdiv; ring).
  rewrite atan_0. destruct degrees_PI as [_ [_ ->]].
  replace (a ^ 2 + 0 ^ 2) with (a ^ 2) by ring. rewrite sqrt_pow2 by (left; apply a_pos).
  f_equal. ring.
Defined.

Lemma map_generator_markers_witness :
  exists ms, map_generator [(Fin (-50)%Q, a, 0, 0); (Fin (-70)%Q, 0, a, 0)] = Ok ms /\ List.length ms = 2%nat.
Proof.
  eexists. split; [reflexivity|].
  match goal with |- List.length ?ms = _ =>
    pose proof (Forall2_length (map_generator_markers
                  [(Fin (-50)%Q, a, 0, 0); (Fin (-70)%Q, 0, a, 0)] ms eq_refl)) as L end.
  rewrite <- L. reflexivity.
Defined.
