(* ===== verification/Lines.v ===== *)
(** * The distance and bearing columns of [signal-over-distance.py] and [signal-over-line.py]

    Both scripts fix a base station ([BASE_LAT], [BASE_LON]) and compute,
    for every row of the CSV, its distance to the base with [haversine]
    ([df.apply(..., axis=1)], [signal-over-distance.py] lines 38-39 and
    [signal-over-line.py] lines 56-57); [signal-over-line.py] also
    computes the bearing from the base (lines 59-60) and keeps the rows
    whose bearing is within [HEADING_TOLERANCE] of [TARGET_HEADING]
    (lines 66-71).  The model is over the reals, with [haversine] and
    [bearing] of [Geo] (the copies in the two scripts are the same
    functions); [df.apply] evaluates row by row, and the first exception
    stops it.  A missing coordinate is NaN in pandas and propagates
    through the trigonometry; NaN is not a real number, so the theorems
    assume every latitude in [[-90, 90]].

    The theorems: the distance column never raises for valid latitudes
    and holds one distance in [[0, pi * R]] per row; [angle_diff] against
    180 of a bearing is its distance to 180; and the slice of
    [signal-over-line.py] keeps, in order, exactly the rows whose bearing
    lies in [[178, 182]]. *)

From Stdlib Require Import Reals Lra List.
From S2P Require Import Prelude Geo.
Import ListNotations.

Local Open Scope R_scope.
Local Open Scope py_scope.

(** [BASE_LAT = 53.268339893585555], [BASE_LON = -0.5298533178776605]. *)
Definition BASE_LAT : R := 53268339893585555 / 1000000000000000.
Definition BASE_LON : R := - (5298533178776605 / 10000000000000000).

(** [TARGET_HEADING = 180], [HEADING_TOLERANCE = 2]. *)
Definition LINE_TARGET : R := 180.
Definition LINE_TOLERANCE : R := 2.

(** A row [(rssi, lat, lon)] of the CSV ([alt] and [heading] are unused). *)
Definition row : Type := (R * R * R)%type.

Definition row_lat (r : row) : R := let '(_, la, _) := r in la.
Definition row_lon (r : row) : R := let '(_, _, lo) := r in lo.

(** [df["distance_m"] = df.apply(lambda row: haversine(BASE_LAT, BASE_LON,
    row["lat"], row["lon"]), axis=1)] *)
Fixpoint distance_column (rows : list row) : res (list R) :=
  match rows with
  | [] => Ok []
  | r :: rest =>
      d <- haversine BASE_LAT BASE_LON (row_lat r) (row_lon r) ;;
      ds <- distance_column rest ;;
      Ok (d :: ds)
  end.

(** [df["bearing_deg"] = df.apply(lambda row: bearing(BASE_LAT, BASE_LON,
    row["lat"], row["lon"]), axis=1)] *)
Definition bearing_column (rows : list row) : list R :=
  map (fun r => bearing BASE_LAT BASE_LON (row_lat r) (row_lon r)) rows.

(** Python's [min(x, y)]: [y] only when it is smaller. *)
Definition py_min_R (x y : R) : R := if Rlt_dec y x then y else x.

Definition angle_diff_R (a b : R) : R :=
  let d := py_fmod_R (Rabs (a - b)) 360 in
  py_min_R d (360 - d).

Definition in_line_slice (b : R) : bool :=
  if Rle_dec (angle_diff_R b LINE_TARGET) LINE_TOLERANCE then true else false.

(** [signal-over-line.py] lines 56-71: the two columns, then [df_slice];
    a kept row is [(row, distance_m, bearing_deg)]. *)
Definition signal_over_line (rows : list row) : res (list (row * R * R)) :=
  ds <- distance_column rows ;;
  let bs := bearing_column rows in
  Ok (filter (fun '(_, _, b) => in_line_slice b) (zip3 rows ds bs)).

(** ** The distance column *)

Definition valid_lat (r : row) : Prop := -90 <= row_lat r <= 90.

Lemma distance_column_ok (rows : list row) :
  Forall valid_lat rows ->
  exists ds, distance_column rows = Ok ds /\ length ds = length rows /\
    Forall (fun d => 0 <= d <= PI * EARTH_R) ds.
Proof.
  induction 1 as [|r rest Hr _ IH]; [exists []; repeat constructor|].
  destruct IH as [ds [E [L F]]].
  assert (HB : -90 <= BASE_LAT <= 90) by (unfold BASE_LAT; lra).
  destruct (haversine_ok_bounds BASE_LAT BASE_LON (row_lat r) (row_lon r) HB Hr) as [d [Ed Bd]].
  exists (d :: ds). cbn [distance_column]. rewrite Ed. cbn [res_bind]. rewrite E.
  repeat split; [simpl; rewrite L; reflexivity | constructor; assumption].
Qed.

(** ** [angle_diff] against the target heading *)

Lemma py_min_R_le (x y : R) : x <= y -> py_min_R x y = x.
Proof. intros H. unfold py_min_R. destruct (Rlt_dec y x); [lra | reflexivity]. Qed.

(** For a compass bearing, [angle_diff(b, 180)] is [|b - 180|]. *)
Lemma angle_diff_R_target (b : R) : 0 <= b < 360 -> angle_diff_R b LINE_TARGET = Rabs (b - 180).
Proof.
  intros Hb. unfold angle_diff_R, LINE_TARGET.
  assert (A : 0 <= Rabs (b - 180) <= 180) by (split; [apply Rabs_pos | apply Rabs_le; lra]).
  rewrite py_fmod_R_id by lra. apply py_min_R_le. lra.
Qed.

Lemma in_line_slice_iff (b : R) :
  0 <= b < 360 -> in_line_slice b = true <-> 178 <= b <= 182.
Proof.
  intros Hb. unfold in_line_slice. rewrite angle_diff_R_target by exact Hb.
  unfold LINE_TOLERANCE. destruct (Rle_dec (Rabs (b - 180)) 2) as [H|H].
  - split; [intros _ | reflexivity]. revert H; unfold Rabs; destruct Rcase_abs; lra.
  - split; [discriminate|]. intros Hin. exfalso. apply H. apply Rabs_le. lra.
Qed.

(** ** The slice *)

Lemma bearing_compass (lat1 lon1 lat2 lon2 : R) : 0 <= bearing lat1 lon1 lat2 lon2 < 360.
Proof. unfold bearing. apply py_fmod_R_range. lra. Qed.

(** An entry of the three zipped columns is a row, one of the distances,
    and the row's own bearing. *)
Lemma in_line_columns (rows : list row) (ds : list R) r d b :
  In (r, d, b) (zip3 rows ds (bearing_column rows)) ->
  In r rows /\ In d ds /\ b = bearing BASE_LAT BASE_LON (row_lat r) (row_lon r).
Proof.
  intros H. destruct (in_zip3 _ _ _ _ _ _ H) as [i [_ [_ [_ [Er [Ed Eb]]]]]].
  unfold bearing_column in Eb. rewrite nth_error_map, Er in Eb. cbn in Eb.
  injection Eb as <-. split; [eapply nth_error_In; exact Er|]. split; [eapply nth_error_In; exact Ed | reflexivity].
Qed.

(** C18. The slice of [signal-over-line.py]: for valid latitudes the script
    never raises; a row of the zipped columns is kept exactly when its
    bearing lies in [[178, 182]], and every kept row is an input row with
    its distance to the base, in [[0, pi * R]], and its own bearing. *)
Theorem signal_over_line_slice (rows : list row) :
  Forall valid_lat rows ->
  exists ds sl, distance_column rows = Ok ds /\ signal_over_line rows = Ok sl /\
    (forall r d b, In (r, d, b) (zip3 rows ds (bearing_column rows)) ->
       (In (r, d, b) sl <-> 178 <= b <= 182)) /\
    (forall r d b, In (r, d, b) sl ->
       In r rows /\ 0 <= d <= PI * EARTH_R /\
       b = bearing BASE_LAT BASE_LON (row_lat r) (row_lon r) /\ 178 <= b <= 182).
Proof.
  intros Hv. destruct (distance_column_ok rows Hv) as [ds [E [_ F]]].
  unfold signal_over_line. rewrite E. cbn [res_bind].
  eexists ds, _. split; [reflexivity|]. split; [reflexivity|].
  assert (K : forall r d b, In (r, d, b) (zip3 rows ds (bearing_column rows)) ->
            (in_line_slice b = true <-> 178 <= b <= 182)).
  { intros r d b Hin. destruct (in_line_columns _ _ _ _ _ Hin) as [_ [_ ->]].
    apply in_line_slice_iff, bearing_compass. }
  split.
  - intros r d b Hin. rewrite filter_In. specialize (K r d b Hin). tauto.
  - intros r d b Hin. apply filter_In in Hin as [Hin Hk].
    destruct (in_line_columns _ _ _ _ _ Hin) as [Hr [Hd Hb]].
    split; [exact Hr|]. split; [eapply Forall_forall in F; [exact F | exact Hd]|].
    split; [exact Hb | apply (K r d b Hin); exact Hk].
Qed.

(** ** Witnesses *)

Lemma signal_over_line_slice_witness :
  exists ds sl, distance_column [(-60, 53, -1 / 2); (-70, 54, 0)] = Ok ds /\
                signal_over_line [(-60, 53, -1 / 2); (-70, 54, 0)] = Ok sl.
Proof.
  destruct (signal_over_line_slice [(-60, 53, -1 / 2); (-70, 54, 0)])
    as [ds [sl [E1 [E2 _]]]];
    [repeat constructor; unfold valid_lat, row_lat; lra|].
  exists ds, sl. split; assumption.
Defined.
