(* ===== verification/Centre.v ===== *)
(** * The map centre of [heatmap_gstools.py]: pandas' [median]

    [main] of [heatmap_gstools.py] centres its map at
    [df["lat"].median()], [df["lon"].median()] (lines 280-282,
    [Pipeline.pd_median], which sorts the column by insertion,
    [Pipeline.sort_q]).

    The lemmas: [sort_q] is a sorted permutation of its input (the
    contract of a sort); the median of a non-empty column is a value with
    at least half of the column at or below it and at least half at or
    above it, between two values of the column.  The theorem: the centre
    that a successful [main_heatmap] returns is such a median of the
    [lat] column and of the [lon] column, in that order, and never NaN. *)

From Stdlib Require Import QArith ZArith Qminmax Lqa Arith List Lia Permutation Sorting.Sorted.
From S2P Require Import Prelude PyFloat NdArray Grid Weights Backend Variogram Kriging Pipeline.
Import ListNotations.

Local Open Scope py_scope.

(** How many values of [l] lie at or below, and at or above, [m]. *)
Definition count_le (m : Q) (l : list Q) : nat := length (filter (fun x => Qle_bool x m) l).
Definition count_ge (m : Q) (l : list Q) : nat := length (filter (fun x => Qle_bool m x) l).

(** [m] is a median of [l]: at least half of the column lies at or below
    it, at least half at or above it, and it lies between two values of
    the column. *)
Definition median_of (m : Q) (l : list Q) : Prop :=
  (length l <= 2 * count_le m l)%nat /\ (length l <= 2 * count_ge m l)%nat /\
  exists lo hi, In lo l /\ In hi l /\ lo <= m <= hi.

(** ** [sort_q] is a sort *)

Lemma insert_q_perm (a : Q) (l : list Q) : Permutation (insert_q a l) (a :: l).
Proof.
  induction l as [|b l IH]; simpl; [reflexivity|].
  destruct (Qle_bool a b); [reflexivity|].
  eapply perm_trans; [apply perm_skip, IH | apply perm_swap].
Qed.

Lemma sort_q_perm (l : list Q) : Permutation (sort_q l) l.
Proof.
  induction l as [|a l IH]; unfold sort_q in *; simpl; [reflexivity|].
  eapply perm_trans; [apply insert_q_perm | apply perm_skip, IH].
Qed.

Lemma Forall_perm {A} (P : A -> Prop) (l l' : list A) :
  Permutation l l' -> Forall P l' -> Forall P l.
Proof.
  intros Hp H. apply Forall_forall. intros x Hx.
  eapply Forall_forall; [exact H | eapply Permutation_in; eassumption].
Qed.

Lemma insert_q_sorted (a : Q) (l : list Q) :
  StronglySorted Qle l -> StronglySorted Qle (insert_q a l).
Proof.
  induction l as [|b l IH]; intros H; simpl; [repeat constructor|].
  apply StronglySorted_inv in H as [Hl Hb].
  destruct (Qle_bool a b) eqn:E.
  - apply Qle_bool_iff in E. constructor; [constructor; assumption|].
    constructor; [exact E|]. eapply Forall_impl; [|exact Hb]. intros x Hx. lra.
  - assert (b <= a) by (apply Qnot_lt_le; intros C; apply Qlt_le_weak, Qle_bool_iff in C; congruence).
    constructor; [apply IH, Hl|].
    eapply Forall_perm; [apply insert_q_perm | constructor; assumption].
Qed.

Lemma sort_q_sorted (l : list Q) : StronglySorted Qle (sort_q l).
Proof.
  induction l as [|a l IH]; unfold sort_q in *; simpl; [constructor|].
  apply insert_q_sorted, IH.
Qed.

(** ** Counting around a value *)

Lemma filter_length_mono {A} (f g : A -> bool) (l : list A) :
  (forall x, In x l -> f x = true -> g x = true) ->
  (length (filter f l) <= length (filter g l))%nat.
Proof.
  induction l as [|a l IH]; intros H; simpl; [lia|].
  assert (IH' := IH (fun x Hx => H x (or_intror Hx))).
  destruct (f a) eqn:Ef; [rewrite (H a (or_introl eq_refl) Ef); simpl; lia|].
  destruct (g a); simpl; lia.
Qed.

Lemma filter_length_perm {A} (f : A -> bool) (l l' : list A) :
  Permutation l l' -> length (filter f l) = length (filter f l').
Proof.
  induction 1 as [|x l l' _ IH|x y l|l l' l'' _ IH1 _ IH2]; simpl;
    [reflexivity | destruct (f x); simpl; lia | destruct (f x), (f y); reflexivity | lia].
Qed.

(** In a sorted list, the value at position [k] has the [k + 1] first
    values at or below it and the [n - k] last at or above it. *)
Lemma sorted_counts (s : list Q) (k : nat) :
  StronglySorted Qle s -> (k < length s)%nat ->
  (S k <= count_le (nth k s 0%Q) s)%nat /\ (length s - k <= count_ge (nth k s 0%Q) s)%nat.
Proof.
  unfold count_le, count_ge. revert k; induction s as [|a s IH]; intros k H Hk; [simpl in Hk; lia|].
  apply StronglySorted_inv in H as [Hs Ha].
  destruct k as [|k]; cbn [nth length filter].
  - rewrite (proj2 (Qle_bool_iff a a) (Qle_refl a)). simpl.
    split; [lia|]. apply le_n_S.
    rewrite (filter_ext_in _ (fun _ => true)), filter_true; [lia|].
    intros x Hx. apply Qle_bool_iff. eapply Forall_forall in Ha; [exact Ha | exact Hx].
  - simpl in Hk. destruct (IH k Hs ltac:(lia)) as [I1 I2].
    assert (a <= nth k s 0) by (eapply Forall_forall; [exact Ha | apply nth_In; lia]).
    rewrite (proj2 (Qle_bool_iff a (nth k s 0)) H). simpl. split; [lia|].
    destruct (Qle_bool (nth k s 0) a); simpl; lia.
Qed.

Lemma sorted_nth_le (s : list Q) (i j : nat) :
  StronglySorted Qle s -> (i <= j)%nat -> (j < length s)%nat -> nth i s 0 <= nth j s 0.
Proof.
  revert i j; induction s as [|a s IH]; intros i j H Hij Hj; [simpl in Hj; lia|].
  apply StronglySorted_inv in H as [Hs Ha]. simpl in Hj.
  destruct i as [|i], j as [|j]; cbn [nth]; [apply Qle_refl | | lia | apply IH; auto; lia].
  eapply Forall_forall; [exact Ha | apply nth_In; lia].
Qed.

(** Both counts are taken on the sorted column and carried back. *)
Lemma counts_sort_q (m : Q) (l : list Q) :
  count_le m (sort_q l) = count_le m l /\ count_ge m (sort_q l) = count_ge m l.
Proof. unfold count_le, count_ge. split; apply filter_length_perm, sort_q_perm. Qed.

Lemma in_sort_q (x : Q) (l : list Q) : In x (sort_q l) -> In x l.
Proof. apply Permutation_in, sort_q_perm. Qed.

(** pandas' [median]: NaN for an empty column; otherwise a median of
    the column (the middle value, or the mean of the two middle values, of
    the sorted column). *)
Lemma pd_median_range (l : list Q) :
  (l = [] -> pd_median l = NaN) /\
  (l <> [] -> exists m, pd_median l = Fin m /\ median_of m l).
Proof.
  split; [intros ->; reflexivity|]. intros Hne.
  pose proof (sort_q_sorted l) as Hs. pose proof (Permutation_length (sort_q_perm l)) as Hl.
  unfold pd_median. cbv zeta. set (s := sort_q l) in *.
  destruct (length s) as [|n'] eqn:En; [destruct l; [congruence | discriminate]|].
  set (n := S n') in *. assert (Hn : (1 <= n)%nat) by (unfold n; lia).
  destruct (Nat.odd n) eqn:Eo.
  - apply Nat.odd_spec in Eo as [j Ej].
    assert (Hj : (n / 2 = j)%nat) by (rewrite Ej; symmetry; apply (Nat.div_unique _ _ _ 1); lia).
    rewrite Hj. eexists; split; [reflexivity|].
    destruct (sorted_counts s j Hs ltac:(lia)) as [C1 C2].
    destruct (counts_sort_q (nth j s 0) l) as [E1 E2]. fold s in E1, E2.
    assert (Hin : In (nth j s 0) l) by (apply in_sort_q, nth_In; fold s; lia).
    split; [lia|]. split; [lia|]. exists (nth j s 0), (nth j s 0). split; [exact Hin|].
    split; [exact Hin | split; apply Qle_refl].
  - assert (Ee : Nat.even n = true) by (rewrite <- Nat.negb_odd, Eo; reflexivity).
    apply Nat.even_spec in Ee as [j Ej].
    assert (Hj : (n / 2 = j)%nat) by (rewrite Ej; symmetry; apply (Nat.div_unique _ _ _ 0); lia).
    rewrite Hj. eexists; split; [reflexivity|].
    destruct (sorted_counts s (j - 1) Hs ltac:(lia)) as [C1 _].
    destruct (sorted_counts s j Hs ltac:(lia)) as [_ C2].
    set (lo := nth (j - 1) s 0) in *. set (hi := nth j s 0) in *.
    assert (Hlh : lo <= hi) by (apply sorted_nth_le; auto; lia).
    assert (Hmid : (lo + hi) / 2 == (1 # 2) * lo + (1 # 2) * hi) by field.
    destruct (counts_sort_q ((lo + hi) / 2) l) as [E1 E2]. fold s in E1, E2.
    assert (M1 : (count_le lo s <= count_le ((lo + hi) / 2) s)%nat).
    { apply filter_length_mono. intros x _ Hx. apply Qle_bool_iff in Hx. apply Qle_bool_iff. lra. }
    assert (M2 : (count_ge hi s <= count_ge ((lo + hi) / 2) s)%nat).
    { apply filter_length_mono. intros x _ Hx. apply Qle_bool_iff in Hx. apply Qle_bool_iff. lra. }
    split; [lia|]. split; [lia|]. exists lo, hi.
    split; [apply in_sort_q, nth_In; fold s; lia|]. split; [apply in_sort_q, nth_In; fold s; lia|].
    split; lra.
Qed.

(** ** The centre of [main] *)

Section MainCentre.
Context `{GS : GSTools}.
Variable to_meters : Q -> Q -> Q * Q.
Variable to_lonlat : Q -> Q -> Q * Q.

(** C19. The map centre [main] of [heatmap_gstools.py] computes (lines
    280-282): when the pipeline succeeds, its latitude is a finite median
    of the [lat] column and its longitude a finite median of the [lon]
    column (at least half of the column on each side, between two of its
    values); neither is NaN, since a successful run has points. *)
Theorem main_heatmap_centre (lat lon rssi : list Q) (grid : Q) heat c :
  main_heatmap to_meters to_lonlat lat lon rssi grid = Ok (heat, c) ->
  exists mla mlo, c = (Fin mla, Fin mlo) /\ median_of mla lat /\ median_of mlo lon.
Proof.
  intros H. unfold main_heatmap in H.
  assert (Hne : lat <> [] /\ lon <> []).
  { split; intros ->; [destruct lon|]; cbn in H; discriminate H. }
  destruct (project_to_meters to_meters lat lon) as [x y].
  destruct (build_grid x y grid) as [[[[gx gy] gridx] gridy]|e]; cbn [res_bind] in H; [|discriminate].
  destruct (fit_variogram x y rssi None 20) as [model|e]; cbn [res_bind] in H; [|discriminate].
  destruct (krige_with_gstools model x y rssi gx gy gridx gridy) as [field|e];
    cbn [res_bind] in H; [|discriminate].
  destruct (to_latlon to_lonlat (flatten gridx) (flatten gridy)) as [lats lons].
  unfold grid_to_heatmap_data in H. cbn beta iota zeta in H. injection H as _ <-.
  destruct (proj2 (pd_median_range lat) (proj1 Hne)) as [mla [E1 M1]].
  destruct (proj2 (pd_median_range lon) (proj2 Hne)) as [mlo [E2 M2]].
  exists mla, mlo. rewrite E1, E2. auto.
Qed.

End MainCentre.

(** ** Witnesses *)

Lemma main_heatmap_centre_witness :
  exists heat c,
    @main_heatmap kriging_backend (fun lo la => (lo, la)) (fun xv yv => (xv, yv))
      [0; 1] [2; 5] [-60; -70] 10 = Ok (heat, c) /\
    exists mla mlo, c = (Fin mla, Fin mlo) /\ median_of mla [0; 1] /\ median_of mlo [2; 5].
Proof.
  destruct (@main_heatmap kriging_backend (fun lo la => (lo, la)) (fun xv yv => (xv, yv))
              [0; 1] [2; 5] [-60; -70] 10) as [[heat c]|e] eqn:E; [| vm_compute in E; discriminate E].
  exists heat, c. split; [reflexivity|]. exact (main_heatmap_centre _ _ _ _ _ _ _ _ E).
Defined.
