(* ===== verification/RawLoad.v ===== *)
(** * [heatmap_generator.py]: loading with [astype(float)] and the raw heatmap

    [heatmap_generator.py] reads the CSV with five column names (lines
    9-10), converts the [lat], [lon] and [rssi] columns in that order with
    [Series.astype(float)] (lines 13-15), adds [weight = 100 + rssi] (line
    19) and hands [[lat, lon, weight]] of every row to the heatmap (line
    22).  Unlike [load_csv] of [heatmap_gstools.py] there is no [dropna]:
    a missing cell (NaN, also what pandas puts in a short row) stays, and
    a NaN RSSI becomes a NaN weight; a text cell makes [astype] raise
    [ValueError].  [heatmap_generator-2.py] (lines 16-18) and
    [heatmap-generator-3.py] (lines 17-19) load the same way.

    The frame, its cells and [Series.astype(float)] on one cell are those
    of [Loader]; the weights are [Weights.raw_heat_data]. *)

From Stdlib Require Import QArith String List Lia.
From S2P Require Import Prelude PyFloat Weights Loader.
Import ListNotations.

Local Open Scope py_scope.

(** [df["name"]]: the cells of one column; pandas fills a missing trailing
    field with NaN. *)
Definition column (k : nat) (df : frame) : list cell :=
  map (fun r => nth k r (CVal NaN)) (rows df).

(** [Series.astype(float)]: the first text cell raises [ValueError]. *)
Fixpoint astype_column (cs : list cell) : res (list pyfloat) :=
  match cs with
  | [] => Ok []
  | c :: rest => v <- astype_float c ;; vs <- astype_column rest ;; Ok (v :: vs)
  end.

(** Lines 13-15: [lat], then [lon], then [rssi]. *)
Definition load_astype (df : frame) : res (list pyfloat * list pyfloat * list pyfloat) :=
  la <- astype_column (column 1 df) ;;
  lo <- astype_column (column 2 df) ;;
  rs <- astype_column (column 0 df) ;;
  Ok (la, lo, rs).

(** Lines 13-22: the loaded columns, the weight column and [heat_data]. *)
Definition heatmap_generator (df : frame) : res (list (pyfloat * pyfloat * pyfloat)) :=
  res_bind (load_astype df) (fun '(la, lo, rs) => Ok (raw_heat_data la lo rs)).

(** A text cell. *)
Definition is_text (c : cell) : bool := match c with CStr _ => true | CVal _ => false end.

(** ** [astype] on a column *)

Lemma astype_column_spec (cs : list cell) :
  (astype_column cs = Raise ValueError <-> existsb is_text cs = true) /\
  (forall e, astype_column cs = Raise e -> e = ValueError) /\
  (forall vs, astype_column cs = Ok vs -> Forall2 (fun c v => c = CVal v) cs vs).
Proof.
  induction cs as [|c cs IH]; cbn [astype_column existsb].
  - split; [split; discriminate|]. split; [discriminate|]. intros vs E; injection E as <-; constructor.
  - destruct IH as [I1 [I2 I3]]. destruct c as [v|s]; cbn [astype_float res_bind is_text orb].
    + destruct (astype_column cs) as [vs|e] eqn:E; cbn [res_bind].
      * split; [split; [discriminate | intros H; apply I1 in H; discriminate]|].
        split; [discriminate|]. intros vs' H; injection H as <-. constructor; [reflexivity | apply I3; reflexivity].
      * split; [exact I1|]. split; [exact I2 | discriminate].
    + split; [split; reflexivity|]. split; [intros e H; injection H as <-; reflexivity | discriminate].
Qed.

Lemma length_column (k : nat) (df : frame) : length (column k df) = length (rows df).
Proof. apply length_map. Qed.

Lemma existsb_column (k : nat) (df : frame) :
  existsb is_text (column k df) = true <->
  exists r, In r (rows df) /\ is_text (nth k r (CVal NaN)) = true.
Proof.
  unfold column. rewrite existsb_exists. split.
  - intros [c [Hc Ht]]. apply in_map_iff in Hc as [r [<- Hr]]. exists r. split; assumption.
  - intros [r [Hr Ht]]. exists (nth k r (CVal NaN)). split; [apply (in_map (fun r => nth k r (CVal NaN))); exact Hr | exact Ht].
Qed.

(** C16. The types [heatmap_generator.py] gives its columns: it raises
    only [ValueError], exactly when some row has text in [rssi], [lat] or
    [lon]; otherwise every row, none dropped, gives one heatmap point
    whose latitude and longitude are the row's float cells and whose
    weight is [100 + rssi], NaN when the RSSI is missing. *)
Theorem heatmap_generator_types (df : frame) :
  (heatmap_generator df = Raise ValueError <->
     exists r, In r (rows df) /\
       (is_text (nth 0 r (CVal NaN)) = true \/ is_text (nth 1 r (CVal NaN)) = true \/
        is_text (nth 2 r (CVal NaN)) = true)) /\
  (forall e, heatmap_generator df = Raise e -> e = ValueError) /\
  (forall out, heatmap_generator df = Ok out ->
     Forall2 (fun r p =>
       nth 1 r (CVal NaN) = CVal (fst (fst p)) /\ nth 2 r (CVal NaN) = CVal (snd (fst p)) /\
       exists v, nth 0 r (CVal NaN) = CVal v /\ snd p = pf_add (Fin 100) v) (rows df) out).
Proof.
  destruct (astype_column_spec (column 1 df)) as [A1 [B1 C1]].
  destruct (astype_column_spec (column 2 df)) as [A2 [B2 C2]].
  destruct (astype_column_spec (column 0 df)) as [A0 [B0 C0]].
  rewrite existsb_column in A0, A1, A2.
  unfold heatmap_generator, load_astype.
  destruct (astype_column (column 1 df)) as [la|e1]; cbn [res_bind];
    [|specialize (B1 e1 eq_refl); subst e1; split; [split; [intros _; destruct (proj1 A1 eq_refl) as [r Hr]; exists r; tauto | reflexivity]|];
      split; [intros e H; injection H as <-; reflexivity | discriminate]].
  destruct (astype_column (column 2 df)) as [lo|e2]; cbn [res_bind];
    [|specialize (B2 e2 eq_refl); subst e2; split; [split; [intros _; destruct (proj1 A2 eq_refl) as [r Hr]; exists r; tauto | reflexivity]|];
      split; [intros e H; injection H as <-; reflexivity | discriminate]].
  destruct (astype_column (column 0 df)) as [rs|e0]; cbn [res_bind];
    [|specialize (B0 e0 eq_refl); subst e0; split; [split; [intros _; destruct (proj1 A0 eq_refl) as [r Hr]; exists r; tauto | reflexivity]|];
      split; [intros e H; injection H as <-; reflexivity | discriminate]].
  split; [split; [discriminate|]|split; [discriminate|]].
  - intros [r [Hr [H|[H|H]]]];
      [pose proof (proj2 A0 (ex_intro _ r (conj Hr H))) | pose proof (proj2 A1 (ex_intro _ r (conj Hr H)))
      | pose proof (proj2 A2 (ex_intro _ r (conj Hr H)))]; discriminate.
  - intros out H. injection H as <-. unfold raw_heat_data.
    specialize (C0 rs eq_refl). specialize (C1 la eq_refl). specialize (C2 lo eq_refl).
    unfold column in C0, C1, C2. apply Forall2_map_l in C0, C1, C2.
    assert (C3 : Forall2 (fun r w => exists v, nth 0 r (CVal NaN) = CVal v /\ w = pf_add (Fin 100) v)
                   (rows df) (map (fun r => pf_add (Fin 100) r) rs)).
    { apply Forall2_map_r. eapply Forall2_impl; [|exact C0]. intros r v Hv. exists v. split; [exact Hv | reflexivity]. }
    exact (Forall2_zip3 _ _ _ _ _ _ _ C1 C2 C3).
Qed.

(** ** Witnesses *)

Lemma heatmap_generator_types_witness :
  heatmap_generator (mk_frame 5 [[CVal (Fin (-60)); CVal (Fin 53); CVal (Fin 0)];
                                 [CVal NaN; CStr String.EmptyString; CVal (Fin 1)]]) = Raise ValueError.
Proof.
  apply (proj2 (proj1 (heatmap_generator_types _))).
  exists [CVal NaN; CStr String.EmptyString; CVal (Fin 1)]. split; [right; left; reflexivity|].
  right; left; reflexivity.
Defined.
