(* ===== verification/Folium.v ===== *)
(** * The folium maps the heatmap scripts save

    Every heatmap script ends by building a [folium.Map], adding layers to
    it with [add_to] and saving it.  The map is modelled as the object the
    code builds: its location, zoom, tiles, scale control and its children
    in the order they were added ([add_to] appends); [m.save(path)] is the
    pair of the path and the map.  The HTML folium renders from it is not
    modelled.

    - [create_folium_map] of [heatmap_gstools.py] (lines 222-242): the
      OpenStreetMap base, the optional Esri satellite tiles, a feature
      group holding the [HeatMap], and a layer control;
    - [main] of [heatmap_gstools.py] (lines 245-285): the argument
      defaults and the call of [create_folium_map] on the output of
      [Pipeline.main_heatmap];
    - the maps of [heatmap_generator.py] (lines 26-37),
      [heatmap_generator-2.py] (lines 74-85) and [heatmap-generator-3.py]
      (lines 88-98), a fixed centre and one [HeatMap] layer.

    A heatmap point is [[float(lat), float(lon), float(w)]]: three floats. *)

From Stdlib Require Import QArith String List Lia.
From S2P Require Import Prelude PyFloat NdArray Grid Weights Backend Variogram Kriging Pipeline PyKrige Loader Binning RawLoad.
Import ListNotations.

Local Open Scope py_scope.

Definition hpoint : Type := (pyfloat * pyfloat * pyfloat)%type.

(** [[float(lat), float(lon), float(w)]] *)
Definition to_hpoint (p : Q * Q * pyfloat) : hpoint :=
  let '(la, lo, w) := p in (Fin la, Fin lo, w).

Inductive layer : Type :=
| TileLayer (tiles attr name : string) (overlay control : bool)
| HeatMap (data : list hpoint) (radius blur : Z) (min_opacity : Q) (max_zoom : Z)
| FeatureGroup (name : string) (overlay show : bool) (children : list layer)
| LayerControl.

Record fmap : Type := mk_fmap {
  location : pyfloat * pyfloat;
  zoom_start : Z;
  tiles : string;
  control_scale : bool;
  children : list layer
}.

(** [folium.Map(location=..., zoom_start=..., tiles=..., control_scale=...)]:
    no layer yet. *)
Definition folium_Map (loc : pyfloat * pyfloat) (zoom : Z) (t : string) (cs : bool) : fmap :=
  mk_fmap loc zoom t cs [].

(** [l.add_to(m)]: [l] becomes the last child of [m]. *)
Definition add_to (l : layer) (m : fmap) : fmap :=
  mk_fmap (location m) (zoom_start m) (tiles m) (control_scale m) (children m ++ [l]).

(** ** [create_folium_map] *)

Definition esri_layer : layer :=
  TileLayer ("https://server.arcgisonline.com/ArcGIS/rest/services/World_Imagery/MapServer/tile/{z}/{y}/{x}")%string
    "Esri"%string "Esri.WorldImagery"%string false true.

Definition create_folium_map (lat_center lon_center : pyfloat) (heatmap_data : list hpoint)
    (out_html : string) (radius blur : Z) (satellite : bool) : string * fmap :=
  let m := folium_Map (lat_center, lon_center) 15 "OpenStreetMap"%string true in
  let m := if satellite then add_to esri_layer m else m in
  let fg := FeatureGroup "Kriged RSSI Heatmap"%string true true
              [HeatMap heatmap_data radius blur (1 # 4) 20] in
  let m := add_to fg m in
  let m := add_to LayerControl m in
  (out_html, m).

(** ** [main] of [heatmap_gstools.py] *)

(** The arguments of [main], with their defaults (lines 246-251). *)
Record cli_args : Type := mk_args {
  arg_csv : string;
  arg_out : string;
  arg_grid : Q;
  arg_radius : Z;
  arg_satellite : bool
}.

Definition default_args : cli_args :=
  mk_args "./csv/RIH-all.csv"%string "gps_heatmap_gstools.html"%string 30 20 false.

Section MainMap.
Context `{GS : GSTools}.
Variable to_meters : Q -> Q -> Q * Q.
Variable to_lonlat : Q -> Q -> Q * Q.

(** Lines 254-285, on the loaded columns: the pipeline, then the map
    ([create_folium_map] with [blur] at its default 12). *)
Definition main_gstools (args : cli_args) (lat lon rssi : list Q) : res (string * fmap) :=
  res_bind (main_heatmap to_meters to_lonlat lat lon rssi (arg_grid args))
    (fun '(heat, (lat_c, lon_c)) =>
       Ok (create_folium_map lat_c lon_c (map to_hpoint heat) (arg_out args)
             (arg_radius args) 12 (arg_satellite args))).

End MainMap.

(** ** The other heatmap scripts *)

(** [folium.Map(location=[53.26831, -0.52984], zoom_start=15)] *)
Definition fixed_map : fmap :=
  folium_Map (Fin (5326831 # 100000), Fin (-52984 # 100000)) 15 "OpenStreetMap"%string false.

(** [heatmap_generator.py] lines 26-37. *)
Definition heatmap_generator_map (df : frame) : res (string * fmap) :=
  res_bind (heatmap_generator df) (fun heat_data =>
    Ok ("gps_heatmap-all.html"%string, add_to (HeatMap heat_data 20 18 (3 # 10) 17) fixed_map)).

(** [heatmap_generator-2.py] lines 74-85. *)
Definition generator2_map (to_meters to_lonlat : Q -> Q -> Q * Q)
    (samples : list (pyfloat * Q * Q)) : string * fmap :=
  let heat_data := map to_hpoint (averaged_heat_data to_meters to_lonlat samples) in
  ("gps_heatmap-RIH-all-5m-averaged.html"%string,
   add_to (HeatMap heat_data 25 20 (4 # 10) 20) fixed_map).

(** [heatmap-generator-3.py] lines 88-98. *)
Definition generator3_map (to_meters to_lonlat : Q -> Q -> Q * Q)
    (ok_fit : list Q -> list Q -> list Q -> res (Q -> Q -> pyfloat))
    (lat lon rssi : list Q) : res (string * fmap) :=
  res_bind (main_pykrige to_meters to_lonlat ok_fit lat lon rssi) (fun heatmap_data =>
    Ok ("gps_heatmap_30m_spherical_kriging.html"%string,
        add_to (HeatMap (map to_hpoint heatmap_data) 20 15 (35 # 100) 20) fixed_map)).
